(** * Communication Analysis Tool: analyzers, aggregator and chat parser

    A shallow embedding of the Python modules

    - [modules/spam_detector.py]      (class [SpamDetector]),
    - [modules/sentiment_analyzer.py] (class [SentimentAnalyzer]),
    - [modules/style_analyzer.py]     (class [StyleAnalyzer]),
    - [modules/metrics_calculator.py] ([calculate_content_metrics],
      [calculate_engagement_metrics]),
    - [modules/report_generator.py]   (the three parsers
      [_parse_whatsapp_content], [_parse_single_email_block] and
      [_parse_multi_email_file], the format checks [_is_whatsapp_format]
      and [_has_email_boundary], and the analysis loop of
      [generate_custom_test_report]),

    together with the properties of the written specification that concern
    them.

    Conventions of the embedding.

    - A Python [str] is a [string]: a sequence of 8-bit characters read as
      the code points U+0000..U+00FF.  The character classes ([str.isspace],
      [str.lower], [\s], [\d], line boundaries) are those of CPython on that
      range.
    - A Python [float] is a primitive binary64 [float]; [+ - * /] and the
      comparisons are the IEEE operations, as in CPython.  [int / int] is the
      correctly rounded quotient, [round(x, 2)] is the correctly rounded
      two-decimal value (round-half-even on the exact binary value).
    - A Python [int] is a [Z] (or a [nat] for a counter that only grows).
    - A [dict] used as a record of message fields is a [gmap string pyval];
      a [defaultdict(int)] of word counts is a [gmap string nat] whose
      [__getitem__] inserts the default on a miss; a [dict] whose iteration
      order matters is an association list in insertion order.
    - A raised exception is the [inl] of a sum; mutation of [self] is
      explicit state passing. *)

From Stdlib Require Import ZArith QArith Floats List Ascii String Bool Lia Lqa.
From Stdlib Require Import Sorting.Sorted Sorting.Permutation DecimalString.
From Stdlib Require DecimalNat.
From stdpp Require Import base option list gmap strings.

Set Warnings "-inexact-float".
Local Open Scope string_scope.
Local Open Scope list_scope.

(** ** Python strings *)

Module Py.

(** Code point of a character. *)
Definition ord (c : ascii) : N := N_of_ascii c.

Definition in_range (lo hi : N) (c : ascii) : bool :=
  ((lo <=? ord c) && (ord c <=? hi))%N.

(** [str.isspace] on one character (also the class [\s] of [re]). *)
Definition isspace (c : ascii) : bool :=
  in_range 9 13 c || in_range 28 32 c || (ord c =? 133)%N || (ord c =? 160)%N.

(** The class [\d] of [re]. *)
Definition isdigit (c : ascii) : bool := in_range 48 57 c.

(** The class [[a-z]]. *)
Definition is_az (c : ascii) : bool := in_range 97 122 c.

(** The class [[a-z']]. *)
Definition is_az_apos (c : ascii) : bool := is_az c || (ord c =? 39)%N.

(** [str.lower] on one character. *)
Definition lower_char (c : ascii) : ascii :=
  if in_range 65 90 c || (in_range 192 222 c && negb (ord c =? 215)%N)
  then ascii_of_N (ord c + 32)
  else c.

(** [str.lower]. *)
Fixpoint lower (s : string) : string :=
  match s with
  | EmptyString => EmptyString
  | String c s' => String (lower_char c) (lower s')
  end.

Fixpoint lstrip (s : string) : string :=
  match s with
  | EmptyString => EmptyString
  | String c s' => if isspace c then lstrip s' else s
  end.

Fixpoint rev_string (acc s : string) : string :=
  match s with
  | EmptyString => acc
  | String c s' => rev_string (String c acc) s'
  end.

Definition rstrip (s : string) : string :=
  rev_string EmptyString (lstrip (rev_string EmptyString s)).

(** [str.strip()] with no argument. *)
Definition strip (s : string) : string := rstrip (lstrip s).

(** The string of one line feed. *)
Definition newline : string := String "010" EmptyString.

(** Truth value of a string: [not s] is [is_empty s]. *)
Definition is_empty (s : string) : bool :=
  match s with EmptyString => true | _ => false end.

(** Every character is white space (this includes the empty string). *)
Fixpoint all_space (s : string) : bool :=
  match s with
  | EmptyString => true
  | String c s' => isspace c && all_space s'
  end.

(** The pending run of [findall], most recent character first. *)
Definition flush (cur : list ascii) : list string :=
  match cur with
  | [] => []
  | _ => [string_of_list_ascii (rev cur)]
  end.

(** [re.findall(r"[cls]+", s)] for a character class [cls]: the maximal
    runs of characters of the class, left to right. *)
Fixpoint findall_runs (cls : ascii -> bool) (cur : list ascii) (s : string)
  : list string :=
  match s with
  | EmptyString => flush cur
  | String c s' =>
      if cls c then findall_runs cls (c :: cur) s'
      else flush cur ++ findall_runs cls [] s'
  end.

(** [x in S] for a set of strings written as a literal. *)
Definition mem (x : string) (S : list string) : bool :=
  existsb (String.eqb x) S.

(** Every character of [s] is in the class [cls]. *)
Fixpoint all_chars (cls : ascii -> bool) (s : string) : bool :=
  match s with
  | EmptyString => true
  | String c s' => cls c && all_chars cls s'
  end.

(** A word of the class [cls]: a non-empty string of its characters. *)
Definition word_of (cls : ascii -> bool) (w : string) : Prop :=
  w <> EmptyString /\ all_chars cls w = true.

(** The number of occurrences of [w] in a list of strings. *)
Definition occurrences (w : string) (l : list string) : nat :=
  length (List.filter (String.eqb w) l).

(** A string that is empty or starts with a character that is no digit. *)
Definition no_digit_first (s : string) : bool :=
  match s with
  | EmptyString => true
  | String c _ => negb (isdigit c)
  end.

(** [sep.join(l)] *)
Fixpoint join (sep : string) (l : list string) : string :=
  match l with
  | [] => EmptyString
  | [x] => x
  | x :: l' => x +:+ sep +:+ join sep l'
  end.

(** [s.startswith(p)] *)
Fixpoint startswith (s p : string) : bool :=
  match p, s with
  | EmptyString, _ => true
  | String a p', String b s' => Ascii.eqb a b && startswith s' p'
  | String _ _, EmptyString => false
  end.

(** [s[n:]] *)
Fixpoint drop (n : nat) (s : string) : string :=
  match n, s with
  | S n', String _ s' => drop n' s'
  | _, _ => s
  end.

(** [sub in s] *)
Fixpoint contains (sub s : string) : bool :=
  startswith s sub
  || match s with
     | EmptyString => false
     | String _ s' => contains sub s'
     end.

(** [s.split(sep)] for a non-empty separator: the pieces between the
    occurrences of [sep], found from left to right.  [cur] is the pending
    piece, last character first; [skip] counts the characters of an
    occurrence still to pass. *)
Fixpoint split_from (sep : string) (cur : list ascii) (skip : nat) (s : string)
  : list string :=
  match s with
  | EmptyString => [string_of_list_ascii (rev cur)]
  | String c s' =>
      match skip with
      | S k => split_from sep cur k s'
      | O =>
          if startswith s sep
          then string_of_list_ascii (rev cur)
               :: split_from sep [] (String.length sep - 1) s'
          else split_from sep (c :: cur) 0 s'
      end
  end.

Definition split (s sep : string) : list string := split_from sep [] 0 s.

End Py.

(** ** Python floats and the int/float arithmetic the modules use *)

Module PyFloat.

Local Open Scope Z_scope.

(** An integer as an (unnormalised) binary float [z * 2^0]. *)
Definition Z2SF (z : Z) : spec_float :=
  match z with
  | Z0 => S754_zero false
  | Zpos p => S754_finite false p 0
  | Zneg p => S754_finite true p 0
  end.

(** [float(z)] for an [int]: the nearest float, ties to even. *)
Definition of_int (z : Z) : float :=
  SF2Prim (binary_normalize prec emax z 0 false).

(** [a / b] for two [int]s with [b <> 0]: the correctly rounded quotient. *)
Definition int_truediv (a b : Z) : float :=
  SF2Prim (SFdiv prec emax (Z2SF a) (Z2SF b)).

(** [max(a, b)] and [min(a, b)] of the builtins: the first argument is kept
    unless the second is strictly beyond it. *)
Definition max (a b : float) : float := if (a <? b)%float then b else a.
Definition min (a b : float) : float := if (b <? a)%float then b else a.

(** A float that is not negative: its sign bit is clear, or it is a NaN. *)
Definition not_negative (x : spec_float) : bool :=
  match x with
  | S754_zero s | S754_infinity s | S754_finite s _ _ => negb s
  | S754_nan => true
  end.

(** Nearest integer to [num / den] ([den > 0]), ties to even. *)
Definition round_half_even (num den : Z) : Z :=
  let q := num / den in
  let r := num mod den in
  match (2 * r ?= den) with
  | Lt => q
  | Gt => q + 1
  | Eq => if Z.even q then q else q + 1
  end.

(** [round(x, 2)]: the decimal with two fractional digits nearest to the
    exact value of [x] (ties to even), converted back to the nearest float;
    infinities and NaN round to themselves, the sign of a zero result is
    that of [x]. *)
Definition round2 (x : float) : float :=
  match Prim2SF x with
  | S754_finite s m e =>
      let sm := if s then Zneg m else Zpos m in
      let n := if 0 <=? e then sm * 100 * 2 ^ e
               else round_half_even (sm * 100) (2 ^ (- e)) in
      if n =? 0 then (if s then PrimFloat.neg_zero else PrimFloat.zero)
      else int_truediv n 100
  | _ => x
  end.

(** Exact comparison of an [int] with a [float], as CPython compares them;
    [None] when the float is a NaN. *)
Definition compare_int_float (z : Z) (f : float) : option comparison :=
  match Prim2SF f with
  | S754_nan => None
  | S754_infinity s => Some (if s then Gt else Lt)
  | S754_zero _ => Some (z ?= 0)
  | S754_finite s m e =>
      let sm := if s then Zneg m else Zpos m in
      Some (if 0 <=? e then z ?= sm * 2 ^ e else z * 2 ^ (- e) ?= sm)
  end.

(** [z > f] for an [int] [z] and a [float] [f]. *)
Definition int_gt_float (z : Z) (f : float) : bool :=
  match compare_int_float z f with Some Gt => true | _ => false end.

(** [f == z] for a [float] [f] and an [int] [z]. *)
Definition float_eq_int (f : float) (z : Z) : bool :=
  match compare_int_float z f with Some Eq => true | _ => false end.

End PyFloat.

(** ** [modules/sentiment_analyzer.py] *)

Module SentimentAnalyzer.

Definition positive_words : list string :=
  [ "good"; "great"; "excellent"; "wonderful"; "amazing"; "happy"; "joy";
    "love"; "fantastic"; "awesome"; "brilliant"; "positive"; "super";
    "success"; "benefit"; "pleasure"; "like"; "best"; "perfect"; "nice";
    "beautiful"; "friendly"; "kind"; "optimistic"; "glad"; "delight"; "cheer";
    "agree"; "fine"; "ok"; "okay"; "cool"; "yeah" ].

Definition negative_words : list string :=
  [ "bad"; "terrible"; "horrible"; "awful"; "sad"; "unhappy"; "hate";
    "poor"; "negative"; "fail"; "problem"; "issue"; "worry"; "stress";
    "difficult"; "worst"; "ugly"; "dislike"; "error"; "compromise"; "urgent";
    "spam"; "scam"; "fraud"; "danger"; "risk"; "threat"; "warning";
    "suspicious"; "not"; "no"; "never"; "can't"; "don't" ].

(** [re.findall(r'[a-z]+', text.lower())] *)
Definition _tokenize (text : string) : list string :=
  Py.findall_runs Py.is_az [] (Py.lower text).

(** One turn of the counting loop on [(positive_count, negative_count)]. *)
Definition count_word (acc : nat * nat) (word : string) : nat * nat :=
  let '(positive_count, negative_count) := acc in
  if Py.mem word positive_words then (S positive_count, negative_count)
  else if Py.mem word negative_words then (positive_count, S negative_count)
  else acc.

Definition analyze (text : string) : string :=
  if Py.is_empty (Py.strip text) then "neutral"
  else
    let words := _tokenize text in
    let '(positive_count, negative_count) := fold_left count_word words (0, 0) in
    if Nat.ltb negative_count positive_count then "positive"
    else if Nat.ltb positive_count negative_count then "negative"
    else "neutral".

End SentimentAnalyzer.

(** ** [modules/style_analyzer.py] *)

Module StyleAnalyzer.

Definition formal_keywords : list string :=
  [ "furthermore"; "moreover"; "hence"; "thus"; "consequently"; "therefore";
    "sincerely"; "regards"; "cordially"; "to whom it may concern";
    "pursuant to"; "in accordance with"; "commence"; "terminate"; "endeavor";
    "facilitate"; "utilize"; "prioritize"; "hereby"; "herein"; "thereby";
    "therein"; "herewith"; "acquisition"; "disbursement"; "ameliorate";
    "concerning"; "regarding"; "notwithstanding"; "respectfully";
    "additionally"; "nevertheless"; "consequently"; "subsequently";
    "heretofore"; "hereunder"; "thereafter"; "thereupon"; "whereby";
    "whereas"; "inquire"; "advise"; "confirm"; "request"; "duly"; "herewith";
    "thereof"; "accordingly"; "according"; "hereby"; "herein"; "thereby";
    "therein"; "wherefore"; "whereupon" ].

Definition informal_keywords : list string :=
  [ "hey"; "hi"; "lol"; "brb"; "btw"; "gonna"; "wanna"; "lemme"; "y'all";
    "asap"; "imo"; "fyi"; "kinda"; "sorta"; "chill"; "dude"; "bro"; "yeah";
    "nah"; "awesome"; "cool"; "super"; "greetings"; "whats up"; "cya"; "np";
    "omg"; "tho"; "dunno"; "nite"; "pls"; "thx"; "u"; "ur"; "r"; "lmao";
    "rofl"; "gotta"; "k"; "cuz"; "ya"; "coz"; "sup"; "yo" ].

Definition contractions : list string :=
  [ "i'm"; "you're"; "he's"; "she's"; "it's"; "we're"; "they're"; "i've";
    "you've"; "we've"; "they've"; "i'd"; "you'd"; "he'd"; "she'd"; "we'd";
    "they'd"; "i'll"; "you'll"; "he'll"; "she'll"; "it'll"; "we'll";
    "they'll"; "isn't"; "aren't"; "wasn't"; "weren't"; "hasn't"; "haven't";
    "hadn't"; "won't"; "wouldn't"; "don't"; "doesn't"; "didn't"; "can't";
    "couldn't"; "shouldn't"; "mightn't"; "mustn't"; "shan't"; "needn't" ].

(** [re.findall(r"[a-z']+", text.lower())] *)
Definition _tokenize (text : string) : list string :=
  Py.findall_runs Py.is_az_apos [] (Py.lower text).

(** The returned dictionary [{"Style Score": _, "Formality": _}]. *)
Record result := mkResult { Style_Score : float; Formality : string }.

(** The three counters of the loop. *)
Record counts := mkCounts
  { formal_count : nat; informal_count : nat; contraction_count : nat }.

(** One turn of the counting loop. *)
Definition count_word (c : counts) (word : string) : counts :=
  let c1 :=
    if Py.mem word formal_keywords then
      mkCounts (S (formal_count c)) (informal_count c) (contraction_count c)
    else if Py.mem word informal_keywords then
      mkCounts (formal_count c) (S (informal_count c)) (contraction_count c)
    else c in
  if Py.mem word contractions then
    mkCounts (formal_count c1) (informal_count c1) (S (contraction_count c1))
  else c1.

(** [(formal_count * 4 - informal_count * 1.5 - contraction_count * 3)
     / total_words]: the products by [4] and [3] are integer products, the
    others are float operations on the converted integers. *)
Definition formality_score_of (c : counts) (total_words : nat) : float :=
  ((PyFloat.of_int (Z.of_nat (formal_count c) * 4)
    - PyFloat.of_int (Z.of_nat (informal_count c)) * 1.5
    - PyFloat.of_int (Z.of_nat (contraction_count c) * 3))
   / PyFloat.of_int (Z.of_nat total_words))%float.

Definition classify (formality_score : float) : string :=
  if (0.10 <? formality_score)%float then "formal"
  else if (formality_score <? -0.15)%float then "informal"
  else "neutral".

Definition style_score_of (formality_score : float) : float :=
  let clamped_formality_score :=
    PyFloat.max (-0.7)%float (PyFloat.min 0.7%float formality_score) in
  let style_score :=
    PyFloat.round2 ((clamped_formality_score + 0.7) / 1.4 * 100)%float in
  PyFloat.max 0.0%float (PyFloat.min 100.0%float style_score).

Definition analyze (text : string) : result :=
  if Py.is_empty (Py.strip text) then mkResult 50.0%float "neutral"
  else
    let words := _tokenize text in
    match words with
    | [] => mkResult 50.0%float "neutral"
    | _ =>
        let total_words := length words in
        let c := fold_left count_word words (mkCounts 0 0 0) in
        let formality_score := formality_score_of c total_words in
        mkResult (style_score_of formality_score) (classify formality_score)
    end.

End StyleAnalyzer.

(** ** [modules/spam_detector.py] *)

Module SpamDetector.

(** The arithmetic [predict] performs on probabilities: the true division of
    two [int]s, the literal [1.0], the product, the test [== 0] and the
    comparison [>].  [float64] is the arithmetic of the Python code; [exact]
    is the same arithmetic without rounding, on the rationals. *)
Class Arith (num : Type) := mkArith
  { truediv : Z -> Z -> num;
    one : num;
    mul : num -> num -> num;
    eq_zero : num -> bool;
    gt : num -> num -> bool }.

#[global] Instance float64 : Arith float :=
  {| truediv := PyFloat.int_truediv;
     one := 1.0%float;
     mul := PrimFloat.mul;
     eq_zero := fun x => (x =? 0)%float;
     gt := fun x y => (y <? x)%float |}.

Definition exact : Arith Q :=
  {| truediv := fun a b => (inject_Z a / inject_Z b)%Q;
     one := 1%Q;
     mul := Qmult;
     eq_zero := fun x => Qeq_bool x 0;
     gt := fun x y => negb (Qle_bool x y) |}.

(** The attributes of a [SpamDetector] instance. *)
Record t := mk
  { ham_words : gmap string nat;
    spam_words : gmap string nat;
    ham_messages_count : nat;
    spam_messages_count : nat;
    all_words : gset string }.

Definition set_ham_words (d : gmap string nat) (self : t) : t :=
  mk d (spam_words self) (ham_messages_count self) (spam_messages_count self)
     (all_words self).

Definition set_spam_words (d : gmap string nat) (self : t) : t :=
  mk (ham_words self) d (ham_messages_count self) (spam_messages_count self)
     (all_words self).

(** The attributes as [__init__] sets them before training. *)
Definition empty : t := mk ∅ ∅ 0 0 ∅.

(** [d[k]] on a [defaultdict(int)]: a missing key is inserted with the
    default [0], which is returned. *)
Definition dd_getitem (d : gmap string nat) (k : string)
  : nat * gmap string nat :=
  match d !! k with
  | Some v => (v, d)
  | None => (0, <[k := 0]> d)
  end.

(** [d[k] += 1] on a [defaultdict(int)]. *)
Definition dd_incr (d : gmap string nat) (k : string) : gmap string nat :=
  let '(v, d') := dd_getitem d k in <[k := S v]> d'.

(** [sum(d.values())] *)
Definition sum_values (d : gmap string nat) : nat :=
  map_fold (fun _ v acc => v + acc) 0 d.

(** [re.findall(r'[a-z]+', text.lower())] *)
Definition _tokenize (text : string) : list string :=
  Py.findall_runs Py.is_az [] (Py.lower text).

(** One turn of the loop of [_train]. *)
Definition train_word (is_spam : bool) (self : t) (word : string) : t :=
  let self :=
    mk (ham_words self) (spam_words self) (ham_messages_count self)
       (spam_messages_count self) ({[ word ]} ∪ all_words self) in
  if is_spam then set_spam_words (dd_incr (spam_words self) word) self
  else set_ham_words (dd_incr (ham_words self) word) self.

Definition _train (self : t) (message : string) (is_spam : bool) : t :=
  let words := _tokenize message in
  let self := fold_left (train_word is_spam) words self in
  if is_spam then
    mk (ham_words self) (spam_words self) (ham_messages_count self)
       (S (spam_messages_count self)) (all_words self)
  else
    mk (ham_words self) (spam_words self) (S (ham_messages_count self))
       (spam_messages_count self) (all_words self).

(** The minimal default training. *)
Definition train_default (self : t) : t :=
  _train (_train self "hello how are you" false) "buy now free money" true.

(** [_load_and_train]: each training file is given by its lines, or is
    [None] when it does not exist.  (A file that exists is read without
    error here; the Python code falls back to [train_default] on a read
    error.) *)
Definition _load_and_train (self : t) (ham_file spam_file : option (list string))
  : t :=
  match ham_file, spam_file with
  | None, None => train_default self
  | _, _ =>
      let self :=
        match ham_file with
        | Some lines =>
            fold_left (fun s line => _train s (Py.strip line) false) lines self
        | None => self
        end in
      match spam_file with
      | Some lines =>
          fold_left (fun s line => _train s (Py.strip line) true) lines self
      | None => self
      end
  end.

(** The last statement of [_train]: the message is counted in its class. *)
Definition count_message (is_spam : bool) (self : t) : t :=
  if is_spam then
    mk (ham_words self) (spam_words self) (ham_messages_count self)
       (S (spam_messages_count self)) (all_words self)
  else
    mk (ham_words self) (spam_words self) (S (ham_messages_count self))
       (spam_messages_count self) (all_words self).

(** What training keeps true of an instance: the vocabulary is the set of
    the keys of the two class maps, and no count is [0]. *)
Definition consistent (self : t) : Prop :=
  (forall w, w ∈ all_words self
             <-> is_Some (ham_words self !! w) \/ is_Some (spam_words self !! w))
  /\ (forall w, ham_words self !! w <> Some 0)
  /\ (forall w, spam_words self !! w <> Some 0).

(** [_train] on each labelled message of a list, in turn. *)
Definition train_all (self : t) (examples : list (string * bool)) : t :=
  fold_left (fun self example => _train self (fst example) (snd example))
            examples self.

(** [SpamDetector(training_data_path)] *)
Definition __init__ (ham_file spam_file : option (list string)) : t :=
  _load_and_train empty ham_file spam_file.

Section Predict.
Context {num : Type} {A : Arith num}.

(** [_calculate_word_probability]: returns the probability and the
    dictionary it was given, as the subscript left it. *)
Definition _calculate_word_probability (self : t) (word : string)
    (category_word_counts : gmap string nat) (category_message_count : nat)
  : num * gmap string nat :=
  let vocab_size :=
    if (0 <? size (all_words self))%nat then size (all_words self) else 1 in
  let total_words_in_category := sum_values category_word_counts in
  let '(count, category_word_counts) :=
    dd_getitem category_word_counts word in
  (truediv (Z.of_nat count + 1)
           (Z.of_nat total_words_in_category + Z.of_nat vocab_size),
   category_word_counts).

(** One turn of the likelihood loop of [predict], on
    [(ham_likelihood, spam_likelihood)] and the instance. *)
Definition likelihood_step (st : num * num * t) (word : string)
  : num * num * t :=
  let '(ham_likelihood, spam_likelihood, self) := st in
  let '(p_ham, d) :=
    _calculate_word_probability self word (ham_words self)
                                (ham_messages_count self) in
  let self := set_ham_words d self in
  let ham_likelihood := mul ham_likelihood p_ham in
  let '(p_spam, d) :=
    _calculate_word_probability self word (spam_words self)
                                (spam_messages_count self) in
  let self := set_spam_words d self in
  let spam_likelihood := mul spam_likelihood p_spam in
  (ham_likelihood, spam_likelihood, self).

(** Lines 149-168 of [predict]: [(posterior_ham, posterior_spam)] of a
    token list, and the instance after the loop. *)
Definition posteriors (self : t) (words : list string) : num * num * t :=
  let total_messages :=
    Z.of_nat (ham_messages_count self + spam_messages_count self) in
  let prior_ham := truediv (Z.of_nat (ham_messages_count self)) total_messages in
  let prior_spam := truediv (Z.of_nat (spam_messages_count self)) total_messages in
  let '(ham_likelihood, spam_likelihood, self) :=
    fold_left likelihood_step words (one, one, self) in
  let posterior_ham := mul ham_likelihood prior_ham in
  let posterior_spam := mul spam_likelihood prior_spam in
  (posterior_ham, posterior_spam, self).

(** [predict]: the verdict ([true] for spam) and the instance after the
    call. *)
Definition predict (self : t) (message : string) : bool * t :=
  if Py.is_empty (Py.strip message) then (false, self)
  else
    let words := _tokenize message in
    if match words with [] => true | _ => false end
       || ((ham_messages_count self =? 0)%nat
           && (spam_messages_count self =? 0)%nat)
    then (false, self)
    else
      let total_messages := ham_messages_count self + spam_messages_count self in
      if (total_messages =? 0)%nat then (false, self)
      else
        let '(posterior_ham, posterior_spam, self) := posteriors self words in
        if eq_zero posterior_ham && eq_zero posterior_spam then (false, self)
        else (gt posterior_spam posterior_ham, self).

(** *** The computation of [predict] in the words of the specification *)

(** The vocabulary size, floored at [1]. *)
Definition vocab_size (self : t) : nat :=
  if (0 <? size (all_words self))%nat then size (all_words self) else 1.

(** The count of a word in a class map; a word never seen counts [0]. *)
Definition count_of (counts : gmap string nat) (word : string) : nat :=
  match counts !! word with Some n => n | None => 0 end.

(** [(count_in_class[word] + 1) / (total_words_in_class + vocabulary_size)] *)
Definition word_probability (self : t) (counts : gmap string nat)
    (word : string) : num :=
  truediv (Z.of_nat (count_of counts word) + 1)
          (Z.of_nat (sum_values counts) + Z.of_nat (vocab_size self)).

(** The product of the per-word probabilities over all tokens. *)
Definition likelihood (self : t) (counts : gmap string nat)
    (words : list string) : num :=
  fold_left (fun acc word => mul acc (word_probability self counts word))
            words one.

(** [class_count / total_count] *)
Definition prior (self : t) (class_count : nat) : num :=
  truediv (Z.of_nat class_count)
          (Z.of_nat (ham_messages_count self + spam_messages_count self)).

Definition posterior_ham (self : t) (words : list string) : num :=
  mul (likelihood self (ham_words self) words)
      (prior self (ham_messages_count self)).

Definition posterior_spam (self : t) (words : list string) : num :=
  mul (likelihood self (spam_words self) words)
      (prior self (spam_messages_count self)).

(** HAM without words or without training messages; otherwise SPAM exactly
    when the spam posterior is strictly the greater. *)
Definition predict_spec (self : t) (message : string) : bool :=
  let words := _tokenize message in
  match words with
  | [] => false
  | _ =>
      if (ham_messages_count self + spam_messages_count self =? 0)%nat
      then false
      else gt (posterior_spam self words) (posterior_ham self words)
  end.

End Predict.

(** Two instances that answer every read alike: the same message counts
    and vocabulary, the same count for every word and the same total in
    each class map. *)
Definition same_reads (a b : t) : Prop :=
  ham_messages_count a = ham_messages_count b
  /\ spam_messages_count a = spam_messages_count b
  /\ all_words a = all_words b
  /\ (forall w, count_of (ham_words a) w = count_of (ham_words b) w)
  /\ (forall w, count_of (spam_words a) w = count_of (spam_words b) w)
  /\ sum_values (ham_words a) = sum_values (ham_words b)
  /\ sum_values (spam_words a) = sum_values (spam_words b).

(** The detector of the repository's tests: two ham lines and two spam
    lines. *)
Definition test_detector : t :=
  __init__
    (Some ["hello world" +:+ Py.newline; "how are you" +:+ Py.newline])
    (Some ["buy now free money" +:+ Py.newline;
           "win lottery prize" +:+ Py.newline]).

End SpamDetector.

(** ** Python values and exceptions *)

Module PyVal.

(** A naive [datetime]: the number of microseconds since
    0001-01-01T00:00:00.  Comparison is that of [Z], subtraction gives the
    microseconds of the [timedelta]. *)
Definition datetime := Z.

(** [days_before_year] and [days_before_month] of the [datetime] module
    (proleptic Gregorian calendar). *)
Definition is_leap (y : Z) : bool :=
  ((y mod 4 =? 0) && (negb (y mod 100 =? 0) || (y mod 400 =? 0)))%Z.

Definition days_before_year (y : Z) : Z :=
  let y := (y - 1)%Z in (y * 365 + y / 4 - y / 100 + y / 400)%Z.

Definition days_before_month (y m : Z) : Z :=
  (nth (Z.to_nat m) [0; 0; 31; 59; 90; 120; 151; 181; 212; 243; 273; 304; 334] 0
   + (if (2 <? m) && is_leap y then 1 else 0))%Z.

(** [datetime(year, month, day, hour, minute, second)] *)
Definition mk_datetime (year month day hour minute second : Z) : datetime :=
  ((((days_before_year year + days_before_month year month + day - 1) * 86400
     + hour * 3600 + minute * 60 + second) * 1000000))%Z.

(** [(t1 - t0).total_seconds()]: the microseconds divided by [10**6]. *)
Definition total_seconds (t1 t0 : datetime) : float :=
  PyFloat.int_truediv (t1 - t0) 1000000.

(** The values found in the dictionaries of the result list. *)
Inductive pyval :=
| VNone
| VBool (b : bool)
| VInt (z : Z)
| VFloat (f : float)
| VStr (s : string)
| VDatetime (t : datetime).

(** Truth value of an object. *)
Definition truthy (v : pyval) : bool :=
  match v with
  | VNone => false
  | VBool b => b
  | VInt z => negb (z =? 0)%Z
  | VFloat f => negb (f =? 0)%float
  | VStr s => negb (Py.is_empty s)
  | VDatetime _ => true
  end.

(** A number: an [int] or a [float] ([bool] is a subclass of [int]). *)
Inductive pynum := NInt (z : Z) | NFloat (f : float).

(** [isinstance(v, (int, float))], with the number. *)
Definition as_number (v : pyval) : option pynum :=
  match v with
  | VBool b => Some (NInt (if b then 1 else 0))
  | VInt z => Some (NInt z)
  | VFloat f => Some (NFloat f)
  | _ => None
  end.

Definition num_eqb (a b : pynum) : bool :=
  match a, b with
  | NInt x, NInt y => (x =? y)%Z
  | NInt x, NFloat f | NFloat f, NInt x => PyFloat.float_eq_int f x
  | NFloat f, NFloat g => (f =? g)%float
  end.

(** [a == b], as a dictionary compares keys.  (A NaN is equal to no key
    here; CPython also finds a NaN key that is the very same object.) *)
Definition py_eqb (a b : pyval) : bool :=
  match as_number a, as_number b with
  | Some x, Some y => num_eqb x y
  | None, None =>
      match a, b with
      | VNone, VNone => true
      | VStr s, VStr t => String.eqb s t
      | VDatetime s, VDatetime t => (s =? t)%Z
      | _, _ => false
      end
  | _, _ => false
  end.

(** The exceptions the aggregator can raise. *)
Inductive exn := AttributeError | OverflowError.

(** A computation that returns a value or raises. *)
Definition result (A : Type) : Type := exn + A.

Definition ret {A} (a : A) : result A := inr a.
Definition raise {A} (e : exn) : result A := inl e.
Definition bind {A B} (m : result A) (k : A -> result B) : result B :=
  match m with inl e => inl e | inr a => k a end.

(** A [for] loop whose body may raise. *)
Fixpoint foldM {A B} (f : A -> B -> result A) (l : list B) (a : A) : result A :=
  match l with
  | [] => ret a
  | x :: l' => bind (f a x) (foldM f l')
  end.

(** [float(z)]; raises when [z] is too large for a float. *)
Definition float_of_int (z : Z) : result float :=
  let f := PyFloat.of_int z in
  if is_infinity f then raise OverflowError else ret f.

(** [a + b] *)
Definition add (a b : pynum) : result pynum :=
  match a, b with
  | NInt x, NInt y => ret (NInt (x + y))
  | NInt x, NFloat g => bind (float_of_int x) (fun f => ret (NFloat (f + g)))
  | NFloat f, NInt y => bind (float_of_int y) (fun g => ret (NFloat (f + g)))
  | NFloat f, NFloat g => ret (NFloat (f + g))
  end.

(** [sum(l)]: the items are added from left to right, starting from the
    [int] [0].  (CPython 3.12 and later add a compensation term to a float
    sum; it vanishes when the partial sums are exact.) *)
Definition sum (l : list pynum) : result pynum := foldM add l (NInt 0).

(** [s / n] for a number [s] and the length [n > 0] of a list.  The
    quotient of two [int]s raises when it is too large for a float; the
    length itself always converts. *)
Definition truediv_len (s : pynum) (n : nat) : result float :=
  match s with
  | NInt x =>
      let q := PyFloat.int_truediv x (Z.of_nat n) in
      if is_infinity q then raise OverflowError else ret q
  | NFloat f => ret (f / PyFloat.of_int (Z.of_nat n))%float
  end.

(** [round(sum(l) / len(l), 2)] for a non-empty list. *)
Definition rounded_mean (l : list pynum) : result float :=
  bind (sum l) (fun s =>
  bind (truediv_len s (length l)) (fun q =>
  ret (PyFloat.round2 q))).

(** A [dict] with its insertion order, keys compared with [==]. *)
Definition dict (V : Type) : Type := list (pyval * V).

(** [d[k] = f(d[k])] on a [defaultdict] with default [dflt]: an existing
    key keeps its place, a new key is added at the end. *)
Fixpoint dict_update {V} (f : V -> V) (dflt : V) (k : pyval) (d : dict V)
  : dict V :=
  match d with
  | [] => [(k, f dflt)]
  | (k', v) :: d' =>
      if py_eqb k' k then (k', f v) :: d'
      else (k', v) :: dict_update f dflt k d'
  end.

(** [d.values()] *)
Definition dict_values {V} (d : dict V) : list V := map snd d.


(** A [strptime] that parses nothing, for the inputs on which no string is
    ever parsed. *)
Definition no_strptime : string -> string -> option datetime :=
  fun _ _ => None.

End PyVal.

(** ** [modules/metrics_calculator.py] *)

Module Metrics.
Import PyVal.

(** One dictionary of the [results] list. *)
Abbreviation entry := (gmap string pyval).

(** ["Error" in entry] *)
Definition has_error (e : entry) : bool :=
  match e !! "Error" with Some _ => true | None => false end.

(** [entry.get(key)] *)
Definition get (e : entry) (key : string) : pyval :=
  match e !! key with Some v => v | None => VNone end.

(** [if value in counts: counts[value] += 1] for a dictionary of counters
    with string keys. *)
Definition count_label (counts : gmap string nat) (value : pyval)
  : gmap string nat :=
  match value with
  | VStr s =>
      match counts !! s with
      | Some n => <[s := S n]> counts
      | None => counts
      end
  | _ => counts
  end.

(** [if formality and formality.lower() in counts:
       counts[formality.lower()] += 1]; [.lower()] exists on strings only. *)
Definition count_formality (counts : gmap string nat) (formality : pyval)
  : result (gmap string nat) :=
  if truthy formality then
    match formality with
    | VStr s => ret (count_label counts (VStr (Py.lower s)))
    | _ => raise AttributeError
    end
  else ret counts.

(** [if isinstance(style_score, (int, float)):
       style_scores.append(style_score)] *)
Definition collect_score (style_scores : list pynum) (style_score : pyval)
  : list pynum :=
  match as_number style_score with
  | Some x => style_scores ++ [x]
  | None => style_scores
  end.

(** [round(sum(style_scores) / len(style_scores), 2) if style_scores
    else 0.0] *)
Definition average_style_score (style_scores : list pynum) : result float :=
  match style_scores with
  | [] => ret 0.0%float
  | _ => rounded_mean style_scores
  end.

Definition spam_counts0 : gmap string nat := {[ "SPAM" := 0; "HAM" := 0 ]}.
Definition sentiment_counts0 : gmap string nat :=
  {[ "positive" := 0; "neutral" := 0; "negative" := 0 ]}.
Definition formality_counts0 : gmap string nat :=
  {[ "formal" := 0; "informal" := 0; "neutral" := 0 ]}.

(** *** [calculate_content_metrics] *)

(** The local variables of the loop. *)
Record content_state := mkContentState
  { c_total : nat;
    c_spam_counts : gmap string nat;
    c_sentiment_counts : gmap string nat;
    c_style_scores : list pynum;
    c_formality_counts : gmap string nat }.

Definition content_state0 : content_state :=
  mkContentState 0 spam_counts0 sentiment_counts0 [] formality_counts0.

(** The body of the loop. *)
Definition content_step (st : content_state) (e : entry)
  : result content_state :=
  if has_error e then ret st
  else
    let total := S (c_total st) in
    let spam_counts := count_label (c_spam_counts st) (get e "Spam") in
    let sentiment_counts :=
      count_label (c_sentiment_counts st) (get e "Sentiment") in
    let style_scores := collect_score (c_style_scores st) (get e "Style Score") in
    bind (count_formality (c_formality_counts st) (get e "Formality"))
      (fun formality_counts =>
    ret (mkContentState total spam_counts sentiment_counts style_scores
                        formality_counts)).

(** The returned dictionary. *)
Record content_metrics := mkContentMetrics
  { Total_Messages : nat;
    Spam_Counts : gmap string nat;
    Sentiment_Counts : gmap string nat;
    Average_Style_Score : float;
    Formality_Counts : gmap string nat }.

Definition calculate_content_metrics (results : list entry)
  : result content_metrics :=
  bind (foldM content_step results content_state0) (fun st =>
  bind (average_style_score (c_style_scores st)) (fun avg_style_score =>
  ret (mkContentMetrics (c_total st) (c_spam_counts st)
                        (c_sentiment_counts st) avg_style_score
                        (c_formality_counts st)))).

(** *** Counting in the words of the specification *)

(** The records without an error field. *)
Definition valid (results : list entry) : list entry :=
  List.filter (fun e => negb (has_error e)) results.

(** The value is the string [key]. *)
Definition label_is (key : string) (value : pyval) : bool :=
  match value with
  | VStr s => String.eqb s key
  | _ => false
  end.

(** The number of records whose field [field] is the string [key]. *)
Definition count_labelled (field key : string) (rs : list entry) : nat :=
  length (List.filter (fun e => label_is key (get e field)) rs).

(** A formality that is true but not a string: [.lower()] raises. *)
Definition bad_formality (e : entry) : bool :=
  truthy (get e "Formality")
  && negb (match get e "Formality" with VStr _ => true | _ => false end).

(** The key a formality is counted under: its lower case, when it is a
    non-empty string. *)
Definition formality_key (formality : pyval) : pyval :=
  match formality with
  | VStr s => if Py.is_empty s then VNone else VStr (Py.lower s)
  | _ => VNone
  end.

(** The number of records whose formality is counted under [key]. *)
Definition count_formal (key : string) (rs : list entry) : nat :=
  length (List.filter (fun e => label_is key (formality_key (get e "Formality"))) rs).

(** The style scores that are numbers, in the order of the records. *)
Definition numeric_scores (rs : list entry) : list pynum :=
  flat_map (fun e => match as_number (get e "Style Score") with
                     | Some x => [x]
                     | None => []
                     end) rs.

(** The distinct elements of a list, in the order of their first
    occurrence. *)
Fixpoint distinct (l : list string) : list string :=
  match l with
  | [] => []
  | x :: l' => x :: List.filter (fun y => negb (String.eqb x y)) (distinct l')
  end.

(** The times recorded for the conversation [c]. *)
Definition times_of (c : string) (timed : list (string * datetime))
  : list datetime :=
  map snd (List.filter (fun p => String.eqb (fst p) c) timed).

(** [round(sum(gaps)/len(gaps), 2)] on floats: the running sum starts from
    the [int] [0]. *)
Definition mean_gap (gaps : list float) : float :=
  PyFloat.round2
    (fold_left PrimFloat.add gaps (PyFloat.of_int 0)
     / PyFloat.of_int (Z.of_nat (length gaps)))%float.

(** The reported average: absent when there is no gap. *)
Definition average_gap (gaps : list float) : option float :=
  match gaps with
  | [] => None
  | _ => Some (mean_gap gaps)
  end.

(** The sender a record is counted under: the sender of a record without
    an error field, when it is a non-empty string. *)
Definition sender_name (e : entry) : option string :=
  if has_error e then None
  else
    match get e "Sender" with
    | VStr s => if Py.is_empty s then None else Some s
    | _ => None
    end.

(** Every sender of a valid record that is true is a string (as the
    parsers produce them). *)
Definition string_senders (results : list entry) : Prop :=
  forall e, In e results -> has_error e = false ->
    truthy (get e "Sender") = true -> exists s, get e "Sender" = VStr s.

(** A record as the analysis of a message fills it: no error field, the
    labels of the three analyzers, and a float as its style score. *)
Definition well_labelled (e : entry) : Prop :=
  has_error e = false
  /\ (get e "Spam" = VStr "SPAM" \/ get e "Spam" = VStr "HAM")
  /\ (get e "Sentiment" = VStr "positive"
      \/ get e "Sentiment" = VStr "neutral"
      \/ get e "Sentiment" = VStr "negative")
  /\ (get e "Formality" = VStr "formal"
      \/ get e "Formality" = VStr "informal"
      \/ get e "Formality" = VStr "neutral")
  /\ (exists f, get e "Style Score" = VFloat f).

(** *** [calculate_engagement_metrics] *)

Definition clarity_suggestion : string :=
  "Improve clarity and structure in messages.".
Definition formality_suggestion : string :=
  "Consider using more formal phrasing for professional contexts.".
Definition promptness_suggestion : string :=
  "Respond to messages more promptly to improve conversation engagement.".

(** [times.sort()] on a list of [datetime]s. *)
Fixpoint insert_sorted (t : datetime) (l : list datetime) : list datetime :=
  match l with
  | [] => [t]
  | u :: l' => if (t <? u)%Z then t :: l else u :: insert_sorted t l'
  end.

Fixpoint sort (l : list datetime) : list datetime :=
  match l with
  | [] => []
  | t :: l' => insert_sorted t (sort l')
  end.

(** [[(times[i] - times[i-1]).total_seconds() for i in range(1, len(times))]] *)
Fixpoint consecutive_gaps (times : list datetime) : list float :=
  match times with
  | t0 :: ((t1 :: _) as rest) => total_seconds t1 t0 :: consecutive_gaps rest
  | _ => []
  end.

(** The body of the loop over [conversations_times.values()]. *)
Definition gaps_step (response_gaps : list float) (times : list datetime)
  : list float :=
  if (2 <=? length times)%nat then response_gaps ++ consecutive_gaps (sort times)
  else response_gaps.

(** [informal > formal * 1.5] on two counters. *)
Definition informal_dominates (informal formal : nat) : bool :=
  PyFloat.int_gt_float (Z.of_nat informal)
                       (PyFloat.of_int (Z.of_nat formal) * 1.5)%float.

(** [counts[key]] for a key that is present. *)
Definition counter (counts : gmap string nat) (key : string) : nat :=
  match counts !! key with Some n => n | None => 0 end.

(** The three [if]s that fill [suggestions].  (The [int]s [40] and [3600]
    are compared as the floats [40.0] and [3600.0], which they are
    exactly.) *)
Definition make_suggestions (avg_style_score : float)
    (formality_counts : gmap string nat) (avg_response_time : option float)
  : list string :=
  let suggestions := [] in
  let suggestions :=
    if (avg_style_score <? 40)%float
    then suggestions ++ [clarity_suggestion] else suggestions in
  let total_non_neutral_formality :=
    counter formality_counts "formal" + counter formality_counts "informal" in
  let suggestions :=
    if (0 <? total_non_neutral_formality)%nat
       && informal_dominates (counter formality_counts "informal")
                             (counter formality_counts "formal")
    then suggestions ++ [formality_suggestion] else suggestions in
  let suggestions :=
    match avg_response_time with
    | Some t =>
        if (3600 <? t)%float
        then suggestions ++ [promptness_suggestion] else suggestions
    | None => suggestions
    end in
  suggestions.

(** The returned dictionary. *)
Record engagement_metrics := mkEngagementMetrics
  { Top_Senders : dict nat;
    Average_Response_time : option float;
    Suggestions : list string;
    E_Formality_Counts : gmap string nat }.

(** The local variables of the first loop. *)
Record engagement_state := mkEngagementState
  { e_sender_freq : dict nat;
    e_conversations_times : dict (list datetime);
    e_formality_counts : gmap string nat;
    e_style_scores : list pynum }.

Definition engagement_state0 : engagement_state :=
  mkEngagementState [] [] formality_counts0 [].

Section Engagement.

(** [datetime.strptime(date_string, format)] of the standard library:
    the parsed value, or [None] when it raises [ValueError]. *)
Variable strptime : string -> string -> option datetime.

(** The chain of [try: ... except ValueError:] over the five formats. *)
Definition parse_timestamp (timestamp : string) : option datetime :=
  match strptime timestamp "%Y-%m-%d %H:%M:%S" with
  | Some t => Some t
  | None =>
  match strptime timestamp "%m/%d/%y %I:%M %p" with
  | Some t => Some t
  | None =>
  match strptime timestamp "%m/%d/%Y %I:%M %p" with
  | Some t => Some t
  | None =>
  match strptime timestamp "%m/%d/%y %H:%M" with
  | Some t => Some t
  | None =>
  match strptime timestamp "%m/%d/%Y %H:%M" with
  | Some t => Some t
  | None => None
  end end end end end.

(** [time_obj] of an entry's timestamp. *)
Definition time_obj (timestamp : pyval) : option datetime :=
  match timestamp with
  | VDatetime t => Some t
  | VStr s => parse_timestamp s
  | _ => None
  end.

(** [if convo_id and timestamp: ...
       conversations_times[convo_id].append(time_obj)] *)
Definition collect_time (conversations_times : dict (list datetime))
    (convo_id timestamp : pyval) : dict (list datetime) :=
  if truthy convo_id && truthy timestamp then
    match time_obj timestamp with
    | Some t => dict_update (fun times => times ++ [t]) [] convo_id
                            conversations_times
    | None => conversations_times
    end
  else conversations_times.

(** The body of the first loop. *)
Definition engagement_step (st : engagement_state) (e : entry)
  : result engagement_state :=
  if has_error e then ret st
  else
    let sender := get e "Sender" in
    let sender_freq :=
      if truthy sender then dict_update S 0 sender (e_sender_freq st)
      else e_sender_freq st in
    let style_scores := collect_score (e_style_scores st) (get e "Style Score") in
    bind (count_formality (e_formality_counts st) (get e "Formality"))
      (fun formality_counts =>
    let conversations_times :=
      collect_time (e_conversations_times st) (get e "Conversation ID")
                   (get e "Timestamp") in
    ret (mkEngagementState sender_freq conversations_times formality_counts
                           style_scores)).

(** [round(sum(response_gaps)/len(response_gaps), 2) if response_gaps
    else None] *)
Definition average_response_time (response_gaps : list float)
  : result (option float) :=
  match response_gaps with
  | [] => ret None
  | _ => bind (rounded_mean (map NFloat response_gaps)) (fun a => ret (Some a))
  end.

Definition calculate_engagement_metrics (results : list entry)
  : result engagement_metrics :=
  bind (foldM engagement_step results engagement_state0) (fun st =>
  let response_gaps :=
    fold_left gaps_step (dict_values (e_conversations_times st)) [] in
  bind (average_response_time response_gaps) (fun avg_response_time =>
  bind (average_style_score (e_style_scores st)) (fun avg_style_score =>
  let suggestions :=
    make_suggestions avg_style_score (e_formality_counts st) avg_response_time in
  ret (mkEngagementMetrics (e_sender_freq st) avg_response_time suggestions
                           (e_formality_counts st))))).

(** *** The aggregation in the words of the specification *)

(** What one valid record does to [sender_freq] and to
    [conversations_times]. *)
Definition sender_step (sender_freq : dict nat) (e : entry) : dict nat :=
  if truthy (get e "Sender") then dict_update S 0 (get e "Sender") sender_freq
  else sender_freq.

Definition time_step (conversations_times : dict (list datetime)) (e : entry)
  : dict (list datetime) :=
  collect_time conversations_times (get e "Conversation ID")
               (get e "Timestamp").

(** A time recorded for a conversation whose id is a string. *)
Definition add_time (conversations_times : dict (list datetime))
    (p : string * datetime) : dict (list datetime) :=
  dict_update (fun times => times ++ [snd p]) [] (VStr (fst p))
              conversations_times.

(** A valid record of the conversation [c] with the [datetime] [t]. *)
Definition message_at (e : entry) (c : string) (t : datetime) : Prop :=
  has_error e = false
  /\ get e "Conversation ID" = VStr c
  /\ get e "Timestamp" = VDatetime t.

(** The list of suggestions, rule by rule. *)
Definition suggestions_spec (avg_style_score : float) (formal informal : nat)
    (avg_response_time : option float) : list string :=
  (if (avg_style_score <? 40)%float then [clarity_suggestion] else [])
  ++ (if (0 <? formal + informal)%nat && informal_dominates informal formal
      then [formality_suggestion] else [])
  ++ match avg_response_time with
     | Some t => if (3600 <? t)%float then [promptness_suggestion] else []
     | None => []
     end.

(** A record of the repository's response-time test, in the conversation
    ["convo1"]. *)
Definition test_entry (sender : string) (t : datetime) : entry :=
  {[ "Sender" := VStr sender; "Conversation ID" := VStr "convo1";
     "Timestamp" := VDatetime t; "Style Score" := VInt 50;
     "Formality" := VStr "informal" ]}.

(** The gaps as the two loops compute them. *)
Definition response_gaps (results : list entry) : list float :=
  fold_left gaps_step
            (dict_values (fold_left time_step (valid results) [])) [].

(** Every conversation id of a valid record that is true is a string (as
    the parsers produce them). *)
Definition string_conversation_ids (results : list entry) : Prop :=
  forall e, In e results -> has_error e = false ->
    truthy (get e "Conversation ID") = true ->
    exists c, get e "Conversation ID" = VStr c.

(** The conversation and the time of a record that has both: a non-error
    record with a non-empty conversation id and a timestamp that is a
    [datetime] or a non-empty string that parses. *)
Definition conversation_time (e : entry) : option (string * datetime) :=
  if has_error e then None
  else
    match get e "Conversation ID" with
    | VStr c =>
        if negb (Py.is_empty c) && truthy (get e "Timestamp") then
          match time_obj (get e "Timestamp") with
          | Some t => Some (c, t)
          | None => None
          end
        else None
    | _ => None
    end.

(** The gaps of all conversations: the conversations in the order of their
    first message, the times of each one sorted, then the differences of
    consecutive times in seconds. *)
Definition response_gaps_spec (results : list entry) : list float :=
  let timed := omap conversation_time results in
  flat_map (fun c => consecutive_gaps (sort (times_of c timed)))
           (distinct (map fst timed)).

End Engagement.

End Metrics.

(** ** A backtracking matcher for the regular expressions of the parser *)

Module Re.

(** The fragment of [re] syntax the chat-line pattern uses. *)
Inductive regex :=
| Eps                                   (* the empty pattern *)
| Chr (cls : ascii -> bool)             (* one character of a class *)
| Seq (r1 r2 : regex)                   (* r1 r2 *)
| Alt (r1 r2 : regex)                   (* r1|r2, r1 is tried first *)
| Star (cls : ascii -> bool) (greedy : bool)   (* cls* or cls*? *)
| Group (r : regex)                     (* a capturing group *)
| End.                                  (* $ *)

(** The first [n] characters of [s]. *)
Fixpoint take (n : nat) (s : string) : string :=
  match n, s with
  | S n', String c s' => String c (take n' s')
  | _, _ => EmptyString
  end.

(** [cls*] and [cls*?] in front of the continuation [k]. *)
Fixpoint star {R} (cls : ascii -> bool) (greedy : bool)
    (k : string -> option R) (s : string) : option R :=
  match s with
  | String c s' =>
      if greedy then
        if cls c then
          match star cls greedy k s' with
          | Some r => Some r
          | None => k s
          end
        else k s
      else
        match k s with
        | Some r => Some r
        | None => if cls c then star cls greedy k s' else None
        end
  | EmptyString => k s
  end.

(** [run r s caps k]: match [r] at the start of [s], then continue with [k]
    on the rest and the groups captured so far; alternatives are tried in
    the order of a backtracking matcher. *)
Fixpoint run (r : regex) (s : string) (caps : list string)
    (k : string -> list string -> option (list string))
  : option (list string) :=
  match r with
  | Eps => k s caps
  | Chr cls =>
      match s with
      | String c s' => if cls c then k s' caps else None
      | EmptyString => None
      end
  | Seq r1 r2 => run r1 s caps (fun s' caps' => run r2 s' caps' k)
  | Alt r1 r2 =>
      match run r1 s caps k with
      | Some res => Some res
      | None => run r2 s caps k
      end
  | Star cls greedy => star cls greedy (fun s' => k s' caps) s
  | Group r1 =>
      run r1 s caps (fun s' caps' =>
        k s' (caps' ++ [take (String.length s - String.length s') s]))
  | End =>
      match s with
      | EmptyString => k s caps
      | String c EmptyString => if (Py.ord c =? 10)%N then k s caps else None
      | _ => None
      end
  end.

(** [pattern.match(s).groups()], or [None] when there is no match. *)
Definition match_groups (r : regex) (s : string) : option (list string) :=
  run r s [] (fun _ caps => Some caps).

(** The pattern without its groups, and the number of its groups. *)
Fixpoint erase (r : regex) : regex :=
  match r with
  | Seq r1 r2 => Seq (erase r1) (erase r2)
  | Alt r1 r2 => Alt (erase r1) (erase r2)
  | Group r1 => erase r1
  | _ => r
  end.

Fixpoint ngroups (r : regex) : nat :=
  match r with
  | Seq r1 r2 => ngroups r1 + ngroups r2
  | Alt r1 r2 => Nat.max (ngroups r1) (ngroups r2)
  | Group r1 => S (ngroups r1)
  | _ => 0
  end.

(** Both branches of every alternative have the same number of groups. *)
Fixpoint well_grouped (r : regex) : bool :=
  match r with
  | Seq r1 r2 => well_grouped r1 && well_grouped r2
  | Alt r1 r2 =>
      (ngroups r1 =? ngroups r2)%nat && well_grouped r1 && well_grouped r2
  | Group r1 => well_grouped r1
  | _ => true
  end.

Definition is_char (n : N) (c : ascii) : bool := (Py.ord c =? n)%N.
Definition either (n m : N) (c : ascii) : bool := is_char n c || is_char m c.
Definition digit : regex := Chr Py.isdigit.
Definition lit (n : N) : regex := Chr (is_char n).
Definition opt (r : regex) : regex := Alt r Eps.
Definition spaces : regex := Star Py.isspace true.

End Re.

(** ** [modules/report_generator.py]: the chat-log parser *)

Module ReportGenerator.
Import PyVal.

(** [whatsapp_line_pattern].  From the start of the line: a group with one
    or two digits, a slash, one or two digits, a slash and two to four
    digits; a comma; white space, if any; a group with one or two digits, a
    colon, two digits and, optionally, white space and [am] or [pm] in either
    case; white space, a dash, white space; a group with the shortest
    non-empty run of characters other than the colon; a colon; white space;
    a group with the rest of the line; the end of the line.  Repetitions are
    greedy except in the third group. *)
Definition whatsapp_line_pattern : Re.regex :=
  let d := Re.digit in
  let d12 := Re.Seq d (Re.opt d) in
  let d24 := Re.Seq d (Re.Seq d (Re.opt (Re.Seq d (Re.opt d)))) in
  let ampm :=
    Re.Alt (Re.Seq (Re.Chr (Re.either 97 65)) (Re.Chr (Re.either 109 77)))
           (Re.Seq (Re.Chr (Re.either 112 80)) (Re.Chr (Re.either 109 77))) in
  let not_colon := fun c => negb (Re.is_char 58 c) in
  let not_newline := fun c => negb (Re.is_char 10 c) in
  Re.Seq (Re.Group (Re.Seq d12 (Re.Seq (Re.lit 47) (Re.Seq d12
            (Re.Seq (Re.lit 47) d24)))))
 (Re.Seq (Re.lit 44)
 (Re.Seq Re.spaces
 (Re.Seq (Re.Group (Re.Seq d12 (Re.Seq (Re.lit 58) (Re.Seq d (Re.Seq d
            (Re.opt (Re.Seq Re.spaces ampm)))))))
 (Re.Seq Re.spaces
 (Re.Seq (Re.lit 45)
 (Re.Seq Re.spaces
 (Re.Seq (Re.Group (Re.Seq (Re.Chr not_colon) (Re.Star not_colon false)))
 (Re.Seq (Re.lit 58)
 (Re.Seq Re.spaces
 (Re.Seq (Re.Group (Re.Star not_newline true))
         Re.End)))))))))).

(** [whatsapp_line_pattern.match(line)], with the four groups. *)
Definition whatsapp_line_match (line : string)
  : option (string * string * string * string) :=
  match Re.match_groups whatsapp_line_pattern line with
  | Some [date_part; time_part; sender; message_text] =>
      Some (date_part, time_part, sender, message_text)
  | _ => None
  end.

(** A line boundary of [str.splitlines]. *)
Definition is_linebreak (c : ascii) : bool :=
  Py.in_range 10 13 c || Py.in_range 28 30 c || (Py.ord c =? 133)%N.

(** [str.splitlines()]; [cur] is the pending line, last character first. *)
Fixpoint splitlines_from (cur : list ascii) (s : string) : list string :=
  match s with
  | EmptyString =>
      match cur with
      | [] => []
      | _ => [string_of_list_ascii (rev cur)]
      end
  | String c s' =>
      if is_linebreak c then
        string_of_list_ascii (rev cur) ::
        match s' with
        | String c' s'' =>
            if (Py.ord c =? 13)%N && (Py.ord c' =? 10)%N
            then splitlines_from [] s''
            else splitlines_from [] s'
        | EmptyString => splitlines_from [] s'
        end
      else splitlines_from (c :: cur) s'
  end.

Definition splitlines (s : string) : list string := splitlines_from [] s.

(** [enumerate(l, start)] *)
Fixpoint enumerate {A} (start : nat) (l : list A) : list (nat * A) :=
  match l with
  | [] => []
  | x :: l' => (start, x) :: enumerate (S start) l'
  end.

(** [os.path.basename]: what follows the last slash; [cur] is the pending
    component. *)
Fixpoint basename_from (cur : string) (s : string) : string :=
  match s with
  | EmptyString => cur
  | String c s' =>
      if Re.is_char 47 c then basename_from s' s' else basename_from cur s'
  end.

Definition basename (p : string) : string := basename_from p p.

(** [s.replace('.', '_')] *)
Fixpoint replace_dots (s : string) : string :=
  match s with
  | EmptyString => EmptyString
  | String c s' =>
      String (if Re.is_char 46 c then "_"%char else c) (replace_dots s')
  end.

(** [str(n)] for a line number. *)
Definition str_of_nat (n : nat) : string :=
  NilZero.string_of_uint (Nat.to_uint n).

(** A parsed message: the dictionary the parser builds. *)
Record message := mkMessage
  { Source : string;
    Message_ID : string;
    Sender : string;
    Conversation_ID : string;
    Timestamp : option datetime;
    Subject : string;
    Message : string }.

(** [m["Message"] += text] *)
Definition append_message (m : message) (text : string) : message :=
  mkMessage (Source m) (Message_ID m) (Sender m) (Conversation_ID m)
            (Timestamp m) (Subject m) (Message m +:+ text).

(** [messages[-1]["Message"] += text] on a non-empty list. *)
Fixpoint append_to_last (messages : list message) (text : string)
  : list message :=
  match messages with
  | [] => []
  | [m] => [append_message m text]
  | m :: rest => m :: append_to_last rest text
  end.

Section Whatsapp.

(** [datetime.datetime.strptime(date_string, format)] of the standard
    library: the parsed value, or [None] when it raises [ValueError]. *)
Variable strptime : string -> string -> option datetime.

(** The chain of [try: ... except ValueError:] over the four formats. *)
Definition parse_chat_timestamp (timestamp_str : string) : option datetime :=
  match strptime timestamp_str "%m/%d/%y %I:%M %p" with
  | Some t => Some t
  | None =>
  match strptime timestamp_str "%m/%d/%Y %I:%M %p" with
  | Some t => Some t
  | None =>
  match strptime timestamp_str "%m/%d/%y %H:%M" with
  | Some t => Some t
  | None =>
  match strptime timestamp_str "%m/%d/%Y %H:%M" with
  | Some t => Some t
  | None => None
  end end end end.

(** The record of a line that matches the pattern. *)
Definition chat_message (filename conversation_id : string) (line_num : nat)
    (date_part time_part sender message_text : string) : message :=
  let timestamp_str := date_part +:+ " " +:+ Py.strip time_part in
  mkMessage filename
            (filename +:+ "_line_" +:+ str_of_nat line_num)
            (Py.strip sender)
            conversation_id
            (parse_chat_timestamp timestamp_str)
            "WhatsApp Chat Message"
            (Py.strip message_text).

(** The record of an unformatted line. *)
Definition unformatted_message (filename conversation_id : string)
    (line_num : nat) (line : string) : message :=
  mkMessage filename
            (filename +:+ "_line_" +:+ str_of_nat line_num +:+ "_unformatted")
            "Unknown"
            conversation_id
            None
            "Unformatted Chat Line"
            line.

(** The body of the loop over the numbered lines. *)
Definition whatsapp_step (filename conversation_id : string)
    (messages : list message) (numbered_line : nat * string) : list message :=
  let '(line_num, line) := numbered_line in
  let line := Py.strip line in
  if Py.is_empty line then messages
  else
    match whatsapp_line_match line with
    | Some (date_part, time_part, sender, message_text) =>
        messages ++ [chat_message filename conversation_id line_num
                                  date_part time_part sender message_text]
    | None =>
        match messages with
        | _ :: _ => append_to_last messages (String "010" line)
        | [] =>
            if (line_num =? 1)%nat then messages
            else messages ++ [unformatted_message filename conversation_id
                                                  line_num line]
        end
    end.

Definition _parse_whatsapp_content (file_content filename : string)
  : list message :=
  let conversation_id :=
    "whatsapp_chat_" +:+ replace_dots (basename filename) in
  fold_left (whatsapp_step filename conversation_id)
            (enumerate 1 (splitlines file_content)) [].

End Whatsapp.

(** The message ids made before the line [start]: each carries the number
    of an earlier line, followed by nothing or by a suffix that does not
    start with a digit. *)
Definition earlier_ids (filename : string) (start : nat) (ids : list string)
  : Prop :=
  Forall (fun id => exists n sfx,
            n < start /\ Py.no_digit_first sfx = true
            /\ id = filename +:+ "_line_" +:+ str_of_nat n +:+ sfx) ids.

(** *** The email parsers *)

Definition EMAIL_BOUNDARY_SEPARATOR : string := "---EMAIL_BOUNDARY---".

(** The dictionary [headers] of [_parse_single_email_block]; the timestamp
    is [None], a [datetime] or the string that did not parse. *)
Record email_headers := mkHeaders
  { h_Sender : string;
    h_Conversation_ID : string;
    h_Timestamp : pyval;
    h_Subject : string }.

Definition default_headers : email_headers :=
  mkHeaders "Unknown" "N/A" VNone "No Subject".

(** A parsed message of any format: the dictionary with the seven keys the
    three parsers fill. *)
Record parsed_message := mkParsed
  { P_Source : string;
    P_Message_ID : string;
    P_Sender : string;
    P_Conversation_ID : string;
    P_Timestamp : pyval;
    P_Subject : string;
    P_Message : string }.

(** The dictionary of a chat message, with its timestamp as a value. *)
Definition of_chat (m : message) : parsed_message :=
  mkParsed (Source m) (Message_ID m) (Sender m) (Conversation_ID m)
           (match Timestamp m with Some t => VDatetime t | None => VNone end)
           (Subject m) (Message m).

Section Email.

Variable strptime : string -> string -> option datetime.

(** The [if]/[elif] chain on a line of the header. *)
Definition header_line (headers : email_headers) (line : string) : email_headers :=
  let line_lower := Py.lower line in
  if Py.startswith line_lower "from:" then
    mkHeaders (Py.strip (Py.drop (String.length "from:") line))
              (h_Conversation_ID headers) (h_Timestamp headers)
              (h_Subject headers)
  else if Py.startswith line_lower "date:" then
    let date_str := Py.strip (Py.drop (String.length "date:") line) in
    mkHeaders (h_Sender headers) (h_Conversation_ID headers)
              (match strptime date_str "%Y-%m-%d %H:%M:%S" with
               | Some t => VDatetime t
               | None => VStr date_str
               end)
              (h_Subject headers)
  else if Py.startswith line_lower "conversation-id:" then
    mkHeaders (h_Sender headers)
              (Py.strip (Py.drop (String.length "conversation-id:") line))
              (h_Timestamp headers) (h_Subject headers)
  else if Py.startswith line_lower "subject:" then
    mkHeaders (h_Sender headers) (h_Conversation_ID headers)
              (h_Timestamp headers)
              (Py.strip (Py.drop (String.length "subject:") line))
  else headers.

(** The body of the loop over the lines, on [(headers, body,
    header_end_found)]. *)
Definition email_step (st : email_headers * list string * bool) (line : string)
  : email_headers * list string * bool :=
  let '(headers, body, header_end_found) := st in
  if negb header_end_found && String.eqb (Py.strip line) "" then
    (headers, body, true)
  else if negb header_end_found then
    (header_line headers line, body, header_end_found)
  else (headers, body ++ [line], header_end_found).

(** The loop and the returned pair, for the lines of the block. *)
Definition parse_email_lines (lines : list string) : email_headers * string :=
  let '(headers, body, _) :=
    fold_left email_step lines (default_headers, [], false) in
  (headers, Py.strip (Py.join Py.newline body)).

Definition _parse_single_email_block (email_block_content : string)
  : email_headers * string :=
  parse_email_lines (splitlines email_block_content).

(** The dictionary appended for a block. *)
Definition email_message (filename message_id : string) (headers : email_headers)
    (message_body : string) : parsed_message :=
  mkParsed filename message_id (h_Sender headers) (h_Conversation_ID headers)
           (h_Timestamp headers) (h_Subject headers) message_body.

(** The body of the loop over the numbered blocks.  (Nothing in the [try]
    block raises: the only call that can, [strptime], is guarded inside
    [_parse_single_email_block]; the handler is never entered.) *)
Definition multi_email_step (filename : string)
    (parsed_emails : list parsed_message) (numbered_block : nat * string)
  : list parsed_message :=
  let '(i, block) := numbered_block in
  let block := Py.strip block in
  if Py.is_empty block then parsed_emails
  else
    let '(headers, message_body) := _parse_single_email_block block in
    parsed_emails
    ++ [email_message filename
                      (filename +:+ "_email_" +:+ str_of_nat (i + 1))
                      headers message_body].

Definition _parse_multi_email_file (file_content filename : string)
  : list parsed_message :=
  fold_left (multi_email_step filename)
            (enumerate 0 (Py.split file_content EMAIL_BOUNDARY_SEPARATOR)) [].

End Email.

(** *** The detection of the format *)

(** [whatsapp_line_pattern_check]: the pattern of the chat parser, without
    its groups. *)
Definition whatsapp_line_pattern_check : Re.regex :=
  let d := Re.digit in
  let d12 := Re.Seq d (Re.opt d) in
  let d24 := Re.Seq d (Re.Seq d (Re.opt (Re.Seq d (Re.opt d)))) in
  let ampm :=
    Re.Alt (Re.Seq (Re.Chr (Re.either 97 65)) (Re.Chr (Re.either 109 77)))
           (Re.Seq (Re.Chr (Re.either 112 80)) (Re.Chr (Re.either 109 77))) in
  let not_colon := fun c => negb (Re.is_char 58 c) in
  let not_newline := fun c => negb (Re.is_char 10 c) in
  Re.Seq (Re.Seq d12 (Re.Seq (Re.lit 47) (Re.Seq d12
            (Re.Seq (Re.lit 47) d24))))
 (Re.Seq (Re.lit 44)
 (Re.Seq Re.spaces
 (Re.Seq (Re.Seq d12 (Re.Seq (Re.lit 58) (Re.Seq d (Re.Seq d
            (Re.opt (Re.Seq Re.spaces ampm))))))
 (Re.Seq Re.spaces
 (Re.Seq (Re.lit 45)
 (Re.Seq Re.spaces
 (Re.Seq (Re.Seq (Re.Chr not_colon) (Re.Star not_colon false))
 (Re.Seq (Re.lit 58)
 (Re.Seq Re.spaces
 (Re.Seq (Re.Star not_newline true)
         Re.End)))))))))).

(** [pattern.match(s)] as a truth value. *)
Definition matches (r : Re.regex) (s : string) : bool :=
  match Re.match_groups r s with Some _ => true | None => false end.

Definition _is_whatsapp_format (first_lines : list string) : bool :=
  existsb (fun line => matches whatsapp_line_pattern_check (Py.strip line))
          first_lines.

Definition _has_email_boundary (file_content : string) : bool :=
  Py.contains EMAIL_BOUNDARY_SEPARATOR file_content.

(** *** The analysis of a file *)

(** The dictionary of a parsed message after [msg_data.update] with the
    four results of the analysis. *)
Definition analysed (m : parsed_message) (spam_status sentiment : string)
    (style : StyleAnalyzer.result) : Metrics.entry :=
  {[ "Source" := VStr (P_Source m);
     "Message ID" := VStr (P_Message_ID m);
     "Sender" := VStr (P_Sender m);
     "Conversation ID" := VStr (P_Conversation_ID m);
     "Timestamp" := P_Timestamp m;
     "Subject" := VStr (P_Subject m);
     "Message" := VStr (P_Message m);
     "Spam" := VStr spam_status;
     "Sentiment" := VStr sentiment;
     "Style Score" := VFloat (StyleAnalyzer.Style_Score style);
     "Formality" := VStr (StyleAnalyzer.Formality style) ]}.

Section Report.

Variable strptime : string -> string -> option datetime.

(** [t.strftime(format)] of the standard library. *)
Variable strftime : datetime -> string -> string.

(** The choice of the parser, on the content of a file. *)
Definition parse_file (full_content file_path : string)
  : list parsed_message :=
  let first_few_lines := firstn 5 (splitlines full_content) in
  if _is_whatsapp_format first_few_lines then
    map of_chat
        (_parse_whatsapp_content strptime full_content (basename file_path))
  else if _has_email_boundary full_content then
    _parse_multi_email_file strptime full_content (basename file_path)
  else
    let '(headers, message_body) :=
      _parse_single_email_block strptime full_content in
    [email_message (basename file_path) (basename file_path +:+ "_msg")
                   headers message_body].

(** The body of the loop over the parsed messages, on the detector and
    [results]. *)
Definition analyse_step (st : SpamDetector.t * list Metrics.entry)
    (msg_data : parsed_message) : SpamDetector.t * list Metrics.entry :=
  let '(spam_detector, results) := st in
  let message_to_analyze := P_Message msg_data in
  if Py.is_empty (Py.strip message_to_analyze) then st
  else
    let '(verdict, spam_detector) :=
      SpamDetector.predict spam_detector message_to_analyze in
    let spam_status := if verdict then "SPAM" else "HAM" in
    let sentiment := SentimentAnalyzer.analyze message_to_analyze in
    let style := StyleAnalyzer.analyze message_to_analyze in
    (spam_detector,
     results ++ [analysed msg_data spam_status sentiment style]).

(** [entry["Timestamp"] = entry["Timestamp"].strftime(...)] on a
    [datetime]. *)
Definition timestamp_to_string (e : Metrics.entry) : Metrics.entry :=
  match Metrics.get e "Timestamp" with
  | VDatetime t => <["Timestamp" := VStr (strftime t "%Y-%m-%d %H:%M:%S")]> e
  | _ => e
  end.

(** The list [results] that [generate_custom_test_report] hands to the two
    aggregators, for the content of the file. *)
Definition analysed_results (spam_detector : SpamDetector.t)
    (full_content file_path : string) : list Metrics.entry :=
  let parsed_messages := parse_file full_content file_path in
  let '(_, results) :=
    fold_left analyse_step parsed_messages (spam_detector, []) in
  map timestamp_to_string results.

End Report.

End ReportGenerator.

(** * Properties *)

(** ** Facts about floats and strings *)

Section FloatFacts.
Local Open Scope float_scope.

Lemma ltb_leb (x y : float) : (x <? y) = true -> (x <=? y) = true.
Proof.
  rewrite FloatAxioms.ltb_spec, FloatAxioms.leb_spec. unfold SFltb, SFleb.
  destruct (SFcompare (Prim2SF x) (Prim2SF y)) as [[ | | ]|]; congruence.
Qed.

(** A float equal to zero is one of the two zeros. *)
Lemma eqb_zero_inv (x : float) :
  (x =? 0) = true -> exists s, Prim2SF x = S754_zero s.
Proof.
  rewrite FloatAxioms.eqb_spec. change (Prim2SF 0) with (S754_zero false).
  destruct (Prim2SF x) as [s | s | | s m e]; cbn; try discriminate.
  - eauto.
  - destruct s; discriminate.
  - destruct s; discriminate.
Qed.

(** Two zeros are not strictly ordered. *)
Lemma ltb_zero_zero (x y : float) :
  (x =? 0) = true -> (y =? 0) = true -> (x <? y) = false.
Proof.
  intros [s Hx]%eqb_zero_inv [s' Hy]%eqb_zero_inv.
  rewrite FloatAxioms.ltb_spec, Hx, Hy. reflexivity.
Qed.

(** [max(0.0, min(100.0, s))] lies between [0] and [100], whatever [s]. *)
Lemma clamp_0_100 (s : float) :
  let r := PyFloat.max 0.0 (PyFloat.min 100.0 s) in
  (0 <=? r) = true /\ (r <=? 100) = true.
Proof.
  unfold PyFloat.max, PyFloat.min.
  destruct (s <? 100.0) eqn:Hhi.
  - destruct (0.0 <? s) eqn:Hlo.
    + split; now apply ltb_leb.
    + split; reflexivity.
  - split; reflexivity.
Qed.

End FloatFacts.

Section StringFacts.
Import Py.

Lemma lstrip_all_space (s : string) :
  all_space s = true -> lstrip s = EmptyString.
Proof.
  induction s as [|c s IH]; cbn; [reflexivity|].
  intros [Hc Hs]%andb_prop. rewrite Hc. now apply IH.
Qed.

(** A string of white space only is stripped to the empty string. *)
Lemma strip_all_space (s : string) :
  all_space s = true -> strip s = EmptyString.
Proof.
  intros H. unfold strip. now rewrite (lstrip_all_space s H).
Qed.

End StringFacts.

(** ** The style analyzer *)

Section StyleFacts.
Import StyleAnalyzer.

Lemma classify_cases (x : float) :
  classify x = "formal" \/ classify x = "informal" \/ classify x = "neutral".
Proof.
  unfold classify.
  destruct (0.10 <? x)%float; [now left|].
  destruct (x <? -0.15)%float; [right; now left | right; now right].
Qed.

(** C2.  For every input string, [analyze] returns a style score between
    [0] and [100] (both included) and a formality that is one of
    ["formal"], ["informal"] and ["neutral"]. *)
Theorem analyze_score_and_formality_range (text : string) :
  (0 <=? Style_Score (analyze text))%float = true
  /\ (Style_Score (analyze text) <=? 100)%float = true
  /\ (Formality (analyze text) = "formal"
      \/ Formality (analyze text) = "informal"
      \/ Formality (analyze text) = "neutral").
Proof.
  unfold analyze.
  destruct (Py.is_empty (Py.strip text)).
  { cbn. repeat split; try reflexivity. right; now right. }
  destruct (_tokenize text) as [|w ws].
  { cbn. repeat split; try reflexivity. right; now right. }
  cbn [Style_Score Formality].
  set (fs := formality_score_of _ _).
  destruct (clamp_0_100
              (PyFloat.round2
                 ((PyFloat.max (-0.7) (PyFloat.min 0.7 fs) + 0.7) / 1.4 * 100)%float))
    as [Hlo Hhi].
  repeat split; [exact Hlo | exact Hhi | apply classify_cases].
Qed.

End StyleFacts.

(** ** Tokenization *)

Section TokenFacts.
Import Py.

Lemma rev_string_empty (acc s : string) :
  rev_string acc s = EmptyString -> s = EmptyString /\ acc = EmptyString.
Proof.
  revert acc. induction s as [|c s IH]; cbn; intros acc H; [easy|].
  destruct (IH _ H) as [_ Habs]. discriminate.
Qed.

Lemma all_space_rev_string (acc s : string) :
  all_space (rev_string acc s) = all_space acc && all_space s.
Proof.
  revert acc. induction s as [|c s IH]; cbn; intros acc.
  - now rewrite andb_true_r.
  - rewrite IH. cbn. destruct (isspace c), (all_space acc), (all_space s); reflexivity.
Qed.

Lemma lstrip_empty_inv (s : string) :
  lstrip s = EmptyString -> all_space s = true.
Proof.
  induction s as [|c s IH]; cbn; [reflexivity|].
  destruct (isspace c); [exact IH | discriminate].
Qed.

Lemma all_space_lstrip (s : string) :
  all_space (lstrip s) = true -> all_space s = true.
Proof.
  induction s as [|c s IH]; cbn; [reflexivity|].
  destruct (isspace c) eqn:Hc; cbn.
  - exact IH.
  - now rewrite Hc.
Qed.

(** [not s.strip()] holds exactly for the strings of white space. *)
Lemma strip_empty_iff (s : string) :
  is_empty (strip s) = true <-> all_space s = true.
Proof.
  split.
  - intros H. assert (Hs : strip s = EmptyString) by (destruct (strip s); easy).
    unfold strip, rstrip in Hs.
    apply rev_string_empty in Hs as [Hs _].
    apply lstrip_empty_inv in Hs.
    rewrite all_space_rev_string in Hs. cbn in Hs.
    now apply all_space_lstrip.
  - intros H. now rewrite (strip_all_space s H).
Qed.

(** White space is not a letter nor an apostrophe, also after [lower]. *)
Lemma isspace_not_az (c : ascii) :
  isspace c = true -> is_az_apos (lower_char c) = false.
Proof.
  destruct c as [[] [] [] [] [] [] [] []]; vm_compute; congruence.
Qed.

Lemma is_az_apos_false (c : ascii) : is_az_apos c = false -> is_az c = false.
Proof. unfold is_az_apos. now intros [H _]%orb_false_elim. Qed.

Lemma findall_runs_all_space (cls : ascii -> bool) (s : string) :
  (forall c, isspace c = true -> cls (lower_char c) = false) ->
  all_space s = true -> findall_runs cls [] (lower s) = [].
Proof.
  intros Hcls. induction s as [|c s IH]; cbn; [reflexivity|].
  intros [Hc Hs]%andb_prop. rewrite (Hcls c Hc). now apply IH.
Qed.

(** A string of white space has no token, for either tokenizer. *)
Lemma tokenize_all_space (s : string) :
  all_space s = true ->
  SpamDetector._tokenize s = [] /\ StyleAnalyzer._tokenize s = []
  /\ SentimentAnalyzer._tokenize s = [].
Proof.
  intros H. repeat split.
  - apply findall_runs_all_space; [|exact H].
    intros c Hc. now apply is_az_apos_false, isspace_not_az.
  - apply findall_runs_all_space; [|exact H]. exact isspace_not_az.
  - apply findall_runs_all_space; [|exact H].
    intros c Hc. now apply is_az_apos_false, isspace_not_az.
Qed.

Lemma append_cons (c : ascii) (a b : string) :
  String c a +:+ b = String c (a +:+ b).
Proof. reflexivity. Qed.

Lemma lower_app (a b : string) : lower (a +:+ b) = lower a +:+ lower b.
Proof.
  induction a as [|c a IH]; [reflexivity|].
  rewrite append_cons. cbn [lower]. now rewrite append_cons, IH.
Qed.

(** The tokens of two texts joined by a character outside the class are
    the tokens of the first followed by those of the second. *)
Lemma findall_runs_app (cls : ascii -> bool) (sep : ascii) (a b : string)
    (cur : list ascii) :
  cls sep = false ->
  findall_runs cls cur (a +:+ String sep b)
  = findall_runs cls cur a ++ findall_runs cls [] b.
Proof.
  intros Hsep. revert cur. induction a as [|c a IH]; intros cur.
  - change (EmptyString +:+ String sep b) with (String sep b).
    cbn [findall_runs]. now rewrite Hsep.
  - rewrite append_cons. cbn [findall_runs].
    destruct (cls c); [apply IH|]. rewrite IH. now rewrite app_assoc.
Qed.


End TokenFacts.

(** ** The spam classifier *)

Section SpamFacts.
Import SpamDetector.

Lemma sum_values_insert_fresh (d : gmap string nat) (k : string) (v : nat) :
  d !! k = None -> sum_values (<[k := v]> d) = v + sum_values d.
Proof.
  intros Hk. unfold sum_values.
  apply (map_fold_insert_L (fun _ v acc => v + acc)); [|exact Hk].
  intros; lia.
Qed.

Lemma dd_getitem_fst (d : gmap string nat) (k : string) :
  fst (dd_getitem d k) = count_of d k.
Proof. unfold dd_getitem, count_of. now destruct (d !! k). Qed.

Lemma dd_getitem_count (d : gmap string nat) (k w : string) :
  count_of (snd (dd_getitem d k)) w = count_of d w.
Proof.
  unfold dd_getitem, count_of. destruct (d !! k) eqn:Hk; cbn; [reflexivity|].
  destruct (decide (k = w)) as [->|Hne].
  - now rewrite lookup_insert_eq, Hk.
  - now rewrite lookup_insert_ne.
Qed.

Lemma dd_getitem_sum (d : gmap string nat) (k : string) :
  sum_values (snd (dd_getitem d k)) = sum_values d.
Proof.
  unfold dd_getitem. destruct (d !! k) eqn:Hk; cbn; [reflexivity|].
  now rewrite sum_values_insert_fresh.
Qed.

(** The subscript adds the key when it is missing, and nothing else. *)
Lemma dd_getitem_lookup (d : gmap string nat) (k w : string) :
  snd (dd_getitem d k) !! w
  = match d !! w with
    | Some n => Some n
    | None => if decide (k = w) then Some 0 else None
    end.
Proof.
  unfold dd_getitem. destruct (d !! k) eqn:Hk; cbn.
  - destruct (d !! w) eqn:Hw; [reflexivity|].
    destruct (decide (k = w)) as [->|]; [congruence | reflexivity].
  - destruct (decide (k = w)) as [->|Hne].
    + now rewrite lookup_insert_eq, Hk.
    + rewrite lookup_insert_ne by exact Hne. now destruct (d !! w).
Qed.

Lemma same_reads_refl (a : t) : same_reads a a.
Proof. unfold same_reads. auto 10. Qed.

Section Generic.
Context {num : Type} {A : Arith num}.

Lemma calculate_word_probability_spec (self0 self : t) (word : string)
    (counts0 counts : gmap string nat) (n : nat) :
  all_words self0 = all_words self ->
  (forall w, count_of counts0 w = count_of counts w) ->
  sum_values counts0 = sum_values counts ->
  _calculate_word_probability self word counts n
  = (word_probability self0 counts0 word, snd (dd_getitem counts word)).
Proof.
  intros Hv Hc Hs. unfold _calculate_word_probability, word_probability, vocab_size.
  rewrite (surjective_pairing (dd_getitem counts word)).
  now rewrite dd_getitem_fst, Hv, Hc, Hs.
Qed.

Lemma likelihood_step_spec (self0 self : t) (hl sl : num) (w : string) :
  same_reads self0 self ->
  exists self',
    likelihood_step (hl, sl, self) w
    = (mul hl (word_probability self0 (ham_words self0) w),
       mul sl (word_probability self0 (spam_words self0) w), self')
    /\ same_reads self0 self'.
Proof.
  intros (H1 & H2 & H3 & H4 & H5 & H6 & H7). unfold likelihood_step.
  rewrite (calculate_word_probability_spec self0 self w (ham_words self0))
    by assumption.
  rewrite (calculate_word_probability_spec self0 _ w (spam_words self0))
    by assumption.
  eexists. split; [reflexivity|]. unfold same_reads; cbn.
  repeat split; try assumption.
  - intros x. now rewrite dd_getitem_count.
  - intros x. now rewrite dd_getitem_count.
  - now rewrite dd_getitem_sum.
  - now rewrite dd_getitem_sum.
Qed.

Lemma likelihood_fold_spec (self0 : t) (words : list string) :
  forall (self : t) (hl sl : num),
  same_reads self0 self ->
  exists self',
    fold_left likelihood_step words (hl, sl, self)
    = (fold_left (fun acc w => mul acc (word_probability self0 (ham_words self0) w))
                 words hl,
       fold_left (fun acc w => mul acc (word_probability self0 (spam_words self0) w))
                 words sl,
       self')
    /\ same_reads self0 self'.
Proof.
  induction words as [|w words IH]; intros self hl sl Hsame.
  - exists self. now split.
  - cbn [fold_left].
    destruct (likelihood_step_spec self0 self hl sl w Hsame) as (self1 & -> & H1).
    apply IH, H1.
Qed.

(** The loop of [predict] computes the two posteriors of the
    specification, and leaves an instance that reads like the first. *)
Lemma posteriors_spec (self : t) (words : list string) :
  exists self',
    posteriors self words
    = (posterior_ham self words, posterior_spam self words, self')
    /\ same_reads self self'.
Proof.
  unfold posteriors.
  destruct (likelihood_fold_spec self words self one one (same_reads_refl self))
    as (self' & -> & Hsame).
  exists self'. split; [reflexivity | exact Hsame].
Qed.

(** [predict] leaves an instance that reads like the one it was given. *)
Lemma predict_same_reads (self : t) (message : string) :
  same_reads self (snd (predict self message)).
Proof.
  unfold predict.
  destruct (Py.is_empty _); [apply same_reads_refl|].
  destruct (_ || _); [apply same_reads_refl|].
  destruct (_ =? _)%nat; [apply same_reads_refl|].
  destruct (posteriors_spec self (_tokenize message)) as (self' & -> & Hsame).
  now destruct (_ && _).
Qed.

(** The verdict of [predict] is that of the specification, in an
    arithmetic where two zeros are not strictly ordered. *)
Lemma predict_verdict (self : t) (message : string) :
  (forall x y : num, eq_zero x = true -> eq_zero y = true -> gt y x = false) ->
  fst (predict self message) = predict_spec self message.
Proof.
  intros Hzero. unfold predict, predict_spec.
  destruct (Py.is_empty (Py.strip message)) eqn:Hstrip.
  { apply strip_empty_iff, tokenize_all_space in Hstrip as [-> _]. reflexivity. }
  destruct (_tokenize message) as [|w ws] eqn:Hwords; [reflexivity|].
  cbn [orb].
  destruct (ham_messages_count self) as [|h] eqn:Hh;
    destruct (spam_messages_count self) as [|s] eqn:Hs; cbn [Nat.eqb andb Nat.add];
    try reflexivity.
  all: destruct (posteriors_spec self (w :: ws)) as (self' & -> & _).
  all: destruct (eq_zero (posterior_ham self (w :: ws))) eqn:Ez1;
       destruct (eq_zero (posterior_spam self (w :: ws))) eqn:Ez2; cbn;
       try reflexivity.
  all: symmetry; now apply Hzero.
Qed.

Lemma word_probability_same_reads (a b : t) (w : string) :
  same_reads a b ->
  word_probability a (ham_words a) w = word_probability b (ham_words b) w
  /\ word_probability a (spam_words a) w = word_probability b (spam_words b) w.
Proof.
  intros (H1 & H2 & H3 & H4 & H5 & H6 & H7).
  unfold word_probability, vocab_size. now rewrite H3, H4, H5, H6, H7.
Qed.

Lemma likelihood_ext (f g : num -> string -> num) (words : list string) (x : num) :
  (forall acc w, f acc w = g acc w) ->
  fold_left f words x = fold_left g words x.
Proof.
  intros Hfg. revert x. induction words as [|w words IH]; intros x; cbn;
    [reflexivity | now rewrite Hfg, IH].
Qed.

(** The verdict of the specification depends on what can be read only. *)
Lemma predict_spec_same_reads (a b : t) (message : string) :
  same_reads a b -> predict_spec a message = predict_spec b message.
Proof.
  intros Hsame. pose proof Hsame as (H1 & H2 & H3 & H4 & H5 & H6 & H7).
  unfold predict_spec. destruct (_tokenize message) as [|w ws]; [reflexivity|].
  rewrite H1, H2. destruct (_ =? _)%nat; [reflexivity|].
  unfold posterior_spam, posterior_ham, prior, likelihood. rewrite H1, H2.
  f_equal; f_equal; apply likelihood_ext; intros acc x;
    destruct (word_probability_same_reads a b x Hsame) as [Hh Hsp];
    now rewrite ?Hh, ?Hsp.
Qed.

End Generic.

(** The law of [predict_verdict] for floats and for rationals. *)
Lemma float64_zero_law (x y : float) :
  eq_zero x = true -> eq_zero y = true -> gt y x = false.
Proof. cbn. apply ltb_zero_zero. Qed.


End SpamFacts.

Section SpamClaims.
Import SpamDetector.

(** C1.  With the floats of the Python code, the verdict of [predict] on
    any message is the one of [predict_spec]: HAM when the message has no
    word or the model has no training message; otherwise the per-word class
    probabilities are multiplied across all tokens, each product is
    multiplied by the class prior [class_count / total_count], and the
    verdict is SPAM exactly when the spam posterior is strictly greater
    than the ham posterior (so HAM on a tie, and when both are zero). *)
Theorem predict_follows_spec (self : t) (message : string) :
  fst (predict (A := float64) self message)
  = predict_spec (A := float64) self message.
Proof. apply predict_verdict, float64_zero_law. Qed.

(** What [predict] does preserve: the two message counts and the
    vocabulary, and the count of every word in both class maps (a word that
    is not a key counts [0]); every later prediction returns what it would
    have returned before the call. *)
Lemma predict_preserves_reads (self : t) (message : string) :
  let self' := snd (predict self message) in
  ham_messages_count self' = ham_messages_count self
  /\ spam_messages_count self' = spam_messages_count self
  /\ all_words self' = all_words self
  /\ (forall w, count_of (ham_words self') w = count_of (ham_words self) w)
  /\ (forall w, count_of (spam_words self') w = count_of (spam_words self) w)
  /\ (forall later, fst (predict self' later) = fst (predict self later)).
Proof.
  intros self'.
  pose proof (predict_same_reads self message) as Hsame. fold self' in Hsame.
  pose proof Hsame as (H1 & H2 & H3 & H4 & H5 & _).
  repeat split; try congruence.
  intros later. rewrite !(predict_verdict _ _ float64_zero_law).
  symmetry. now apply predict_spec_same_reads.
Qed.

(** C5: on the detector trained on the built-in pair, the prediction for
    the unseen word ["zebra"] is HAM, and the call adds ["zebra"] with the
    count [0] to both class maps: the two maps are not as they were before
    the call, while the message counts and the vocabulary are. *)
Theorem predict_inserts_unseen_word :
  let d := __init__ None None in
  let d' := snd (predict d "zebra") in
  fst (predict d "zebra") = false
  /\ ham_words d !! "zebra" = None /\ ham_words d' !! "zebra" = Some 0
  /\ spam_words d !! "zebra" = None /\ spam_words d' !! "zebra" = Some 0
  /\ ham_words d' <> ham_words d /\ spam_words d' <> spam_words d
  /\ ham_messages_count d' = ham_messages_count d
  /\ spam_messages_count d' = spam_messages_count d
  /\ all_words d' = all_words d.
Proof.
  intros d d'.
  assert (Hh : ham_words d' !! "zebra" = Some 0) by (vm_compute; reflexivity).
  assert (Hs : spam_words d' !! "zebra" = Some 0) by (vm_compute; reflexivity).
  assert (Hh0 : ham_words d !! "zebra" = None) by (vm_compute; reflexivity).
  assert (Hs0 : spam_words d !! "zebra" = None) by (vm_compute; reflexivity).
  assert (Hv : fst (predict d "zebra") = false) by (vm_compute; reflexivity).
  destruct (predict_preserves_reads d "zebra") as (K1 & K2 & K3 & _).
  fold d' in K1, K2, K3.
  clearbody d'. clearbody d.
  split; [exact Hv|].
  split; [exact Hh0|]. split; [exact Hh|].
  split; [exact Hs0|]. split; [exact Hs|].
  split; [intros E; congruence|].
  split; [intros E; congruence|].
  split; [exact K1|]. split; [exact K2 | exact K3].
Qed.

End SpamClaims.

(** ** Empty and white-space input *)

(** C7.  On an empty or white-space-only input, the sentiment analyzer
    returns ["neutral"], the style analyzer returns the score [50.0] with
    the formality ["neutral"], and the spam classifier predicts HAM. *)
Theorem whitespace_input_defaults (self : SpamDetector.t) (text : string) :
  Py.all_space text = true ->
  SentimentAnalyzer.analyze text = "neutral"
  /\ StyleAnalyzer.analyze text = StyleAnalyzer.mkResult 50.0%float "neutral"
  /\ fst (SpamDetector.predict self text) = false.
Proof.
  intros H. apply strip_empty_iff in H.
  unfold SentimentAnalyzer.analyze, StyleAnalyzer.analyze, SpamDetector.predict.
  now rewrite H.
Qed.

Lemma whitespace_input_defaults_witness :
  Py.all_space (String " " (String "009" (String "010" EmptyString))) = true
  /\ (SentimentAnalyzer.analyze
        (String " " (String "009" (String "010" EmptyString))) = "neutral"
      /\ StyleAnalyzer.analyze
           (String " " (String "009" (String "010" EmptyString)))
         = StyleAnalyzer.mkResult 50.0%float "neutral"
      /\ fst (SpamDetector.predict SpamDetector.test_detector
                (String " " (String "009" (String "010" EmptyString))))
         = false).
Proof.
  split; [reflexivity|].
  apply (whitespace_input_defaults SpamDetector.test_detector
           (String " " (String "009" (String "010" EmptyString)))).
  reflexivity.
Defined.

(** ** The classifier in exact arithmetic *)

Section ExactFacts.
Import SpamDetector.
Local Open Scope Q_scope.














End ExactFacts.



Section MonotonicityClaim.
Import SpamDetector.
Local Open Scope Q_scope.




End MonotonicityClaim.

(** ** The aggregator: what the loops compute *)

Section MetricsFacts.
Import PyVal Metrics.

Lemma count_formality_spec (counts : gmap string nat) (e : entry) :
  count_formality counts (get e "Formality")
  = if bad_formality e then raise AttributeError
    else ret (count_label counts (formality_key (get e "Formality"))).
Proof.
  unfold count_formality, bad_formality, formality_key.
  destruct (get e "Formality") as [ | b | z | f | s | t]; cbn.
  - reflexivity.
  - now destruct b.
  - now destruct (z =? 0)%Z.
  - now destruct (f =? 0)%float.
  - now destruct (Py.is_empty s).
  - reflexivity.
Qed.

(** A counter moves by one when the value is its key; no key appears. *)
Lemma count_label_lookup (counts : gmap string nat) (v : pyval) (k : string) :
  count_label counts v !! k
  = match counts !! k with
    | Some n => Some (n + (if label_is k v then 1 else 0))
    | None => None
    end.
Proof.
  unfold count_label, label_is.
  destruct v as [ | b | z | f | s | t];
    try (destruct (counts !! k); [apply (f_equal Some); lia | reflexivity]).
  destruct (String.eqb_spec s k) as [->|Hne].
  - destruct (counts !! k) as [n|] eqn:Hk; [|now rewrite Hk].
    rewrite lookup_insert_eq. apply (f_equal Some); lia.
  - destruct (counts !! s) as [n|] eqn:Hs.
    + rewrite lookup_insert_ne by exact Hne.
      destruct (counts !! k); [apply (f_equal Some); lia | reflexivity].
    + destruct (counts !! k); [apply (f_equal Some); lia | reflexivity].
Qed.

Lemma fold_count_label_lookup (vs : list pyval) (counts : gmap string nat)
    (k : string) :
  fold_left count_label vs counts !! k
  = match counts !! k with
    | Some n => Some (n + length (List.filter (label_is k) vs))
    | None => None
    end.
Proof.
  revert counts. induction vs as [|v vs IH]; intros counts; cbn [fold_left].
  - destruct (counts !! k); [apply (f_equal Some); cbn; lia | reflexivity].
  - rewrite IH, count_label_lookup.
    destruct (counts !! k) as [n|]; [|reflexivity].
    cbn [List.filter]. destruct (label_is k v); cbn [length];
      apply (f_equal Some); lia.
Qed.

Lemma filter_map_length {A B} (p : B -> bool) (f : A -> B) (l : list A) :
  length (List.filter p (map f l)) = length (List.filter (fun x => p (f x)) l).
Proof.
  induction l as [|x l IH]; [reflexivity|].
  cbn [map List.filter]. destruct (p (f x)); cbn [length]; now rewrite IH.
Qed.

(** Two tests that never hold together select at most the whole list. *)
Lemma filter_disjoint_length {A} (p q : A -> bool) (l : list A) :
  (forall x, p x = true -> q x = true -> False) ->
  length (List.filter p l) + length (List.filter q l) <= length l.
Proof.
  intros Hpq. induction l as [|x l IH]; [cbn; lia|].
  cbn [List.filter]. specialize (Hpq x).
  destruct (p x) eqn:Hp, (q x) eqn:Hq; cbn [length]; try lia.
Qed.

Lemma label_is_inj (k1 k2 : string) (v : pyval) :
  k1 <> k2 -> label_is k1 v = true -> label_is k2 v = true -> False.
Proof.
  unfold label_is. destruct v; try discriminate.
  intros Hne H1%String.eqb_eq H2%String.eqb_eq. congruence.
Qed.

Lemma numeric_scores_cons (e : entry) (rs : list entry) :
  numeric_scores (e :: rs)
  = collect_score [] (get e "Style Score") ++ numeric_scores rs.
Proof.
  unfold numeric_scores, collect_score. cbn [flat_map].
  now destruct (as_number (get e "Style Score")).
Qed.

Lemma collect_score_app (scores : list pynum) (v : pyval) :
  collect_score scores v = scores ++ collect_score [] v.
Proof.
  unfold collect_score. destruct (as_number v); [reflexivity|].
  now rewrite app_nil_r.
Qed.

(** The state after the loop of [calculate_content_metrics]: it raises when
    a valid record has a bad formality; otherwise every valid record is
    counted once, and the counters and scores are those of the valid
    records. *)
Lemma content_loop (results : list entry) (st : content_state) :
  foldM content_step results st
  = if existsb bad_formality (valid results) then raise AttributeError
    else ret (mkContentState
           (c_total st + length (valid results))
           (fold_left count_label
              (map (fun e => get e "Spam") (valid results)) (c_spam_counts st))
           (fold_left count_label
              (map (fun e => get e "Sentiment") (valid results))
              (c_sentiment_counts st))
           (c_style_scores st ++ numeric_scores (valid results))
           (fold_left count_label
              (map (fun e => formality_key (get e "Formality")) (valid results))
              (c_formality_counts st))).
Proof.
  revert st. induction results as [|e rs IH]; intros st.
  - cbn. destruct st. cbn. now rewrite Nat.add_0_r, app_nil_r.
  - cbn [foldM]. unfold content_step at 1, valid. cbn [List.filter].
    fold (valid rs).
    destruct (has_error e); cbn [negb bind ret].
    + apply IH.
    + rewrite count_formality_spec. cbn [existsb].
      destruct (bad_formality e); cbn [orb bind raise ret]; [reflexivity|].
      rewrite IH. cbn [c_total c_spam_counts c_sentiment_counts c_style_scores
                       c_formality_counts map fold_left length].
      destruct (existsb bad_formality (valid rs)); [reflexivity|].
      rewrite numeric_scores_cons, (collect_score_app (c_style_scores st)).
      rewrite <- app_assoc. do 2 f_equal. lia.
Qed.

Lemma filter_disjoint3_length {A} (p q r : A -> bool) (l : list A) :
  (forall x, p x = true -> q x = true -> False) ->
  (forall x, p x = true -> r x = true -> False) ->
  (forall x, q x = true -> r x = true -> False) ->
  length (List.filter p l) + length (List.filter q l)
  + length (List.filter r l) <= length l.
Proof.
  intros Hpq Hpr Hqr. induction l as [|x l IH]; [cbn; lia|].
  cbn [List.filter]. specialize (Hpq x). specialize (Hpr x). specialize (Hqr x).
  destruct (p x) eqn:Hp, (q x) eqn:Hq, (r x) eqn:Hr; cbn [length]; try lia.
Qed.

(** The keys of the three dictionaries of counters. *)
Lemma spam_counts0_lookup (key : string) :
  spam_counts0 !! key = if Py.mem key ["SPAM"; "HAM"] then Some 0 else None.
Proof.
  unfold spam_counts0, Py.mem. cbn [existsb].
  destruct (String.eqb_spec key "SPAM") as [->|H1]; [reflexivity|].
  destruct (String.eqb_spec key "HAM") as [->|H2]; [reflexivity|].
  cbn [orb]. by simplify_map_eq.
Qed.

Lemma sentiment_counts0_lookup (key : string) :
  sentiment_counts0 !! key
  = if Py.mem key ["positive"; "neutral"; "negative"] then Some 0 else None.
Proof.
  unfold sentiment_counts0, Py.mem. cbn [existsb].
  destruct (String.eqb_spec key "positive") as [->|H1]; [reflexivity|].
  destruct (String.eqb_spec key "neutral") as [->|H2]; [reflexivity|].
  destruct (String.eqb_spec key "negative") as [->|H3]; [reflexivity|].
  cbn [orb]. by simplify_map_eq.
Qed.

Lemma formality_counts0_lookup (key : string) :
  formality_counts0 !! key
  = if Py.mem key ["formal"; "informal"; "neutral"] then Some 0 else None.
Proof.
  unfold formality_counts0, Py.mem. cbn [existsb].
  destruct (String.eqb_spec key "formal") as [->|H1]; [reflexivity|].
  destruct (String.eqb_spec key "informal") as [->|H2]; [reflexivity|].
  destruct (String.eqb_spec key "neutral") as [->|H3]; [reflexivity|].
  cbn [orb]. by simplify_map_eq.
Qed.

(** The counters of a field after the loop, from the initial dictionary. *)
Lemma tally_lookup (counts0 : gmap string nat) (keys : list string)
    (f : entry -> pyval) (rs : list entry) (key : string) :
  (forall k, counts0 !! k = if Py.mem k keys then Some 0 else None) ->
  fold_left count_label (map f rs) counts0 !! key
  = if Py.mem key keys
    then Some (length (List.filter (fun e => label_is key (f e)) rs))
    else None.
Proof.
  intros H0. rewrite fold_count_label_lookup, H0.
  destruct (Py.mem key keys); [|reflexivity].
  now rewrite filter_map_length.
Qed.

Lemma tally_counter (counts0 : gmap string nat) (keys : list string)
    (f : entry -> pyval) (rs : list entry) (key : string) :
  (forall k, counts0 !! k = if Py.mem k keys then Some 0 else None) ->
  Py.mem key keys = true ->
  counter (fold_left count_label (map f rs) counts0) key
  = length (List.filter (fun e => label_is key (f e)) rs).
Proof.
  intros H0 Hk. unfold counter. now rewrite (tally_lookup _ keys), Hk.
Qed.

End MetricsFacts.

Section ContentClaim.
Import PyVal Metrics.

(** C10.  Whenever [calculate_content_metrics] returns, "Total Messages" is
    the number of records without an error field; each counter of the three
    tallies is the number of those records whose label is its key (the
    formality in lower case), so a record whose label is missing or not a
    key is in the total and in no counter, and each tally sums to at most
    the total; the average is taken over the style scores that are numbers.
    It raises only on a valid record whose formality is true and not a
    string, or when the average of the numeric scores overflows. *)
Theorem content_metrics_totals (results : list entry) :
  match calculate_content_metrics results with
  | inr m =>
      Total_Messages m = length (valid results)
      /\ (forall key, Spam_Counts m !! key
            = if Py.mem key ["SPAM"; "HAM"]
              then Some (count_labelled "Spam" key (valid results))
              else None)
      /\ (forall key, Sentiment_Counts m !! key
            = if Py.mem key ["positive"; "neutral"; "negative"]
              then Some (count_labelled "Sentiment" key (valid results))
              else None)
      /\ (forall key, Formality_Counts m !! key
            = if Py.mem key ["formal"; "informal"; "neutral"]
              then Some (count_formal key (valid results))
              else None)
      /\ counter (Spam_Counts m) "SPAM" + counter (Spam_Counts m) "HAM"
         <= Total_Messages m
      /\ counter (Sentiment_Counts m) "positive"
         + counter (Sentiment_Counts m) "neutral"
         + counter (Sentiment_Counts m) "negative" <= Total_Messages m
      /\ counter (Formality_Counts m) "formal"
         + counter (Formality_Counts m) "informal"
         + counter (Formality_Counts m) "neutral" <= Total_Messages m
      /\ average_style_score (numeric_scores (valid results))
         = inr (Average_Style_Score m)
  | inl err =>
      (err = AttributeError /\ existsb bad_formality (valid results) = true)
      \/ (existsb bad_formality (valid results) = false
          /\ average_style_score (numeric_scores (valid results)) = inl err)
  end.
Proof.
  unfold calculate_content_metrics. rewrite content_loop.
  destruct (existsb bad_formality (valid results)); cbn [bind raise ret].
  { left. now split. }
  cbn [content_state0 c_total c_spam_counts c_sentiment_counts c_style_scores
       c_formality_counts app].
  destruct (average_style_score (numeric_scores (valid results))) as [err|avg];
    cbn [bind ret].
  { right. now split. }
  cbn [Total_Messages Spam_Counts Sentiment_Counts Formality_Counts
       Average_Style_Score].
  split; [reflexivity|].
  split; [intros key; apply tally_lookup, spam_counts0_lookup|].
  split; [intros key; apply tally_lookup, sentiment_counts0_lookup|].
  split; [intros key; apply (tally_lookup _ _ (fun e => formality_key (get e "Formality"))),
                        formality_counts0_lookup|].
  rewrite !(tally_counter _ _ _ _ _ spam_counts0_lookup) by reflexivity.
  rewrite !(tally_counter _ _ _ _ _ sentiment_counts0_lookup) by reflexivity.
  rewrite !(tally_counter _ _ (fun e => formality_key (get e "Formality")) _ _
              formality_counts0_lookup) by reflexivity.
  split; [|split; [|split; [|reflexivity]]].
  - apply filter_disjoint_length. intros e. now apply label_is_inj.
  - apply filter_disjoint3_length; intros e; now apply label_is_inj.
  - apply filter_disjoint3_length; intros e; now apply label_is_inj.
Qed.

End ContentClaim.

Section EngagementFacts.
Import PyVal Metrics.
Variable strptime : string -> string -> option datetime.

(** The state after the first loop of [calculate_engagement_metrics]. *)
Lemma engagement_loop (results : list entry) (st : engagement_state) :
  foldM (engagement_step strptime) results st
  = if existsb bad_formality (valid results) then raise AttributeError
    else ret (mkEngagementState
           (fold_left sender_step (valid results) (e_sender_freq st))
           (fold_left (time_step strptime) (valid results)
                      (e_conversations_times st))
           (fold_left count_label
              (map (fun e => formality_key (get e "Formality")) (valid results))
              (e_formality_counts st))
           (e_style_scores st ++ numeric_scores (valid results))).
Proof.
  revert st. induction results as [|e rs IH]; intros st.
  - cbn. destruct st. cbn. now rewrite app_nil_r.
  - cbn [foldM]. unfold engagement_step at 1, valid. cbn [List.filter].
    fold (valid rs).
    destruct (has_error e); cbn [negb bind ret].
    + apply IH.
    + rewrite count_formality_spec. cbn [existsb].
      destruct (bad_formality e); cbn [orb bind raise ret]; [reflexivity|].
      rewrite IH. cbn [e_sender_freq e_conversations_times e_formality_counts
                       e_style_scores map fold_left].
      destruct (existsb bad_formality (valid rs)); [reflexivity|].
      rewrite numeric_scores_cons, (collect_score_app (e_style_scores st)).
      now rewrite <- app_assoc.
Qed.

(** The sum of a list of floats, started from the [int] [0]. *)
Lemma sum_floats (g : float) (gs : list float) :
  PyVal.sum (map NFloat (g :: gs))
  = ret (NFloat (fold_left PrimFloat.add (g :: gs) (PyFloat.of_int 0))).
Proof.
  unfold PyVal.sum. cbn [map foldM fold_left].
  change (add (NInt 0) (NFloat g)) with (ret (NFloat (PyFloat.of_int 0 + g)%float)).
  cbn [bind ret].
  generalize (PyFloat.of_int 0 + g)%float. clear g.
  induction gs as [|x gs IH]; intros acc; [reflexivity|].
  cbn [map foldM fold_left add bind ret]. apply IH.
Qed.

Lemma average_response_time_spec (gaps : list float) :
  average_response_time gaps
  = ret (average_gap gaps).
Proof.
  destruct gaps as [|g gs]; [reflexivity|].
  unfold average_response_time, rounded_mean.
  rewrite sum_floats. cbn [bind ret truediv_len].
  now rewrite length_map.
Qed.

(** [calculate_engagement_metrics], loop by loop. *)
Lemma engagement_metrics_spec (results : list entry) :
  calculate_engagement_metrics strptime results
  = if existsb bad_formality (valid results) then raise AttributeError
    else
      bind (average_style_score (numeric_scores (valid results)))
        (fun avg_style_score =>
      let formality_counts :=
        fold_left count_label
          (map (fun e => formality_key (get e "Formality")) (valid results))
          formality_counts0 in
      let avg_response_time := average_gap (response_gaps strptime results) in
      ret (mkEngagementMetrics
             (fold_left sender_step (valid results) [])
             avg_response_time
             (make_suggestions avg_style_score formality_counts
                               avg_response_time)
             formality_counts)).
Proof.
  unfold calculate_engagement_metrics. rewrite engagement_loop.
  destruct (existsb bad_formality (valid results)); [reflexivity|].
  cbn [bind ret engagement_state0 e_sender_freq e_conversations_times
       e_formality_counts e_style_scores app].
  rewrite average_response_time_spec. cbn [bind ret].
  reflexivity.
Qed.

End EngagementFacts.

(** ** Sorting, grouping and gaps *)

Section SortFacts.
Import PyVal Metrics.

Lemma insert_sorted_perm (t : datetime) (l : list datetime) :
  Permutation (t :: l) (insert_sorted t l).
Proof.
  induction l as [|u l IH]; cbn [insert_sorted]; [reflexivity|].
  destruct (t <? u)%Z; [reflexivity|].
  rewrite perm_swap. now constructor.
Qed.

Lemma insert_sorted_hdrel (a t : datetime) (l : list datetime) :
  (a <= t)%Z -> HdRel Z.le a l -> HdRel Z.le a (insert_sorted t l).
Proof.
  intros Hat Hl. destruct l as [|u l]; cbn [insert_sorted].
  - now constructor.
  - destruct (t <? u)%Z; constructor; [exact Hat | now inversion Hl].
Qed.

Lemma insert_sorted_sorted (t : datetime) (l : list datetime) :
  Sorted Z.le l -> Sorted Z.le (insert_sorted t l).
Proof.
  induction l as [|u l IH]; cbn [insert_sorted]; intros Hs.
  - repeat constructor.
  - destruct (Z.ltb_spec t u) as [Hlt|Hge].
    + constructor; [exact Hs | constructor; lia].
    + inversion Hs as [|? ? Hs' Hhd]; subst.
      constructor; [now apply IH | now apply insert_sorted_hdrel].
Qed.

(** [sort] returns its argument in ascending order. *)
Lemma sort_sorted_perm (l : list datetime) :
  Sorted Z.le (sort l) /\ Permutation l (sort l).
Proof.
  induction l as [|t l [IHs IHp]]; cbn [sort].
  - split; constructor.
  - split; [now apply insert_sorted_sorted|].
    rewrite <- insert_sorted_perm. now constructor.
Qed.

(** A list in strictly ascending order is its own sorting. *)
Lemma sort_ascending3 (a b c : datetime) :
  (a < b)%Z -> (b < c)%Z -> sort [a; b; c] = [a; b; c].
Proof.
  intros Hab Hbc. cbn [sort insert_sorted].
  assert (H1 : (b <? c)%Z = true) by now apply Z.ltb_lt.
  assert (H2 : (a <? b)%Z = true) by now apply Z.ltb_lt.
  rewrite H1. cbn [insert_sorted]. now rewrite H2.
Qed.

Lemma gaps_step_spec (acc : list float) (times : list datetime) :
  gaps_step acc times = acc ++ consecutive_gaps (sort times).
Proof.
  unfold gaps_step. destruct times as [|a [|b times]]; cbn [length Nat.leb].
  - now rewrite app_nil_r.
  - now rewrite app_nil_r.
  - reflexivity.
Qed.

Lemma fold_gaps_step (vals : list (list datetime)) (acc : list float) :
  fold_left gaps_step vals acc
  = acc ++ flat_map (fun times => consecutive_gaps (sort times)) vals.
Proof.
  revert acc. induction vals as [|ts vals IH]; intros acc; cbn [fold_left flat_map].
  - now rewrite app_nil_r.
  - now rewrite IH, gaps_step_spec, app_assoc.
Qed.

End SortFacts.

Section DistinctFacts.
Import Metrics.

Lemma distinct_in (l : list string) (x : string) :
  In x (distinct l) <-> In x l.
Proof.
  revert x. induction l as [|y l IH]; intros x; cbn [distinct]; [reflexivity|].
  cbn [In]. rewrite filter_In, IH.
  destruct (String.eqb_spec y x) as [->|Hne]; cbn; intuition congruence.
Qed.

Lemma distinct_nodup (l : list string) : NoDup (distinct l).
Proof.
  induction l as [|y l IH]; cbn [distinct]; constructor.
  - rewrite list_elem_of_In, filter_In. intros [_ H].
    now rewrite String.eqb_refl in H.
  - apply NoDup_ListNoDup, List.NoDup_filter, NoDup_ListNoDup, IH.
Qed.

(** One more element: it is new, or it was there. *)
Lemma distinct_snoc (l : list string) (c : string) :
  distinct (l ++ [c])
  = distinct l ++ (if existsb (String.eqb c) l then [] else [c]).
Proof.
  induction l as [|y l IH]; [reflexivity|].
  cbn [app distinct existsb]. rewrite IH, List.filter_app.
  destruct (String.eqb_spec c y) as [->|Hne]; cbn [orb].
  - destruct (existsb (String.eqb y) l); cbn [List.filter];
      rewrite ?String.eqb_refl; cbn; now rewrite app_nil_r.
  - destruct (existsb (String.eqb c) l); [reflexivity|].
    cbn [List.filter].
    destruct (String.eqb_spec y c) as [->|_]; [congruence | reflexivity].
Qed.

End DistinctFacts.

Section GroupingFacts.
Import PyVal Metrics.

Lemma times_of_snoc (c' : string) (timed : list (string * datetime))
    (c : string) (t : datetime) :
  times_of c' (timed ++ [(c, t)])
  = times_of c' timed ++ (if String.eqb c c' then [t] else []).
Proof.
  unfold times_of. rewrite List.filter_app, map_app. cbn [List.filter fst].
  now destruct (String.eqb c c').
Qed.

Lemma times_of_absent (c : string) (timed : list (string * datetime)) :
  ~ In c (map fst timed) -> times_of c timed = [].
Proof.
  unfold times_of. induction timed as [|[c0 t0] timed IH]; [reflexivity|].
  cbn [map fst In List.filter]. intros H.
  destruct (String.eqb_spec c0 c) as [->|_]; [tauto|]. apply IH. tauto.
Qed.

(** Updating the entry of a conversation that has one. *)
Lemma dict_update_present {V} (f : V -> V) (dflt : V) (g : string -> V)
    (ids : list string) (c : string) :
  List.NoDup ids -> In c ids ->
  dict_update f dflt (VStr c) (map (fun c' => (VStr c', g c')) ids)
  = map (fun c' => (VStr c', if String.eqb c c' then f (g c') else g c')) ids.
Proof.
  induction ids as [|c0 ids IH]; [intros _ []|].
  intros Hnd Hin. inversion Hnd as [|? ? Hnotin Hnd']; subst.
  cbn [map dict_update].
  change (py_eqb (VStr c0) (VStr c)) with (String.eqb c0 c).
  destruct (String.eqb_spec c0 c) as [->|Hne].
  - rewrite String.eqb_refl. f_equal.
    apply map_ext_in. intros c' Hc'.
    destruct (String.eqb_spec c c') as [->|_]; [tauto | reflexivity].
  - destruct (String.eqb_spec c c0) as [->|_]; [congruence|].
    f_equal. apply IH; [exact Hnd' | destruct Hin; congruence].
Qed.

(** Updating the entry of a conversation that has none adds it last. *)
Lemma dict_update_absent {V} (f : V -> V) (dflt : V) (g : string -> V)
    (ids : list string) (c : string) :
  ~ In c ids ->
  dict_update f dflt (VStr c) (map (fun c' => (VStr c', g c')) ids)
  = map (fun c' => (VStr c', g c')) ids ++ [(VStr c, f dflt)].
Proof.
  induction ids as [|c0 ids IH]; [reflexivity|].
  cbn [In map dict_update app]. intros Hnotin.
  change (py_eqb (VStr c0) (VStr c)) with (String.eqb c0 c).
  destruct (String.eqb_spec c0 c) as [->|Hne]; [tauto|].
  f_equal. apply IH. tauto.
Qed.

Lemma existsb_eqb_in (c : string) (l : list string) :
  existsb (String.eqb c) l = true <-> In c l.
Proof.
  rewrite existsb_exists. split.
  - intros (x & Hx & ->%String.eqb_eq). exact Hx.
  - intros H. exists c. split; [exact H | apply String.eqb_refl].
Qed.

(** The dictionary of times: one entry per conversation, in the order of
    the first message of each, with the times of its messages in order. *)
Lemma grouping (timed : list (string * datetime)) :
  fold_left add_time timed []
  = map (fun c => (VStr c, times_of c timed)) (distinct (map fst timed)).
Proof.
  induction timed as [|[c t] timed IH] using rev_ind; [reflexivity|].
  rewrite fold_left_app. cbn [fold_left]. rewrite IH. unfold add_time.
  cbn [fst snd]. rewrite map_app. cbn [map fst]. rewrite distinct_snoc.
  destruct (existsb (String.eqb c) (map fst timed)) eqn:Hc.
  - apply existsb_eqb_in in Hc. rewrite app_nil_r.
    rewrite dict_update_present;
      [| apply NoDup_ListNoDup, distinct_nodup | now apply distinct_in].
    apply map_ext. intros c'. rewrite times_of_snoc.
    destruct (String.eqb c c'); [reflexivity | now rewrite app_nil_r].
  - assert (Hnotin : ~ In c (map fst timed)).
    { intros H. apply existsb_eqb_in in H. congruence. }
    rewrite dict_update_absent by (now rewrite distinct_in).
    rewrite map_app. cbn [map]. f_equal.
    + apply map_ext_in. intros c' Hc'. rewrite times_of_snoc.
      destruct (String.eqb_spec c c') as [->|_]; [|now rewrite app_nil_r].
      rewrite distinct_in in Hc'. tauto.
    + rewrite times_of_snoc, String.eqb_refl, (times_of_absent c timed Hnotin).
      reflexivity.
Qed.

Variable strptime : string -> string -> option datetime.

(** What a valid record does to the dictionary of times, when its
    conversation id is a string or is false. *)
Lemma time_step_spec (d : dict (list datetime)) (e : entry) :
  has_error e = false ->
  (truthy (get e "Conversation ID") = true ->
   exists c, get e "Conversation ID" = VStr c) ->
  time_step strptime d e
  = match conversation_time strptime e with
    | Some p => add_time d p
    | None => d
    end.
Proof.
  intros Herr Hid. unfold time_step, collect_time, conversation_time, add_time.
  rewrite Herr.
  destruct (get e "Conversation ID") as [ | b | z | f | c | t] eqn:Hc.
  - reflexivity.
  - destruct (truthy (VBool b)) eqn:Ht; [|reflexivity].
    destruct (Hid eq_refl) as [c' Hc']; discriminate.
  - destruct (truthy (VInt z)) eqn:Ht; [|reflexivity].
    destruct (Hid eq_refl) as [c' Hc']; discriminate.
  - destruct (truthy (VFloat f)) eqn:Ht; [|reflexivity].
    destruct (Hid eq_refl) as [c' Hc']; discriminate.
  - cbn [truthy].
    destruct (negb (Py.is_empty c) && truthy (get e "Timestamp")); [|reflexivity].
    now destruct (time_obj strptime (get e "Timestamp")).
  - destruct (Hid eq_refl) as [c' Hc']; discriminate.
Qed.

Lemma fold_time_step (results : list entry) (d : dict (list datetime)) :
  string_conversation_ids results ->
  fold_left (time_step strptime) (valid results) d
  = fold_left add_time (omap (conversation_time strptime) results) d.
Proof.
  revert d. induction results as [|e rs IH]; intros d Hids; [reflexivity|].
  assert (Hrs : string_conversation_ids rs).
  { intros x Hx. apply Hids. now right. }
  unfold valid. cbn [List.filter omap list_omap]. fold (valid rs).
  destruct (has_error e) eqn:Herr; cbn [negb].
  - unfold conversation_time at 1. rewrite Herr. now apply IH.
  - cbn [fold_left].
    rewrite time_step_spec; [| exact Herr | apply Hids; [now left | exact Herr]].
    destruct (conversation_time strptime e); cbn [fold_left]; now apply IH.
Qed.

(** The gaps the loops compute are those of the specification. *)
Lemma response_gaps_refine (results : list entry) :
  string_conversation_ids results ->
  response_gaps strptime results = response_gaps_spec strptime results.
Proof.
  intros Hids. unfold response_gaps, response_gaps_spec.
  rewrite fold_time_step by exact Hids.
  rewrite grouping, fold_gaps_step. cbn [app].
  unfold dict_values. rewrite map_map. cbn [snd].
  now rewrite flat_map_concat_map, map_map, <- flat_map_concat_map.
Qed.

End GroupingFacts.

Section CompareFacts.
Local Open Scope float_scope.



End CompareFacts.

Section EngagementClaims.
Import PyVal Metrics.
Variable strptime : string -> string -> option datetime.

Lemma make_suggestions_spec (avg : float) (fc : gmap string nat)
    (art : option float) :
  make_suggestions avg fc art
  = suggestions_spec avg (counter fc "formal") (counter fc "informal") art.
Proof.
  unfold make_suggestions, suggestions_spec.
  destruct (avg <? 40)%float, (_ && _), art as [t|];
    try destruct (3600 <? t)%float; reflexivity.
Qed.

Lemma in_if_singleton {A} (b : bool) (x y : A) :
  In x (if b then [y] else []) <-> b = true /\ y = x.
Proof. destruct b; cbn; intuition congruence. Qed.

Lemma suggestions_distinct :
  clarity_suggestion <> formality_suggestion
  /\ clarity_suggestion <> promptness_suggestion
  /\ formality_suggestion <> promptness_suggestion.
Proof. repeat split; discriminate. Qed.

Lemma suggestions_spec_in (avg : float) (formal informal : nat)
    (art : option float) :
  let l := suggestions_spec avg formal informal art in
  (In clarity_suggestion l <-> (avg <? 40)%float = true)
  /\ (In formality_suggestion l
      <-> 0 < formal + informal /\ informal_dominates informal formal = true)
  /\ (In promptness_suggestion l
      <-> exists t, art = Some t /\ (3600 <? t)%float = true).
Proof.
  destruct suggestions_distinct as (Hcf & Hcp & Hfp).
  assert (Hart : forall x,
    In x match art with
         | Some t => if (3600 <? t)%float then [promptness_suggestion] else []
         | None => []
         end
    <-> (exists t, art = Some t /\ (3600 <? t)%float = true)
        /\ promptness_suggestion = x).
  { intros x. destruct art as [t|]; cbn.
    - rewrite in_if_singleton. split.
      + intros [H1 H2]. split; [now exists t | exact H2].
      + intros [(t' & [= <-] & H1) H2]. now split.
    - split; [tauto | now intros [(t' & [=] & _) _]]. }
  cbn zeta. unfold suggestions_spec.
  split; [|split];
    rewrite !in_app_iff, !in_if_singleton, Hart, ?andb_true_iff, ?Nat.ltb_lt;
    intuition congruence.
Qed.


(** What [calculate_engagement_metrics] returns, when it does. *)
Lemma engagement_returns (results : list entry) (m : engagement_metrics) :
  calculate_engagement_metrics strptime results = inr m ->
  Average_Response_time m = average_gap (response_gaps strptime results)
  /\ Top_Senders m = fold_left sender_step (valid results) [].
Proof.
  rewrite engagement_metrics_spec.
  destruct (existsb bad_formality (valid results)); [discriminate|].
  destruct (average_style_score (numeric_scores (valid results))) as [err|avg];
    cbn [bind ret]; [discriminate|].
  intros [= <-]. now split.
Qed.

Lemma average_gap_none (gaps : list float) :
  average_gap gaps = None <-> gaps = [].
Proof. destruct gaps; cbn; split; congruence. Qed.

(** The gaps of three messages of one conversation, five minutes apart. *)
Lemma three_messages_gaps (e1 e2 e3 : entry) (c : string) (t : datetime) :
  c <> "" ->
  message_at e1 c t -> message_at e2 c (t + 300000000)%Z
  -> message_at e3 c (t + 600000000)%Z ->
  string_conversation_ids [e1; e2; e3]
  /\ response_gaps_spec strptime [e1; e2; e3]
     = [PyFloat.int_truediv 300000000 1000000;
        PyFloat.int_truediv 300000000 1000000].
Proof.
  intros Hc (E1 & C1 & T1) (E2 & C2 & T2) (E3 & C3 & T3). split.
  { intros e [<-|[<-|[<-|[]]]] _ _; eauto. }
  assert (Hne : Py.is_empty c = false) 
    by (destruct c; [exfalso; now apply Hc | reflexivity]).
  unfold response_gaps_spec, conversation_time.
  cbn [omap list_omap].
  rewrite E1, E2, E3, C1, C2, C3, T1, T2, T3, Hne. cbn [negb andb truthy time_obj].
  cbn [map fst distinct List.filter]. rewrite !String.eqb_refl. cbn [negb List.filter].
  cbn [flat_map]. unfold times_of. cbn [List.filter fst].
  rewrite !String.eqb_refl. cbn [map snd].
  rewrite sort_ascending3 by lia.
  cbn [consecutive_gaps app]. unfold total_seconds.
  replace (t + 300000000 - t)%Z with 300000000%Z by lia.
  replace (t + 600000000 - (t + 300000000))%Z with 300000000%Z by lia.
  reflexivity.
Qed.

(** One record gives no gap. *)
Lemma single_record_gaps (e : entry) : response_gaps strptime [e] = [].
Proof.
  unfold response_gaps, valid. cbn [List.filter].
  destruct (has_error e); cbn [negb fold_left dict_values map]; [reflexivity|].
  unfold time_step, collect_time.
  destruct (_ && _); [|reflexivity].
  destruct (time_obj strptime (get e "Timestamp")); reflexivity.
Qed.

(** C3.  For a batch whose conversation ids are strings, the reported
    average response time is that of the specification: the valid records
    that have a conversation id and a timestamp that parses are grouped by
    conversation id, the times of each group are sorted in ascending order,
    the gaps between consecutive times are taken in seconds, and the
    average (rounded to two decimals) is taken over the gaps of all
    conversations; it is absent exactly when there is no gap.  Three
    messages of one conversation at [t], [t] + 5 min and [t] + 10 min give
    exactly [300.0]; a batch of one record gives no average. *)
Theorem average_response_gap :
  (forall results, string_conversation_ids results ->
     match calculate_engagement_metrics strptime results with
     | inr m =>
         Average_Response_time m
         = average_gap (response_gaps_spec strptime results)
         /\ (Average_Response_time m = None
             <-> response_gaps_spec strptime results = [])
     | inl err =>
         (err = AttributeError /\ existsb bad_formality (valid results) = true)
         \/ (existsb bad_formality (valid results) = false
             /\ average_style_score (numeric_scores (valid results)) = inl err)
     end)
  /\ (forall times, Sorted Z.le (sort times) /\ Permutation times (sort times))
  /\ (forall e1 e2 e3 c t m,
        c <> "" ->
        message_at e1 c t -> message_at e2 c (t + 300000000)%Z
        -> message_at e3 c (t + 600000000)%Z ->
        calculate_engagement_metrics strptime [e1; e2; e3] = inr m ->
        Average_Response_time m = Some 300%float)
  /\ (forall e m,
        calculate_engagement_metrics strptime [e] = inr m ->
        Average_Response_time m = None).
Proof.
  split; [|split; [|split]].
  - intros results Hids. rewrite engagement_metrics_spec.
    destruct (existsb bad_formality (valid results)); cbn [bind raise ret].
    { left. now split. }
    destruct (average_style_score (numeric_scores (valid results))) as [err|avg];
      cbn [bind ret].
    { right. now split. }
    cbn [Average_Response_time]. rewrite response_gaps_refine by exact Hids.
    split; [reflexivity | apply average_gap_none].
  - apply sort_sorted_perm.
  - intros e1 e2 e3 c t m Hc H1 H2 H3 Hm.
    destruct (three_messages_gaps e1 e2 e3 c t Hc H1 H2 H3) as [Hids Hgaps].
    apply engagement_returns in Hm as [-> _].
    rewrite response_gaps_refine by exact Hids. rewrite Hgaps.
    vm_compute. reflexivity.
  - intros e m [-> _]%engagement_returns.
    now rewrite single_record_gaps.
Qed.

(** C9: error records are left out of both aggregations, and a batch of
    error records only gives the default content metrics; its engagement
    metrics have no sender, no average response time and the initial
    formality counters, but carry the clarity suggestion, since the average
    style score of no record is [0.0]. *)
Theorem error_only_batch (results : list entry) :
  (calculate_content_metrics results
   = calculate_content_metrics (valid results)
   /\ calculate_engagement_metrics strptime results
      = calculate_engagement_metrics strptime (valid results))
  /\ ((forall e, In e results -> has_error e = true) ->
      calculate_content_metrics results
      = inr (mkContentMetrics 0 spam_counts0 sentiment_counts0 0.0%float
                              formality_counts0)
      /\ calculate_engagement_metrics strptime results
         = inr (mkEngagementMetrics [] None [clarity_suggestion]
                                    formality_counts0)).
Proof.
  assert (Hidem : valid (valid results) = valid results).
  { unfold valid. induction results as [|e rs IH]; [reflexivity|].
    cbn [List.filter]. destruct (has_error e) eqn:He; cbn [negb List.filter];
      [exact IH | now rewrite He, IH]. }
  split.
  - split.
    + unfold calculate_content_metrics. now rewrite !content_loop, Hidem.
    + rewrite !engagement_metrics_spec. unfold response_gaps.
      now rewrite Hidem.
  - intros Hall.
    assert (Hvalid : valid results = []).
    { clear Hidem. unfold valid. revert Hall.
      induction results as [|e rs IH]; intros Hall; [reflexivity|].
      cbn [List.filter]. rewrite (Hall e) by now left. cbn [negb].
      apply IH. intros x Hx. apply Hall. now right. }
    split.
    + unfold calculate_content_metrics. rewrite content_loop, Hvalid.
      reflexivity.
    + rewrite engagement_metrics_spec. unfold response_gaps.
      rewrite Hvalid. reflexivity.
Qed.

End EngagementClaims.

Section EngagementWitnesses.
Import PyVal Metrics.

Lemma average_response_gap_witness :
  exists m,
    calculate_engagement_metrics no_strptime
      [test_entry "Alice" (mk_datetime 2025 7 26 10 0 0);
       test_entry "Bob" (mk_datetime 2025 7 26 10 5 0);
       test_entry "Alice" (mk_datetime 2025 7 26 10 10 0)] = inr m
    /\ Average_Response_time m = Some 300%float.
Proof.
  eexists. split; [vm_compute; reflexivity|].
  apply (proj1 (proj2 (proj2 (average_response_gap no_strptime)))
           (test_entry "Alice" (mk_datetime 2025 7 26 10 0 0))
           (test_entry "Bob" (mk_datetime 2025 7 26 10 5 0))
           (test_entry "Alice" (mk_datetime 2025 7 26 10 10 0))
           "convo1" (mk_datetime 2025 7 26 10 0 0)).
  - discriminate.
  - repeat split; reflexivity.
  - repeat split; reflexivity.
  - repeat split; reflexivity.
  - vm_compute. reflexivity.
Defined.

(** At the input of C9: one error record.  The suggestions are not
    empty. *)
Lemma error_only_batch_witness :
  (forall e : entry, In e [ ({[ "Error" := VStr "boom" ]} : entry) ]
     -> has_error e = true)
  /\ calculate_engagement_metrics no_strptime
       [ ({[ "Error" := VStr "boom" ]} : entry) ]
     = inr (mkEngagementMetrics [] None [clarity_suggestion] formality_counts0).
Proof.
  assert (H : forall e : entry, In e [ ({[ "Error" := VStr "boom" ]} : entry) ]
                -> has_error e = true).
  { intros e [<-|[]]. reflexivity. }
  split; [exact H|].
  apply (proj2 (error_only_batch no_strptime _) H).
Defined.

End EngagementWitnesses.

(** ** The chat-log parser *)

Section WhatsappClaims.
Import PyVal ReportGenerator.
Variable strptime : string -> string -> option datetime.

Lemma append_to_last_snoc (ms : list message) (last : message) (text : string) :
  append_to_last (ms ++ [last]) text = ms ++ [append_message last text].
Proof.
  induction ms as [|m ms IH]; [reflexivity|].
  cbn [app]. destruct (ms ++ [last]) as [|m' rest] eqn:E.
  - now destruct ms.
  - cbn [append_to_last]. cbn [append_to_last] in IH. now rewrite IH.
Qed.

(** C6, amended.  A line that is not empty once stripped and does not
    match the chat-line pattern is appended, after a newline, to the body of
    the last record when there is one; when there is none, it makes a new
    record with the sender ["Unknown"] and the subject
    ["Unformatted Chat Line"], unless it is line 1 of the file, which is
    skipped. *)
Theorem unmatched_line (filename conversation_id : string)
    (messages : list message) (line_num : nat) (line : string) :
  Py.is_empty (Py.strip line) = false ->
  whatsapp_line_match (Py.strip line) = None ->
  let after :=
    whatsapp_step strptime filename conversation_id messages (line_num, line) in
  (forall ms last, messages = ms ++ [last] ->
     after = ms ++ [append_message last (String "010" (Py.strip line))])
  /\ (messages = [] -> line_num <> 1 ->
      exists m, after = [m] /\ Sender m = "Unknown"
                /\ Subject m = "Unformatted Chat Line"
                /\ Message m = Py.strip line /\ Timestamp m = None
                /\ Conversation_ID m = conversation_id)
  /\ (messages = [] -> line_num = 1 -> after = []).
Proof.
  intros Hne Hnomatch after. subst after. unfold whatsapp_step.
  rewrite Hne, Hnomatch. split; [|split].
  - intros ms last ->. rewrite <- append_to_last_snoc.
    now destruct (ms ++ [last]) eqn:E; [destruct ms|].
  - intros -> Hnum. apply Nat.eqb_neq in Hnum. rewrite Hnum.
    eexists. split; [reflexivity|]. cbn. auto 6.
  - intros -> ->. reflexivity.
Qed.

End WhatsappClaims.

Section WhatsappWitnesses.
Import PyVal ReportGenerator.

(** C6, as stated, fails: the first line of a file, when it does not match
    the pattern, makes no record. *)
Lemma first_line_makes_no_record :
  Py.is_empty (Py.strip "Messages to this chat are now secured.") = false
  /\ whatsapp_line_match (Py.strip "Messages to this chat are now secured.")
     = None
  /\ _parse_whatsapp_content no_strptime
       "Messages to this chat are now secured." "chat.txt" = [].
Proof. vm_compute. repeat split; reflexivity. Qed.

Lemma unmatched_line_witness :
  Py.is_empty (Py.strip "  see you there ") = false
  /\ whatsapp_line_match (Py.strip "  see you there ") = None
  /\ exists m,
       whatsapp_step no_strptime "chat.txt" "whatsapp_chat_chat_txt" []
                     (2, "  see you there ") = [m]
       /\ Sender m = "Unknown".
Proof.
  assert (H1 : Py.is_empty (Py.strip "  see you there ") = false) by reflexivity.
  assert (H2 : whatsapp_line_match (Py.strip "  see you there ") = None)
    by (vm_compute; reflexivity).
  split; [exact H1|]. split; [exact H2|].
  destruct (proj1 (proj2 (unmatched_line no_strptime "chat.txt"
                            "whatsapp_chat_chat_txt" [] 2 "  see you there "
                            H1 H2)) eq_refl) as (m & Hm & Hs & _).
  { discriminate. }
  exists m. now split.
Defined.

End WhatsappWitnesses.

(** ** The repository's tests, replayed on the embedding *)

Section RepositoryTests.
Import PyVal.

(** [tests/test_spam_detector.py] *)
Example test_tokenize :
  SpamDetector._tokenize "Hello, World! 123 Buy now. Free money!!!"
  = ["hello"; "world"; "buy"; "now"; "free"; "money"].
Proof. reflexivity. Qed.

Example test_predict_ham :
  fst (SpamDetector.predict SpamDetector.test_detector "this is a normal email") = false.
Proof. vm_compute. reflexivity. Qed.

Example test_predict_spam :
  fst (SpamDetector.predict SpamDetector.test_detector "urgent claim your prize now") = true.
Proof. vm_compute. reflexivity. Qed.

Example test_predict_unknown_word :
  fst (SpamDetector.predict SpamDetector.test_detector "this is a completely new sentence")
  = false.
Proof. vm_compute. reflexivity. Qed.

(** [tests/test_sentiment_analyzer.py] *)
Example test_sentiment :
  SentimentAnalyzer.analyze "I love this great idea." = "positive"
  /\ SentimentAnalyzer.analyze "I hate this bad issue." = "negative"
  /\ SentimentAnalyzer.analyze
       "It was a good idea but had a terrible implementation." = "neutral"
  /\ SentimentAnalyzer.analyze "What a terrible-problem!" = "negative".
Proof. vm_compute. repeat split; reflexivity. Qed.

(** [tests/test_style_analyzer.py] *)
Example test_informal_style :
  StyleAnalyzer.analyze "Hey dude, what's up? Wanna grab a coffee asap?"
  = StyleAnalyzer.mkResult 2.38 "informal".
Proof. vm_compute. reflexivity. Qed.

Example test_formal_style :
  StyleAnalyzer.analyze
    "Respectfully, we wish to inquire concerning this matter."
  = StyleAnalyzer.mkResult 100 "formal".
Proof. vm_compute. reflexivity. Qed.

(** [tests/test_report_generator.py]: the three lines of [TEST_WHATSAPP]. *)
Example test_parse_whatsapp_content :
  map (fun m => (ReportGenerator.Sender m, ReportGenerator.Message m,
                 ReportGenerator.Conversation_ID m))
      (ReportGenerator._parse_whatsapp_content no_strptime
         (String.append "1/1/25, 10:00 AM - Alice: Hey Bob!"
         (String "010"
         (String.append "1/1/25, 10:05 AM - Bob: Hi Alice! How are you?"
         (String "010"
         (String.append "1/1/25, 10:10 AM - Alice: I'm great, thanks!"
         (String "010" EmptyString))))))
         "whatsapp_chat.txt")
  = [("Alice", "Hey Bob!", "whatsapp_chat_whatsapp_chat_txt");
     ("Bob", "Hi Alice! How are you?", "whatsapp_chat_whatsapp_chat_txt");
     ("Alice", "I'm great, thanks!", "whatsapp_chat_whatsapp_chat_txt")].
Proof. vm_compute. reflexivity. Qed.

(** [tests/test_metric_calculator.py] *)
Example test_calculate_content_metrics_basic :
  match Metrics.calculate_content_metrics
          [ {[ "Spam" := VStr "HAM"; "Sentiment" := VStr "positive";
               "Style Score" := VFloat 70; "Formality" := VStr "formal" ]};
            {[ "Spam" := VStr "SPAM"; "Sentiment" := VStr "negative";
               "Style Score" := VFloat 30; "Formality" := VStr "informal" ]};
            {[ "Spam" := VStr "HAM"; "Sentiment" := VStr "neutral";
               "Style Score" := VFloat 60; "Formality" := VStr "neutral" ]} ]
  with
  | inr m =>
      Metrics.Total_Messages m = 3
      /\ Metrics.Spam_Counts m = {[ "SPAM" := 1; "HAM" := 2 ]}
      /\ Metrics.Average_Style_Score m = 53.33%float
  | inl _ => False
  end.
Proof. vm_compute. repeat split; reflexivity. Qed.

Example test_suggestions_generation_low_style_score :
  match
    Metrics.calculate_engagement_metrics no_strptime
      [ {[ "Sender" := VStr "A"; "Conversation ID" := VStr "c1";
           "Timestamp" := VDatetime (mk_datetime 2025 1 1 10 0 0);
           "Style Score" := VInt 30; "Formality" := VStr "informal" ]};
        {[ "Sender" := VStr "B"; "Conversation ID" := VStr "c1";
           "Timestamp" := VDatetime (mk_datetime 2025 1 1 10 5 0);
           "Style Score" := VInt 35; "Formality" := VStr "informal" ]} ]
  with
  | inr m =>
      Metrics.Suggestions m
      = [Metrics.clarity_suggestion; Metrics.formality_suggestion]
      /\ Metrics.Average_Response_time m = Some 300%float
  | inl _ => False
  end.
Proof. vm_compute. split; reflexivity. Qed.

End RepositoryTests.

(** * Further properties of the code *)

(** ** Tokens *)

Section TokenShape.
Import Py.

Lemma all_chars_of_list (cls : ascii -> bool) (l : list ascii) :
  all_chars cls (string_of_list_ascii l) = forallb cls l.
Proof. induction l as [|c l IH]; cbn; [reflexivity | now rewrite IH]. Qed.

Lemma forallb_rev {A} (p : A -> bool) (l : list A) :
  forallb p (rev l) = forallb p l.
Proof.
  induction l as [|x l IH]; [reflexivity|].
  cbn [rev forallb]. rewrite forallb_app, IH. cbn. rewrite andb_true_r.
  apply andb_comm.
Qed.

Lemma flush_shape (cls : ascii -> bool) (cur : list ascii) :
  forallb cls cur = true -> Forall (word_of cls) (flush cur).
Proof.
  intros H. destruct cur as [|c cur]; [constructor|].
  unfold flush. constructor; [|constructor]. split.
  - cbn [rev]. destruct (rev cur); discriminate.
  - now rewrite all_chars_of_list, forallb_rev.
Qed.

Lemma findall_runs_shape (cls : ascii -> bool) (s : string) (cur : list ascii) :
  forallb cls cur = true -> Forall (word_of cls) (findall_runs cls cur s).
Proof.
  revert cur. induction s as [|c s IH]; intros cur H; cbn [findall_runs].
  - now apply flush_shape.
  - destruct (cls c) eqn:Hc.
    + apply IH. cbn. now rewrite Hc.
    + apply Forall_app. split; [now apply flush_shape | now apply IH].
Qed.

Lemma append_empty_r (s : string) : s +:+ EmptyString = s.
Proof. induction s as [|c s IH]; [reflexivity|]. now rewrite append_cons, IH. Qed.

Lemma append_assoc (a b c : string) : (a +:+ b) +:+ c = a +:+ (b +:+ c).
Proof.
  induction a as [|x a IH]; [reflexivity|]. now rewrite !append_cons, IH.
Qed.

(** Reading a word extends the pending run by the word. *)
Lemma findall_runs_word (cls : ascii -> bool) (w rest : string)
    (cur : list ascii) :
  all_chars cls w = true ->
  findall_runs cls cur (w +:+ rest)
  = findall_runs cls (rev (list_ascii_of_string w) ++ cur) rest.
Proof.
  revert cur. induction w as [|c w IH]; intros cur H; [reflexivity|].
  cbn in H. apply andb_prop in H as [Hc Hw].
  rewrite append_cons. cbn [findall_runs]. rewrite Hc, (IH _ Hw).
  cbn [list_ascii_of_string rev]. now rewrite <- app_assoc.
Qed.

Lemma findall_runs_one_word (cls : ascii -> bool) (w : string) :
  word_of cls w -> findall_runs cls [] w = [w].
Proof.
  intros [Hne Hw].
  rewrite <- (append_empty_r w) at 1. rewrite (findall_runs_word _ _ _ _ Hw).
  rewrite app_nil_r. cbn [findall_runs]. unfold flush.
  destruct (rev (list_ascii_of_string w)) eqn:E.
  - apply (f_equal (@rev ascii)) in E. rewrite rev_involutive in E. cbn in E.
    destruct w; [congruence | discriminate].
  - rewrite <- E, rev_involutive. now rewrite string_of_list_ascii_of_string.
Qed.

(** The tokens of words joined by a character outside the class are the
    words. *)
Lemma findall_runs_join (cls : ascii -> bool) (sep : ascii) (ws : list string) :
  cls sep = false -> Forall (word_of cls) ws ->
  findall_runs cls [] (join (String sep EmptyString) ws) = ws.
Proof.
  intros Hsep. induction ws as [|x ws IH]; intros H; [reflexivity|].
  apply Forall_cons_1 in H as [Hx Hws]. destruct ws as [|y ws].
  - now apply findall_runs_one_word.
  - change (join _ (x :: y :: ws))
      with (x +:+ String sep (join (String sep EmptyString) (y :: ws))).
    rewrite (findall_runs_app _ _ _ _ _ Hsep), (IH Hws).
    now rewrite (findall_runs_one_word _ _ Hx).
Qed.

Lemma lower_char_fixed (c : ascii) :
  is_az_apos c = true \/ c = " "%char -> lower_char c = c.
Proof.
  intros [H | ->]; [|reflexivity].
  revert H. destruct c as [[] [] [] [] [] [] [] []]; vm_compute; congruence.
Qed.

Lemma lower_word (w : string) : all_chars is_az_apos w = true -> lower w = w.
Proof.
  induction w as [|c w IH]; [reflexivity|]. cbn.
  intros [Hc Hw]%andb_prop. rewrite (IH Hw).
  rewrite (lower_char_fixed c); [reflexivity | now left].
Qed.

Lemma lower_join (ws : list string) :
  Forall (fun w => all_chars is_az_apos w = true) ws ->
  lower (join " " ws) = join " " ws.
Proof.
  induction ws as [|x ws IH]; intros H; [reflexivity|].
  apply Forall_cons_1 in H as [Hx Hws]. destruct ws as [|y ws].
  - now apply lower_word.
  - change (join " " (x :: y :: ws)) with (x +:+ " " +:+ join " " (y :: ws)).
    rewrite !lower_app, (IH Hws), (lower_word _ Hx). reflexivity.
Qed.

Lemma all_chars_weaken (p q : ascii -> bool) (w : string) :
  (forall c, p c = true -> q c = true) ->
  all_chars p w = true -> all_chars q w = true.
Proof.
  intros Hpq. induction w as [|c w IH]; [reflexivity|]. cbn.
  intros [Hc Hw]%andb_prop. now rewrite (Hpq _ Hc), (IH Hw).
Qed.

Lemma is_az_is_az_apos (c : ascii) : is_az c = true -> is_az_apos c = true.
Proof. unfold is_az_apos. now intros ->. Qed.

Lemma tokens_round_trip (cls : ascii -> bool) (text : string) :
  (forall c, cls c = true -> is_az_apos c = true) ->
  findall_runs cls [] (lower (join " " (findall_runs cls [] (lower text))))
  = findall_runs cls [] (lower text).
Proof.
  intros Hcls.
  pose proof (findall_runs_shape cls (lower text) [] eq_refl) as Hshape.
  rewrite lower_join.
  - apply findall_runs_join; [|exact Hshape].
    destruct (cls " "%char) eqn:E; [|reflexivity].
    apply Hcls in E. discriminate.
  - eapply Forall_impl; [exact Hshape|].
    intros w [_ Hw]. now apply (all_chars_weaken cls).
Qed.

End TokenShape.

Section TokenTheorems.
Import Py.

(** X1.  Every token of the three tokenizers is a non-empty word: of the
    letters [a] to [z] for the spam classifier and the sentiment analyzer,
    of these letters and the apostrophe for the style analyzer. *)
Theorem tokens_are_lowercase_words (text : string) :
  Forall (fun w => w <> "" /\ all_chars is_az w = true)
         (SpamDetector._tokenize text)
  /\ Forall (fun w => w <> "" /\ all_chars is_az w = true)
            (SentimentAnalyzer._tokenize text)
  /\ Forall (fun w => w <> "" /\ all_chars is_az_apos w = true)
            (StyleAnalyzer._tokenize text).
Proof.
  repeat split; now apply findall_runs_shape.
Qed.

(** X2.  Tokenizing is idempotent: the tokens of a text, joined by single
    spaces, tokenize to the same tokens again (for each tokenizer). *)
Theorem tokenize_join_round_trip (text : string) :
  SpamDetector._tokenize (join " " (SpamDetector._tokenize text))
  = SpamDetector._tokenize text
  /\ SentimentAnalyzer._tokenize (join " " (SentimentAnalyzer._tokenize text))
     = SentimentAnalyzer._tokenize text
  /\ StyleAnalyzer._tokenize (join " " (StyleAnalyzer._tokenize text))
     = StyleAnalyzer._tokenize text.
Proof.
  repeat split.
  - apply tokens_round_trip, is_az_is_az_apos.
  - apply tokens_round_trip, is_az_is_az_apos.
  - apply tokens_round_trip. auto.
Qed.

End TokenTheorems.

(** ** Case, punctuation and word order *)

Section CaseFacts.
Import Py.

Lemma lower_char_idem (c : ascii) : lower_char (lower_char c) = lower_char c.
Proof. destruct c as [[] [] [] [] [] [] [] []]; vm_compute; reflexivity. Qed.

Lemma lower_idem (s : string) : lower (lower s) = lower s.
Proof.
  induction s as [|c s IH]; [reflexivity|]. cbn. now rewrite lower_char_idem, IH.
Qed.

Lemma isspace_lower_char (c : ascii) : isspace (lower_char c) = isspace c.
Proof. destruct c as [[] [] [] [] [] [] [] []]; vm_compute; reflexivity. Qed.

Lemma all_space_lower (s : string) : all_space (lower s) = all_space s.
Proof.
  induction s as [|c s IH]; [reflexivity|]. cbn.
  now rewrite isspace_lower_char, IH.
Qed.

Lemma is_empty_strip (s : string) : is_empty (strip s) = all_space s.
Proof.
  destruct (all_space s) eqn:E.
  - now apply strip_empty_iff.
  - destruct (is_empty (strip s)) eqn:F; [|reflexivity].
    apply strip_empty_iff in F. congruence.
Qed.

Lemma is_empty_strip_lower (s : string) :
  is_empty (strip (lower s)) = is_empty (strip s).
Proof. now rewrite !is_empty_strip, all_space_lower. Qed.

(** A loop whose turns commute gives the same result on a permutation of
    the list. *)
Lemma fold_left_permutation {A B} (f : A -> B -> A) (l l' : list B) :
  (forall a x y, f (f a x) y = f (f a y) x) ->
  Permutation l l' -> forall a, fold_left f l a = fold_left f l' a.
Proof.
  intros Hf H. induction H as [|x l l' _ IH|x y l|l l' l'' _ IH1 _ IH2];
    intros a; cbn.
  - reflexivity.
  - apply IH.
  - now rewrite Hf.
  - now rewrite IH1.
Qed.

End CaseFacts.

Section AnalyzerInputs.
Import Py.

(** The first test of [predict] is covered by the second: a message
    without a token is HAM and leaves the instance as it is. *)
Lemma predict_no_token (self : SpamDetector.t) (message : string) :
  SpamDetector._tokenize message = [] ->
  SpamDetector.predict self message = (false, self).
Proof.
  intros H. unfold SpamDetector.predict. rewrite H.
  now destruct (is_empty (strip message)).
Qed.

Lemma predict_blank (self : SpamDetector.t) (message : string) :
  is_empty (strip message) = true ->
  SpamDetector._tokenize message = [].
Proof. intros H. now apply strip_empty_iff, tokenize_all_space in H. Qed.

(** [predict] as a function of the tokens. *)
Lemma predict_tokens (self : SpamDetector.t) (a b : string) :
  SpamDetector._tokenize a = SpamDetector._tokenize b ->
  SpamDetector.predict self a = SpamDetector.predict self b.
Proof.
  intros H.
  destruct (is_empty (strip a)) eqn:Ha.
  { pose proof (predict_blank self a Ha) as Ea.
    rewrite (predict_no_token self a Ea).
    rewrite (predict_no_token self b); [reflexivity | congruence]. }
  destruct (is_empty (strip b)) eqn:Hb.
  { pose proof (predict_blank self b Hb) as Eb.
    rewrite (predict_no_token self b Eb).
    rewrite (predict_no_token self a); [reflexivity | congruence]. }
  unfold SpamDetector.predict. now rewrite Ha, Hb, H.
Qed.

(** The sentiment as a function of the tokens. *)
Lemma sentiment_tokens (text : string) :
  SentimentAnalyzer.analyze text
  = let '(positive_count, negative_count) :=
      fold_left SentimentAnalyzer.count_word
                (SentimentAnalyzer._tokenize text) (0, 0) in
    if Nat.ltb negative_count positive_count then "positive"
    else if Nat.ltb positive_count negative_count then "negative"
    else "neutral".
Proof.
  unfold SentimentAnalyzer.analyze.
  destruct (is_empty (strip text)) eqn:H; [|reflexivity].
  apply strip_empty_iff, tokenize_all_space in H as (_ & _ & ->). reflexivity.
Qed.

Lemma sentiment_count_word_comm (acc : nat * nat) (x y : string) :
  SentimentAnalyzer.count_word (SentimentAnalyzer.count_word acc x) y
  = SentimentAnalyzer.count_word (SentimentAnalyzer.count_word acc y) x.
Proof.
  destruct acc as [p n]. unfold SentimentAnalyzer.count_word.
  destruct (mem x SentimentAnalyzer.positive_words),
           (mem x SentimentAnalyzer.negative_words),
           (mem y SentimentAnalyzer.positive_words),
           (mem y SentimentAnalyzer.negative_words); reflexivity.
Qed.

(** The style as a function of the tokens. *)
Lemma style_tokens (text : string) :
  StyleAnalyzer.analyze text
  = match StyleAnalyzer._tokenize text with
    | [] => StyleAnalyzer.mkResult 50.0%float "neutral"
    | words =>
        let c := fold_left StyleAnalyzer.count_word words
                           (StyleAnalyzer.mkCounts 0 0 0) in
        let formality_score :=
          StyleAnalyzer.formality_score_of c (length words) in
        StyleAnalyzer.mkResult (StyleAnalyzer.style_score_of formality_score)
                               (StyleAnalyzer.classify formality_score)
    end.
Proof.
  unfold StyleAnalyzer.analyze.
  destruct (is_empty (strip text)) eqn:H.
  - apply strip_empty_iff, tokenize_all_space in H as (_ & -> & _). reflexivity.
  - now destruct (StyleAnalyzer._tokenize text).
Qed.

Lemma style_count_word_comm (c : StyleAnalyzer.counts) (x y : string) :
  StyleAnalyzer.count_word (StyleAnalyzer.count_word c x) y
  = StyleAnalyzer.count_word (StyleAnalyzer.count_word c y) x.
Proof.
  destruct c as [f i k]. unfold StyleAnalyzer.count_word.
  destruct (mem x StyleAnalyzer.formal_keywords),
           (mem x StyleAnalyzer.informal_keywords),
           (mem x StyleAnalyzer.contractions),
           (mem y StyleAnalyzer.formal_keywords),
           (mem y StyleAnalyzer.informal_keywords),
           (mem y StyleAnalyzer.contractions); reflexivity.
Qed.

End AnalyzerInputs.

Section AnalyzerInputTheorems.
Import Py.

(** X3.  The three analyzers ignore the case of the letters: on the
    lower-cased text, [predict] returns the same verdict and leaves the
    same instance, and the sentiment and the style are the same. *)
Theorem analyzers_ignore_case (self : SpamDetector.t) (text : string) :
  SpamDetector.predict self (lower text) = SpamDetector.predict self text
  /\ SentimentAnalyzer.analyze (lower text) = SentimentAnalyzer.analyze text
  /\ StyleAnalyzer.analyze (lower text) = StyleAnalyzer.analyze text.
Proof.
  repeat split.
  - apply predict_tokens. unfold SpamDetector._tokenize. now rewrite lower_idem.
  - rewrite !sentiment_tokens. unfold SentimentAnalyzer._tokenize.
    now rewrite lower_idem.
  - rewrite !style_tokens. unfold StyleAnalyzer._tokenize.
    now rewrite lower_idem.
Qed.

(** X4.  [predict] depends on the tokens of the message only: two messages
    with the same tokens (whatever their digits, punctuation, spacing and
    case) get the same verdict and leave the same instance. *)
Theorem predict_depends_on_tokens (self : SpamDetector.t) (a b : string) :
  SpamDetector._tokenize a = SpamDetector._tokenize b ->
  SpamDetector.predict self a = SpamDetector.predict self b.
Proof. apply predict_tokens. Qed.

Lemma predict_depends_on_tokens_witness :
  SpamDetector.predict SpamDetector.test_detector "Buy now: FREE money!!!"
  = SpamDetector.predict SpamDetector.test_detector "buy 2 now,free  money".
Proof.
  apply (predict_depends_on_tokens SpamDetector.test_detector
           "Buy now: FREE money!!!" "buy 2 now,free  money").
  vm_compute. reflexivity.
Defined.

(** X5.  The sentiment does not depend on the order of the words: two
    texts whose tokens are a permutation of each other get the same
    label. *)
Theorem sentiment_ignores_word_order (a b : string) :
  Permutation (SentimentAnalyzer._tokenize a) (SentimentAnalyzer._tokenize b) ->
  SentimentAnalyzer.analyze a = SentimentAnalyzer.analyze b.
Proof.
  intros H. rewrite !sentiment_tokens.
  now rewrite (fold_left_permutation _ _ _ sentiment_count_word_comm H).
Qed.

Lemma sentiment_ignores_word_order_witness :
  SentimentAnalyzer.analyze "not good, great"
  = SentimentAnalyzer.analyze "Great! Good? Not.".
Proof.
  apply (sentiment_ignores_word_order "not good, great" "Great! Good? Not.").
  change (Permutation ["not"; "good"; "great"] (rev ["not"; "good"; "great"])).
  apply Permutation_rev.
Defined.

(** X6.  The style score and the formality do not depend on the order of
    the words: two texts whose tokens are a permutation of each other get
    the same result. *)
Theorem style_ignores_word_order (a b : string) :
  Permutation (StyleAnalyzer._tokenize a) (StyleAnalyzer._tokenize b) ->
  StyleAnalyzer.analyze a = StyleAnalyzer.analyze b.
Proof.
  intros H. rewrite !style_tokens.
  destruct (StyleAnalyzer._tokenize a) as [|x xs] eqn:Ea.
  { apply Permutation_nil in H. now rewrite H. }
  destruct (StyleAnalyzer._tokenize b) as [|y ys] eqn:Eb.
  { symmetry in H. apply Permutation_nil in H. discriminate. }
  cbv zeta.
  rewrite (fold_left_permutation _ _ _ style_count_word_comm H).
  now rewrite (Permutation_length H).
Qed.

Lemma style_ignores_word_order_witness :
  StyleAnalyzer.analyze "hey, I'm regarding"
  = StyleAnalyzer.analyze "Regarding: I'm... hey".
Proof.
  apply (style_ignores_word_order "hey, I'm regarding" "Regarding: I'm... hey").
  change (Permutation ["hey"; "i'm"; "regarding"]
                      (rev ["hey"; "i'm"; "regarding"])).
  apply Permutation_rev.
Defined.

(** X7.  No token of the sentiment analyzer has an apostrophe, so the two
    entries ["can't"] and ["don't"] of its negative list are never
    counted: no token of any text is one of them. *)
Theorem sentiment_never_counts_contractions (text : string) :
  Forall (fun w => w <> "can't" /\ w <> "don't")
         (SentimentAnalyzer._tokenize text).
Proof.
  eapply Forall_impl; [apply (findall_runs_shape is_az (lower text) [] eq_refl)|].
  intros w [_ Hw]. split; intros ->; discriminate.
Qed.

(** X8.  No token of the style analyzer has a space, so the entries of its
    keyword lists that are phrases are never counted: no token of any text
    is one of them. *)
Theorem style_never_counts_phrases (text : string) :
  Forall (fun w => w <> "to whom it may concern" /\ w <> "pursuant to"
                   /\ w <> "in accordance with" /\ w <> "whats up")
         (StyleAnalyzer._tokenize text).
Proof.
  eapply Forall_impl;
    [apply (findall_runs_shape is_az_apos (lower text) [] eq_refl)|].
  intros w [_ Hw]. repeat split; intros ->; discriminate.
Qed.

End AnalyzerInputTheorems.


(** ** Stripping *)

Section StripFacts.
Import Py.

Lemma lstrip_decomp (s : string) :
  exists ws, all_space ws = true /\ s = ws +:+ lstrip s.
Proof.
  induction s as [|c s (ws & Hws & IH)]; [now exists EmptyString|].
  cbn [lstrip]. destruct (isspace c) eqn:Hc.
  - exists (String c ws). split; [cbn; now rewrite Hc|].
    rewrite append_cons. now rewrite <- IH.
  - now exists EmptyString.
Qed.

Lemma rev_string_acc (acc s : string) :
  rev_string acc s = rev_string EmptyString s +:+ acc.
Proof.
  revert acc. induction s as [|c s IH]; intros acc; [reflexivity|].
  cbn [rev_string]. rewrite (IH (String c acc)), (IH (String c EmptyString)).
  now rewrite append_assoc.
Qed.

Lemma rev_string_app (acc a b : string) :
  rev_string acc (a +:+ b) = rev_string (rev_string acc a) b.
Proof.
  revert acc. induction a as [|c a IH]; intros acc; [reflexivity|].
  rewrite append_cons. cbn [rev_string]. apply IH.
Qed.

Lemma rev_string_rev_string (x acc s : string) :
  rev_string x (rev_string acc s) = rev_string (s +:+ x) acc.
Proof.
  revert acc. induction s as [|c s IH]; intros acc; [reflexivity|].
  cbn [rev_string]. rewrite IH. now rewrite append_cons.
Qed.

Lemma rev_string_involutive (s : string) :
  rev_string EmptyString (rev_string EmptyString s) = s.
Proof. rewrite rev_string_rev_string. cbn. apply append_empty_r. Qed.

Lemma rstrip_decomp (s : string) :
  exists ws, all_space ws = true /\ s = rstrip s +:+ ws.
Proof.
  unfold rstrip.
  destruct (lstrip_decomp (rev_string EmptyString s)) as (ws & Hws & E).
  exists (rev_string EmptyString ws). split.
  - now rewrite all_space_rev_string.
  - rewrite <- (rev_string_involutive s) at 1. rewrite E at 1.
    rewrite rev_string_app. apply rev_string_acc.
Qed.

(** What [strip] removes is white space on both sides. *)
Lemma strip_decomp (s : string) :
  exists a b, all_space a = true /\ all_space b = true
              /\ s = a +:+ strip s +:+ b.
Proof.
  destruct (lstrip_decomp s) as (a & Ha & Ea).
  destruct (rstrip_decomp (lstrip s)) as (b & Hb & Eb).
  exists a, b. repeat split; [exact Ha | exact Hb|].
  unfold strip. now rewrite <- Eb.
Qed.

Section Runs.
Variable cls : ascii -> bool.
Hypothesis cls_space : forall c, isspace c = true -> cls (lower_char c) = false.

Lemma findall_runs_spaces (ws : string) (cur : list ascii) :
  all_space ws = true -> findall_runs cls cur (lower ws) = flush cur.
Proof.
  revert cur. induction ws as [|c ws IH]; intros cur; cbn; [reflexivity|].
  intros [Hc Hws]%andb_prop. rewrite (cls_space c Hc), (IH [] Hws).
  apply app_nil_r.
Qed.

Lemma findall_runs_leading (ws s : string) :
  all_space ws = true ->
  findall_runs cls [] (lower (ws +:+ s)) = findall_runs cls [] (lower s).
Proof.
  induction ws as [|c ws IH]; [reflexivity|]. cbn [all_space].
  intros [Hc Hws]%andb_prop. rewrite append_cons. cbn.
  rewrite (cls_space c Hc). now apply IH.
Qed.

Lemma findall_runs_trailing (s ws : string) (cur : list ascii) :
  all_space ws = true ->
  findall_runs cls cur (lower (s +:+ ws)) = findall_runs cls cur (lower s).
Proof.
  intros Hws. revert cur. induction s as [|c s IH]; intros cur.
  - now apply findall_runs_spaces.
  - rewrite append_cons. cbn. now rewrite !IH.
Qed.

Lemma findall_runs_strip (s : string) :
  findall_runs cls [] (lower (strip s)) = findall_runs cls [] (lower s).
Proof.
  destruct (strip_decomp s) as (a & b & Ha & Hb & E).
  rewrite E at 2.
  now rewrite (findall_runs_leading _ _ Ha), (findall_runs_trailing _ _ _ Hb).
Qed.

End Runs.

Lemma spam_tokenize_strip (s : string) :
  SpamDetector._tokenize (strip s) = SpamDetector._tokenize s.
Proof.
  apply findall_runs_strip. intros c Hc.
  now apply is_az_apos_false, isspace_not_az.
Qed.

End StripFacts.

(** ** Training *)

Section TrainingFacts.
Import SpamDetector.

Lemma dd_incr_lookup (d : gmap string nat) (k w : string) :
  dd_incr d k !! w
  = if decide (k = w) then Some (S (count_of d k)) else d !! w.
Proof.
  unfold dd_incr, dd_getitem, count_of.
  destruct (d !! k) eqn:Hk; destruct (decide (k = w)) as [->|Hne].
  - now rewrite lookup_insert_eq.
  - now rewrite lookup_insert_ne.
  - now rewrite lookup_insert_eq.
  - now rewrite !lookup_insert_ne.
Qed.

Lemma dd_incr_count (d : gmap string nat) (k w : string) :
  count_of (dd_incr d k) w
  = count_of d w + (if String.eqb w k then 1 else 0).
Proof.
  unfold count_of at 1. rewrite dd_incr_lookup.
  destruct (decide (k = w)) as [->|Hne].
  - rewrite String.eqb_refl. lia.
  - destruct (String.eqb_spec w k) as [->|_]; [congruence|].
    fold (count_of d w). lia.
Qed.

Lemma sum_values_insert_present (d : gmap string nat) (k : string) (v v' : nat) :
  d !! k = Some v -> sum_values (<[k := v']> d) + v = sum_values d + v'.
Proof.
  intros Hk.
  rewrite <- (insert_delete_eq d k v').
  rewrite <- (insert_delete_id d k v Hk) at 2.
  rewrite !sum_values_insert_fresh by apply lookup_delete_eq. lia.
Qed.

Lemma dd_incr_sum (d : gmap string nat) (k : string) :
  sum_values (dd_incr d k) = S (sum_values d).
Proof.
  unfold dd_incr, dd_getitem. destruct (d !! k) eqn:Hk.
  - pose proof (sum_values_insert_present d k n (S n) Hk). lia.
  - rewrite insert_insert_eq. rewrite sum_values_insert_fresh by exact Hk.
    reflexivity.
Qed.

Lemma dd_incr_comm (d : gmap string nat) (x y : string) :
  dd_incr (dd_incr d x) y = dd_incr (dd_incr d y) x.
Proof.
  apply map_eq. intros w. rewrite !dd_incr_lookup.
  unfold count_of. rewrite !dd_incr_lookup.
  repeat case_decide; subst; try congruence; reflexivity.
Qed.

(** The loop of [_train] over the tokens. *)
Lemma train_words_spec (is_spam : bool) (words : list string) (self : t) :
  let self' := fold_left (train_word is_spam) words self in
  ham_messages_count self' = ham_messages_count self
  /\ spam_messages_count self' = spam_messages_count self
  /\ all_words self' = all_words self ∪ list_to_set words
  /\ (forall w, count_of (ham_words self') w
                = count_of (ham_words self) w
                  + (if is_spam then 0 else Py.occurrences w words))
  /\ (forall w, count_of (spam_words self') w
                = count_of (spam_words self) w
                  + (if is_spam then Py.occurrences w words else 0))
  /\ sum_values (ham_words self')
     = sum_values (ham_words self) + (if is_spam then 0 else length words)
  /\ sum_values (spam_words self')
     = sum_values (spam_words self) + (if is_spam then length words else 0)
  /\ (if is_spam then ham_words self' = ham_words self
      else spam_words self' = spam_words self).
Proof.
  revert self. induction words as [|x words IH]; intros self.
  - destruct is_spam; cbn; repeat split; intros; try lia; try reflexivity.
    all: now rewrite union_empty_r_L.
  - cbv zeta. cbn [fold_left].
    pose proof (IH (train_word is_spam self x)) as IHx. cbv zeta in IHx.
    destruct IHx as (H1 & H2 & H3 & H4 & H5 & H6 & H7 & H8).
    rewrite H1, H2, H3, H6, H7.
    unfold Py.occurrences. cbn [List.filter length].
    destruct is_spam; cbn [train_word set_spam_words set_ham_words ham_words
      spam_words ham_messages_count spam_messages_count all_words] in *.
    + repeat split; try reflexivity.
      * rewrite list_to_set_cons, (union_comm_L {[x]} (all_words self)).
        now rewrite <- (assoc_L (∪)).
      * intros w. rewrite H4. reflexivity.
      * intros w. rewrite H5, dd_incr_count. unfold Py.occurrences.
        destruct (String.eqb w x); cbn [length]; lia.
      * rewrite dd_incr_sum. cbn [length]. lia.
      * exact H8.
    + repeat split; try reflexivity.
      * rewrite list_to_set_cons, (union_comm_L {[x]} (all_words self)).
        now rewrite <- (assoc_L (∪)).
      * intros w. rewrite H4, dd_incr_count. unfold Py.occurrences.
        destruct (String.eqb w x); cbn [length]; lia.
      * intros w. rewrite H5. reflexivity.
      * rewrite dd_incr_sum. cbn [length]. lia.
      * exact H8.
Qed.

End TrainingFacts.

Section TrainingTheorems.
Import SpamDetector.

Lemma train_unfold (self : t) (message : string) (is_spam : bool) :
  _train self message is_spam
  = count_message is_spam
      (fold_left (train_word is_spam) (_tokenize message) self).
Proof. unfold _train, count_message. now destruct is_spam. Qed.

(** What one call of [_train] does to the instance. *)
Lemma train_spec (self : t) (message : string) (is_spam : bool) :
  let self' := _train self message is_spam in
  let words := _tokenize message in
  ham_messages_count self'
  = ham_messages_count self + (if is_spam then 0 else 1)
  /\ spam_messages_count self'
     = spam_messages_count self + (if is_spam then 1 else 0)
  /\ all_words self' = all_words self ∪ list_to_set words
  /\ (forall w, count_of (ham_words self') w
                = count_of (ham_words self) w
                  + (if is_spam then 0 else Py.occurrences w words))
  /\ (forall w, count_of (spam_words self') w
                = count_of (spam_words self) w
                  + (if is_spam then Py.occurrences w words else 0))
  /\ (if is_spam then ham_words self' = ham_words self
      else spam_words self' = spam_words self).
Proof.
  cbv zeta. rewrite train_unfold.
  pose proof (train_words_spec is_spam (_tokenize message) self) as H.
  cbv zeta in H. destruct H as (H1 & H2 & H3 & H4 & H5 & _ & _ & H8).
  destruct is_spam; cbn [count_message ham_words spam_words ham_messages_count
    spam_messages_count all_words]; repeat split; try assumption; lia.
Qed.

(** X10.  [_train] counts: the message count of the class grows by one and
    the other stays; the vocabulary gains the tokens of the message; the
    count of every word in the class map grows by the number of its
    occurrences among the tokens; the map of the other class is left as it
    is. *)
Theorem train_counts_tokens (self : t) (message : string) (is_spam : bool) :
  let self' := _train self message is_spam in
  let words := _tokenize message in
  ham_messages_count self'
  = ham_messages_count self + (if is_spam then 0 else 1)
  /\ spam_messages_count self'
     = spam_messages_count self + (if is_spam then 1 else 0)
  /\ all_words self' = all_words self ∪ list_to_set words
  /\ (forall w, count_of (ham_words self') w
                = count_of (ham_words self) w
                  + (if is_spam then 0 else Py.occurrences w words))
  /\ (forall w, count_of (spam_words self') w
                = count_of (spam_words self) w
                  + (if is_spam then Py.occurrences w words else 0))
  /\ (if is_spam then ham_words self' = ham_words self
      else spam_words self' = spam_words self).
Proof. apply train_spec. Qed.

Lemma train_word_comm (b1 b2 : bool) (self : t) (x y : string) :
  train_word b1 (train_word b2 self x) y
  = train_word b2 (train_word b1 self y) x.
Proof.
  assert (Hset : forall A : gset string,
             {[y]} ∪ ({[x]} ∪ A) = {[x]} ∪ ({[y]} ∪ A)).
  { intros A. rewrite !(assoc_L (∪)). now rewrite (union_comm_L {[y]} {[x]}). }
  destruct b1, b2; unfold train_word, set_spam_words, set_ham_words; cbn;
    rewrite Hset; try reflexivity.
  - now rewrite dd_incr_comm.
  - now rewrite dd_incr_comm.
Qed.

Lemma train_word_fold_comm (b1 b2 : bool) (words : list string) (self : t)
    (y : string) :
  fold_left (train_word b2) words (train_word b1 self y)
  = train_word b1 (fold_left (train_word b2) words self) y.
Proof.
  revert self. induction words as [|x words IH]; intros self; [reflexivity|].
  cbn [fold_left]. rewrite <- IH. now rewrite train_word_comm.
Qed.

Lemma train_fold_fold_comm (b1 b2 : bool) (ws1 ws2 : list string) (self : t) :
  fold_left (train_word b1) ws1 (fold_left (train_word b2) ws2 self)
  = fold_left (train_word b2) ws2 (fold_left (train_word b1) ws1 self).
Proof.
  revert self. induction ws1 as [|y ws1 IH]; intros self; [reflexivity|].
  cbn [fold_left].
  now rewrite <- (IH (train_word b1 self y)),
    (train_word_fold_comm b1 b2 ws2 self y).
Qed.

Lemma count_message_train_word (b b' : bool) (self : t) (x : string) :
  train_word b (count_message b' self) x
  = count_message b' (train_word b self x).
Proof. now destruct b, b'. Qed.

Lemma count_message_fold (b b' : bool) (words : list string) (self : t) :
  fold_left (train_word b) words (count_message b' self)
  = count_message b' (fold_left (train_word b) words self).
Proof.
  revert self. induction words as [|x words IH]; intros self; [reflexivity|].
  cbn [fold_left]. now rewrite count_message_train_word, IH.
Qed.

Lemma count_message_comm (b b' : bool) (self : t) :
  count_message b (count_message b' self)
  = count_message b' (count_message b self).
Proof. now destruct b, b'. Qed.

Lemma train_comm (self : t) (m1 m2 : string) (b1 b2 : bool) :
  _train (_train self m1 b1) m2 b2 = _train (_train self m2 b2) m1 b1.
Proof.
  rewrite !train_unfold, !count_message_fold.
  now rewrite count_message_comm, train_fold_fold_comm.
Qed.

(** X11.  The trained instance does not depend on the order of the training
    messages: training on a permutation of the labelled messages gives the
    same word counts, message counts and vocabulary. *)
Theorem training_order_is_irrelevant (self : t)
    (examples examples' : list (string * bool)) :
  Permutation examples examples' ->
  train_all self examples = train_all self examples'.
Proof.
  intros H. unfold train_all. apply fold_left_permutation; [|exact H].
  intros a x y. apply train_comm.
Qed.

Lemma training_order_is_irrelevant_witness :
  train_all empty [("hello how are you", false); ("buy now free money", true)]
  = train_all empty [("buy now free money", true); ("hello how are you", false)].
Proof.
  apply (training_order_is_irrelevant empty
           [("hello how are you", false); ("buy now free money", true)]
           [("buy now free money", true); ("hello how are you", false)]).
  apply perm_swap.
Defined.

Lemma occurrences_app (w : string) (l l' : list string) :
  Py.occurrences w (l ++ l') = Py.occurrences w l + Py.occurrences w l'.
Proof. unfold Py.occurrences. now rewrite List.filter_app, length_app. Qed.

(** The loop of [_load_and_train] over the lines of one file. *)
Lemma train_lines_spec (is_spam : bool) (lines : list string) (self : t) :
  let self' :=
    fold_left (fun s line => _train s (Py.strip line) is_spam) lines self in
  let words := flat_map _tokenize lines in
  ham_messages_count self'
  = ham_messages_count self + (if is_spam then 0 else length lines)
  /\ spam_messages_count self'
     = spam_messages_count self + (if is_spam then length lines else 0)
  /\ all_words self' = all_words self ∪ list_to_set words
  /\ (forall w, count_of (ham_words self') w
                = count_of (ham_words self) w
                  + (if is_spam then 0 else Py.occurrences w words))
  /\ (forall w, count_of (spam_words self') w
                = count_of (spam_words self) w
                  + (if is_spam then Py.occurrences w words else 0)).
Proof.
  revert self. induction lines as [|line lines IH]; intros self.
  - destruct is_spam; cbn; repeat split; intros; try lia.
    all: now rewrite union_empty_r_L.
  - cbv zeta. cbn [fold_left flat_map length].
    pose proof (IH (_train self (Py.strip line) is_spam)) as IHx.
    cbv zeta in IHx. destruct IHx as (H1 & H2 & H3 & H4 & H5).
    pose proof (train_spec self (Py.strip line) is_spam) as T.
    cbv zeta in T. rewrite spam_tokenize_strip in T.
    destruct T as (T1 & T2 & T3 & T4 & T5 & _).
    rewrite H1, H2, H3, T1, T2, T3.
    repeat split.
    + destruct is_spam; lia.
    + destruct is_spam; lia.
    + rewrite list_to_set_app_L. now rewrite (assoc_L (∪)).
    + intros w. rewrite H4, T4, occurrences_app. destruct is_spam; lia.
    + intros w. rewrite H5, T5, occurrences_app. destruct is_spam; lia.
Qed.

(** X12.  When both training files exist, the trained instance counts
    every line of a file as one message of its class (a blank line too),
    its vocabulary is the set of the tokens of all lines, and the count of a
    word in a class is the number of its occurrences among the tokens of
    the lines of that class.  A file that is missing while the other
    exists trains like an empty file. *)
Theorem init_counts_lines (ham_lines spam_lines : list string) :
  let d := __init__ (Some ham_lines) (Some spam_lines) in
  ham_messages_count d = length ham_lines
  /\ spam_messages_count d = length spam_lines
  /\ all_words d
     = list_to_set (flat_map _tokenize ham_lines
                    ++ flat_map _tokenize spam_lines)
  /\ (forall w, count_of (ham_words d) w
                = Py.occurrences w (flat_map _tokenize ham_lines))
  /\ (forall w, count_of (spam_words d) w
                = Py.occurrences w (flat_map _tokenize spam_lines))
  /\ __init__ (Some ham_lines) None = __init__ (Some ham_lines) (Some [])
  /\ __init__ None (Some spam_lines) = __init__ (Some []) (Some spam_lines).
Proof.
  cbv zeta. unfold __init__, _load_and_train.
  set (h := fold_left (fun s line => _train s (Py.strip line) false)
                      ham_lines empty).
  pose proof (train_lines_spec false ham_lines empty) as Hh.
  cbv zeta in Hh. fold h in Hh. destruct Hh as (A1 & A2 & A3 & A4 & A5).
  pose proof (train_lines_spec true spam_lines h) as Hs.
  cbv zeta in Hs. destruct Hs as (B1 & B2 & B3 & B4 & B5).
  rewrite B1, B2, B3, A1, A2, A3. cbn [empty ham_messages_count
    spam_messages_count all_words].
  repeat split; try lia.
  - rewrite list_to_set_app_L. now rewrite union_empty_l_L.
  - intros w. rewrite B4, A4. cbn [empty ham_words].
    unfold count_of at 1. rewrite lookup_empty. lia.
  - intros w. rewrite B5, A5. cbn [empty spam_words].
    unfold count_of at 1. rewrite lookup_empty. lia.
Qed.

Lemma train_word_consistent (is_spam : bool) (self : t) (x : string) :
  consistent self -> consistent (train_word is_spam self x).
Proof.
  intros (Hv & Hh & Hs).
  assert (Hlk : forall (d : gmap string nat) w,
             is_Some (dd_incr d x !! w) <-> w = x \/ is_Some (d !! w)).
  { intros d w. rewrite dd_incr_lookup. case_decide; subst.
    - split; [now left | eauto].
    - split; [now right | intros [->|K]; [congruence | exact K]]. }
  assert (Hnz : forall (d : gmap string nat) w,
             d !! w <> Some 0 -> dd_incr d x !! w <> Some 0).
  { intros d w H. rewrite dd_incr_lookup. case_decide; [discriminate | exact H]. }
  destruct is_spam;
    unfold consistent, train_word, set_spam_words, set_ham_words; cbn.
  - split; [|split].
    + intros w. rewrite elem_of_union, elem_of_singleton, Hv, Hlk. tauto.
    + exact Hh.
    + intros w. apply Hnz, Hs.
  - split; [|split].
    + intros w. rewrite elem_of_union, elem_of_singleton, Hv, Hlk. tauto.
    + intros w. apply Hnz, Hh.
    + exact Hs.
Qed.

Lemma train_consistent (self : t) (message : string) (is_spam : bool) :
  consistent self -> consistent (_train self message is_spam).
Proof.
  intros H. rewrite train_unfold.
  assert (K : consistent (fold_left (train_word is_spam) (_tokenize message) self)).
  { revert self H. induction (_tokenize message) as [|x ws IH]; intros self H;
      [exact H|]. cbn [fold_left]. now apply IH, train_word_consistent. }
  destruct is_spam; exact K.
Qed.

Lemma train_lines_consistent (is_spam : bool) (lines : list string) (self : t) :
  consistent self ->
  consistent (fold_left (fun s line => _train s (Py.strip line) is_spam)
                        lines self).
Proof.
  revert self. induction lines as [|l lines IH]; intros self H; [exact H|].
  cbn [fold_left]. now apply IH, train_consistent.
Qed.

Lemma empty_consistent : consistent empty.
Proof.
  unfold consistent, empty; cbn. repeat split.
  - intros H. now apply elem_of_empty in H.
  - intros [[n H]|[n H]]; rewrite lookup_empty in H; discriminate.
  - intros w. now rewrite lookup_empty.
  - intros w. now rewrite lookup_empty.
Qed.

(** X13.  However the instance is constructed (from either file, both, or
    the built-in pair), training leaves it consistent: the vocabulary is
    exactly the set of the words that are keys of a class map, and every
    stored count is at least [1]. *)
Theorem init_is_consistent (ham_file spam_file : option (list string)) :
  let d := __init__ ham_file spam_file in
  (forall w, w ∈ all_words d
             <-> is_Some (ham_words d !! w) \/ is_Some (spam_words d !! w))
  /\ (forall w n, ham_words d !! w = Some n -> 1 <= n)
  /\ (forall w n, spam_words d !! w = Some n -> 1 <= n).
Proof.
  cbv zeta.
  assert (H : consistent (__init__ ham_file spam_file)).
  { unfold __init__, _load_and_train, train_default.
    destruct ham_file as [h|], spam_file as [s|];
      repeat first [apply train_lines_consistent | apply train_consistent];
      apply empty_consistent. }
  destruct H as (Hv & Hh & Hs). repeat split.
  - apply Hv.
  - apply Hv.
  - intros w [|n] E; [now apply Hh in E | lia].
  - intros w [|n] E; [now apply Hs in E | lia].
Qed.

End TrainingTheorems.

(** ** The sign of the posteriors *)

Section SignFacts.
Import PyFloat.
Local Open Scope Z_scope.

Lemma binary_round_aux_sign (m e : Z) (l : location) :
  not_negative (binary_round_aux prec emax false m e l) = true.
Proof.
  unfold binary_round_aux.
  destruct (shr_fexp prec emax m e l) as [mrs' e'].
  destruct (shr_fexp prec emax _ e' loc_Exact) as [mrs'' e''].
  destruct (shr_m mrs''); [reflexivity | | reflexivity].
  now destruct (e'' <=? emax - prec).
Qed.

Lemma binary_round_sign (m : positive) (e : Z) :
  not_negative (binary_round prec emax false m e) = true.
Proof.
  unfold binary_round. destruct (shl_align m e _) as [mz ez].
  apply binary_round_aux_sign.
Qed.

Lemma binary_normalize_sign (z e : Z) :
  0 <= z -> not_negative (binary_normalize prec emax z e false) = true.
Proof.
  intros Hz. destruct z as [|p|p]; [reflexivity | apply binary_round_sign | lia].
Qed.

Lemma SFmul_sign (x y : spec_float) :
  not_negative x = true -> not_negative y = true ->
  not_negative (SFmul prec emax x y) = true.
Proof.
  destruct x as [[]|[]| |[] mx ex], y as [[]|[]| |[] my ey];
    cbn; try discriminate; try reflexivity.
  intros _ _. apply binary_round_aux_sign.
Qed.

Lemma SFdiv_sign (x y : spec_float) :
  not_negative x = true -> not_negative y = true ->
  not_negative (SFdiv prec emax x y) = true.
Proof.
  destruct x as [[]|[]| |[] mx ex], y as [[]|[]| |[] my ey];
    cbn [not_negative negb SFdiv xorb]; try discriminate; try reflexivity.
  intros _ _.
  destruct (SFdiv_core_binary prec emax (Z.pos mx) ex (Z.pos my) ey)
    as [[mz ez] lz].
  apply binary_round_aux_sign.
Qed.

(** The sign survives the conversion to a primitive float. *)
Lemma SF2Prim_sign (x : spec_float) :
  not_negative x = true -> not_negative (Prim2SF (SF2Prim x)) = true.
Proof.
  destruct x as [[]|[]| |[] m e]; cbn [not_negative negb]; try discriminate;
    intros _; try reflexivity.
  unfold SF2Prim, Z.ldexp. rewrite ldshiftexp_spec, of_uint63_spec.
  pose proof (Uint63.to_Z_bounded (Uint63.of_Z (Z.pos m))) as [Hlo _].
  pose proof (binary_normalize_sign _ 0 Hlo) as Hn.
  destruct (binary_normalize prec emax _ 0 false) as [s|s| |s m' e'];
    cbn [SFldexp]; try exact Hn.
  cbn in Hn. destruct s; [discriminate|]. apply binary_round_sign.
Qed.

Lemma Z2SF_sign (z : Z) : 0 <= z -> not_negative (Z2SF z) = true.
Proof. destruct z; cbn; [reflexivity | reflexivity | lia]. Qed.

Lemma int_truediv_sign (a b : Z) :
  0 <= a -> 0 <= b -> not_negative (Prim2SF (int_truediv a b)) = true.
Proof.
  intros Ha Hb. unfold int_truediv.
  apply SF2Prim_sign, SFdiv_sign; now apply Z2SF_sign.
Qed.

Lemma mul_sign (x y : float) :
  not_negative (Prim2SF x) = true -> not_negative (Prim2SF y) = true ->
  not_negative (Prim2SF (x * y)%float) = true.
Proof. rewrite mul_spec. apply SFmul_sign. Qed.

(** A product with the float [0.0] is a zero or a NaN. *)
Lemma mul_zero (x : float) :
  match Prim2SF (x * 0)%float with
  | S754_zero _ | S754_nan => True
  | _ => False
  end.
Proof.
  rewrite mul_spec. change (Prim2SF 0) with (S754_zero false).
  now destruct (Prim2SF x) as [[]|[]| |[] m e].
Qed.

(** Nothing that is not negative is below a zero or a NaN. *)
Lemma ltb_not_negative (x y : float) :
  not_negative (Prim2SF x) = true ->
  match Prim2SF y with S754_zero _ | S754_nan => True | _ => False end ->
  (x <? y)%float = false.
Proof.
  rewrite FloatAxioms.ltb_spec. unfold SFltb.
  destruct (Prim2SF x) as [[]|[]| |[] m e], (Prim2SF y) as [[]|[]| |[] m' e'];
    cbn; try discriminate; try reflexivity; try tauto.
Qed.

End SignFacts.

Section NoSpamTraining.
Import SpamDetector.

Lemma one_sign : PyFloat.not_negative (Prim2SF 1) = true.
Proof. vm_compute. reflexivity. Qed.

Lemma likelihood_sign (self : t) (counts : gmap string nat)
    (words : list string) :
  PyFloat.not_negative
    (Prim2SF (likelihood (A := float64) self counts words)) = true.
Proof.
  unfold likelihood.
  assert (H : forall (x : float),
             PyFloat.not_negative (Prim2SF x) = true ->
             PyFloat.not_negative
               (Prim2SF (fold_left
                  (fun acc word => mul acc (word_probability self counts word))
                  words x)) = true).
  { induction words as [|w words IH]; intros x Hx; [exact Hx|].
    cbn [fold_left]. apply IH. apply mul_sign; [exact Hx|].
    apply int_truediv_sign; lia. }
  apply H, one_sign.
Qed.

Lemma posterior_ham_sign (self : t) (words : list string) :
  PyFloat.not_negative
    (Prim2SF (posterior_ham (A := float64) self words)) = true.
Proof.
  unfold posterior_ham. apply mul_sign; [apply likelihood_sign|].
  apply int_truediv_sign; lia.
Qed.

Lemma prior_zero (self : t) :
  ham_messages_count self + spam_messages_count self <> 0 ->
  prior (A := float64) self 0 = 0%float.
Proof.
  intros H. unfold prior.
  destruct (ham_messages_count self + spam_messages_count self) as [|n];
    [congruence|].
  reflexivity.
Qed.

(** X14.  An instance without a spam training message never predicts
    SPAM: whatever the message, the verdict is HAM. *)
Theorem no_spam_training_never_spam (self : t) (message : string) :
  spam_messages_count self = 0 -> fst (predict self message) = false.
Proof.
  intros Hs. rewrite (predict_verdict self message float64_zero_law).
  unfold predict_spec.
  destruct (_tokenize message) as [|w ws]; [reflexivity|].
  destruct (ham_messages_count self + spam_messages_count self =? 0)%nat eqn:Ht;
    [reflexivity|].
  apply Nat.eqb_neq in Ht.
  change (gt (posterior_spam self (w :: ws)) (posterior_ham self (w :: ws)))
    with (posterior_ham (A := float64) self (w :: ws)
          <? posterior_spam (A := float64) self (w :: ws))%float.
  apply ltb_not_negative; [apply posterior_ham_sign|].
  unfold posterior_spam. rewrite Hs, (prior_zero self Ht).
  apply mul_zero.
Qed.

Lemma no_spam_training_never_spam_witness :
  fst (predict (__init__ (Some ["hello world"; "how are you"]) None)
               "buy now free money")
  = false.
Proof.
  apply (no_spam_training_never_spam
           (__init__ (Some ["hello world"; "how are you"]) None)
           "buy now free money").
  vm_compute. reflexivity.
Defined.

End NoSpamTraining.

(** ** The email parsers *)

Section EmailFacts.
Import PyVal ReportGenerator.
Variable strptime : string -> string -> option datetime.

(** Before the first blank line every line is a header line. *)
Lemma email_fold_header (hdr : list string) (h : email_headers)
    (body : list string) :
  Forall (fun line => String.eqb (Py.strip line) "" = false) hdr ->
  fold_left (email_step strptime) hdr (h, body, false)
  = (fold_left (header_line strptime) hdr h, body, false).
Proof.
  revert h. induction hdr as [|line hdr IH]; intros h H; [reflexivity|].
  apply Forall_cons_1 in H as [Hl Hhdr].
  cbn [fold_left]. unfold email_step at 2. cbn [negb andb]. rewrite Hl.
  now apply IH.
Qed.

(** After it every line is a line of the body. *)
Lemma email_fold_body (rest : list string) (h : email_headers)
    (body : list string) :
  fold_left (email_step strptime) rest (h, body, true) = (h, body ++ rest, true).
Proof.
  revert body. induction rest as [|line rest IH]; intros body.
  - now rewrite app_nil_r.
  - cbn [fold_left]. unfold email_step at 2. cbn [negb andb].
    rewrite IH. now rewrite <- app_assoc.
Qed.

Lemma parse_email_lines_no_blank (lines : list string) :
  Forall (fun line => String.eqb (Py.strip line) "" = false) lines ->
  parse_email_lines strptime lines
  = (fold_left (header_line strptime) lines default_headers, "").
Proof.
  intros H. unfold parse_email_lines. now rewrite email_fold_header.
Qed.

Lemma parse_email_lines_blank (hdr rest : list string) (blank : string) :
  Forall (fun line => String.eqb (Py.strip line) "" = false) hdr ->
  Py.strip blank = "" ->
  parse_email_lines strptime (hdr ++ blank :: rest)
  = (fold_left (header_line strptime) hdr default_headers,
     Py.strip (Py.join Py.newline rest)).
Proof.
  intros H Hb. unfold parse_email_lines.
  rewrite fold_left_app, email_fold_header by exact H.
  cbn [fold_left]. unfold email_step at 2. cbn [negb andb]. rewrite Hb.
  cbn [String.eqb]. now rewrite email_fold_body.
Qed.

(** X15.  A block without a blank line has no body: every line is read as
    a header line, and the returned body is the empty string. *)
Theorem email_without_blank_line_has_no_body (content : string) :
  Forall (fun line => String.eqb (Py.strip line) "" = false)
         (splitlines content) ->
  _parse_single_email_block strptime content
  = (fold_left (header_line strptime) (splitlines content) default_headers,
     "").
Proof. apply parse_email_lines_no_blank. Qed.

(** X16.  The first blank line separates the headers from the body: the
    headers are read from the lines before it only, and the body is the
    text of all the lines after it, joined by line feeds and stripped,
    whatever these lines are. *)
Theorem email_blank_line_separates (content : string)
    (hdr rest : list string) (blank : string) :
  splitlines content = hdr ++ blank :: rest ->
  Forall (fun line => String.eqb (Py.strip line) "" = false) hdr ->
  Py.strip blank = "" ->
  _parse_single_email_block strptime content
  = (fold_left (header_line strptime) hdr default_headers,
     Py.strip (Py.join Py.newline rest)).
Proof.
  intros E H Hb. unfold _parse_single_email_block. rewrite E.
  now apply parse_email_lines_blank.
Qed.

End EmailFacts.

Section EmailWitnesses.
Import PyVal ReportGenerator.

Lemma email_without_blank_line_has_no_body_witness :
  _parse_single_email_block no_strptime
    ("Hello there" +:+ Py.newline +:+ "See you soon")
  = (default_headers, "").
Proof.
  apply (email_without_blank_line_has_no_body no_strptime
           ("Hello there" +:+ Py.newline +:+ "See you soon")).
  vm_compute. repeat constructor.
Defined.

Lemma email_blank_line_separates_witness :
  _parse_single_email_block no_strptime
    ("From: Ann" +:+ Py.newline +:+ " " +:+ Py.newline
     +:+ "Subject: not a header" +:+ Py.newline +:+ Py.newline +:+ "bye ")
  = (mkHeaders "Ann" "N/A" VNone "No Subject",
     "Subject: not a header" +:+ Py.newline +:+ Py.newline +:+ "bye").
Proof.
  apply (email_blank_line_separates no_strptime
           ("From: Ann" +:+ Py.newline +:+ " " +:+ Py.newline
            +:+ "Subject: not a header" +:+ Py.newline +:+ Py.newline +:+ "bye ")
           ["From: Ann"] ["Subject: not a header"; ""; "bye "] " ").
  - vm_compute. reflexivity.
  - vm_compute. repeat constructor.
  - vm_compute. reflexivity.
Defined.

End EmailWitnesses.

(** ** Message identifiers *)

Section IdFacts.
Import PyVal ReportGenerator.

Lemma append_inj_l (a x y : string) : a +:+ x = a +:+ y -> x = y.
Proof.
  induction a as [|c a IH]; [easy|]. rewrite !append_cons.
  intros H. injection H as H. now apply IH.
Qed.

Lemma to_uint_not_nil (n : nat) : Nat.to_uint n <> Decimal.Nil.
Proof.
  intros H.
  pose proof (DecimalNat.Unsigned.of_to n) as E. rewrite H in E.
  cbn in E. subst n. discriminate.
Qed.

Lemma str_of_nat_inj (n m : nat) : str_of_nat n = str_of_nat m -> n = m.
Proof.
  unfold str_of_nat. intros H.
  apply DecimalNat.Unsigned.to_uint_inj.
  pose proof (NilZero.usu _ (to_uint_not_nil n)) as En.
  pose proof (NilZero.usu _ (to_uint_not_nil m)) as Em.
  rewrite H in En. congruence.
Qed.

Lemma nodup_map_injective {A B} (f : A -> B) (l : list A) :
  (forall x y, f x = f y -> x = y) -> List.NoDup l -> List.NoDup (map f l).
Proof.
  intros Hf. induction 1 as [|x l Hx Hl IH]; cbn [map]; constructor.
  - intros Hin. apply in_map_iff in Hin as (y & Hy & Hin).
    apply Hf in Hy. subst y. now apply Hx.
  - exact IH.
Qed.

(** The positions kept by a filter on a numbered list are distinct. *)
Lemma enumerate_filter_nodup {A} (p : nat * A -> bool) (l : list A)
    (start : nat) :
  List.NoDup (map fst (List.filter p (enumerate start l)))
  /\ Forall (fun i => start <= i) (map fst (List.filter p (enumerate start l))).
Proof.
  revert start. induction l as [|x l IH]; intros start.
  - split; constructor.
  - destruct (IH (S start)) as [Hnd Hge]. cbn [enumerate List.filter].
    assert (Hge' : Forall (fun i => start <= i)
                     (map fst (List.filter p (enumerate (S start) l)))).
    { eapply Forall_impl; [exact Hge|]. cbn. intros; lia. }
    destruct (p (start, x)); [|now split].
    cbn [map fst]. split.
    + constructor; [|exact Hnd]. intros Hin.
      rewrite Forall_forall in Hge. apply list_elem_of_In, Hge in Hin. lia.
    + constructor; [lia | exact Hge'].
Qed.

End IdFacts.

Section MultiEmail.
Import PyVal ReportGenerator.
Variable strptime : string -> string -> option datetime.

Lemma multi_email_fold (filename : string) (blocks : list (nat * string))
    (acc : list parsed_message) :
  let kept :=
    List.filter (fun ib => negb (Py.is_empty (Py.strip (snd ib)))) blocks in
  fold_left (multi_email_step strptime filename) blocks acc
  = acc
    ++ map (fun ib =>
              let '(headers, message_body) :=
                _parse_single_email_block strptime (Py.strip (snd ib)) in
              email_message filename
                (filename +:+ "_email_" +:+ str_of_nat (fst ib + 1))
                headers message_body)
           kept.
Proof.
  cbv zeta. revert acc. induction blocks as [|[i block] blocks IH]; intros acc.
  - cbn. now rewrite app_nil_r.
  - cbn [fold_left List.filter snd fst]. unfold multi_email_step at 2.
    destruct (Py.is_empty (Py.strip block)); cbn [negb].
    + apply IH.
    + rewrite IH. cbn [map fst snd].
      destruct (_parse_single_email_block strptime (Py.strip block)).
      now rewrite <- app_assoc.
Qed.

(** X17.  [_parse_multi_email_file] makes one record for every block that
    is not blank, in order; the number in its message id is the position
    of the block among all blocks, the blank ones included, so the ids of
    the records are pairwise distinct; every record has the file name as
    its source. *)
Theorem multi_email_records (content filename : string) :
  let blocks := enumerate 0 (Py.split content EMAIL_BOUNDARY_SEPARATOR) in
  let kept :=
    List.filter (fun ib => negb (Py.is_empty (Py.strip (snd ib)))) blocks in
  let out := _parse_multi_email_file strptime content filename in
  map P_Message_ID out
  = map (fun ib => filename +:+ "_email_" +:+ str_of_nat (fst ib + 1)) kept
  /\ map P_Message out
     = map (fun ib =>
              snd (_parse_single_email_block strptime (Py.strip (snd ib))))
           kept
  /\ List.NoDup (map P_Message_ID out)
  /\ Forall (fun m => P_Source m = filename) out.
Proof.
  cbv zeta. unfold _parse_multi_email_file. rewrite multi_email_fold.
  cbn [app]. rewrite !map_map.
  set (blocks := enumerate 0 (Py.split content EMAIL_BOUNDARY_SEPARATOR)).
  set (kept := List.filter _ blocks).
  assert (Hid : map (fun ib : nat * string =>
                  P_Message_ID
                    (let '(headers, message_body) :=
                       _parse_single_email_block strptime (Py.strip (snd ib)) in
                     email_message filename
                       (filename +:+ "_email_" +:+ str_of_nat (fst ib + 1))
                       headers message_body)) kept
                = map (fun ib => filename +:+ "_email_" +:+ str_of_nat (fst ib + 1))
                      kept).
  { apply map_ext. intros ib.
    now destruct (_parse_single_email_block strptime (Py.strip (snd ib))). }
  split; [exact Hid|]. split; [|split].
  - apply map_ext. intros ib.
    now destruct (_parse_single_email_block strptime (Py.strip (snd ib))).
  - rewrite Hid.
    rewrite <- (map_map fst (fun i => filename +:+ "_email_" +:+ str_of_nat (i + 1))).
    apply nodup_map_injective.
    + intros i j H. apply append_inj_l, append_inj_l, str_of_nat_inj in H. lia.
    + apply enumerate_filter_nodup.
  - apply Forall_forall. intros m Hm. apply list_elem_of_In, in_map_iff in Hm.
    destruct Hm as (ib & <- & _).
    now destruct (_parse_single_email_block strptime (Py.strip (snd ib))).
Qed.

End MultiEmail.

(** ** The chat pattern with and without groups *)

Section RegexFacts.
Import Re.

Lemma is_Some_orelse {A} (a b : option A) :
  is_Some (match a with Some r => Some r | None => b end)
  <-> is_Some a \/ is_Some b.
Proof.
  destruct a as [x|]; split.
  - intros _. left. eauto.
  - intros _. eauto.
  - intros H. now right.
  - intros [[x H]|H]; [discriminate | exact H].
Qed.

Lemma star_some_iff {R1 R2} (cls : ascii -> bool) (greedy : bool)
    (k1 : string -> option R1) (k2 : string -> option R2) (s : string) :
  (forall s', is_Some (k1 s') <-> is_Some (k2 s')) ->
  is_Some (star cls greedy k1 s) <-> is_Some (star cls greedy k2 s).
Proof.
  intros Hk. induction s as [|c s IH]; cbn [star]; [apply Hk|].
  destruct greedy.
  - destruct (cls c); [|apply Hk].
    rewrite !is_Some_orelse, IH, (Hk (String c s)). reflexivity.
  - rewrite !is_Some_orelse, (Hk (String c s)).
    destruct (cls c); [now rewrite IH|].
    split; (intros [H|[x H]]; [now left | discriminate]).
Qed.

(** A pattern matches exactly when the pattern without its groups does. *)
Lemma run_erase (r : regex) :
  forall (s : string) (caps1 caps2 : list string)
         (k1 k2 : string -> list string -> option (list string)),
  (forall s' c1 c2, is_Some (k1 s' c1) <-> is_Some (k2 s' c2)) ->
  is_Some (run r s caps1 k1) <-> is_Some (run (erase r) s caps2 k2).
Proof.
  induction r as [ |cls|r1 IH1 r2 IH2|r1 IH1 r2 IH2|cls greedy|r1 IH1| ];
    intros s caps1 caps2 k1 k2 Hk; cbn [run erase].
  - apply Hk.
  - destruct s as [|c s]; [reflexivity|]. destruct (cls c); [apply Hk | reflexivity].
  - apply IH1. intros s' c1 c2. now apply IH2.
  - rewrite !is_Some_orelse, (IH1 s caps1 caps2 k1 k2 Hk),
      (IH2 s caps1 caps2 k1 k2 Hk). reflexivity.
  - apply star_some_iff. intros s'. apply Hk.
  - apply IH1. intros s' c1 c2. apply Hk.
  - destruct s as [|c [|c' s]]; [apply Hk | | reflexivity].
    destruct (Py.ord c =? 10)%N; [apply Hk | reflexivity].
Qed.

Lemma star_some {R} (cls : ascii -> bool) (greedy : bool)
    (k : string -> option R) (s : string) (r : R) :
  star cls greedy k s = Some r -> exists s', k s' = Some r.
Proof.
  induction s as [|c s IH]; cbn [star]; [eauto|].
  destruct greedy.
  - destruct (cls c); [|eauto].
    destruct (star cls true k s) as [x|] eqn:E; [|eauto].
    intros [= ->]. now apply IH.
  - destruct (k (String c s)) as [x|] eqn:E; [intros [= ->]; eauto|].
    destruct (cls c); [exact IH | discriminate].
Qed.

(** A match appends one string for every group of the pattern. *)
Lemma run_groups (r : regex) :
  well_grouped r = true ->
  forall (s : string) (caps : list string)
         (k : string -> list string -> option (list string))
         (n : nat) (res : list string),
  (forall s' c res', k s' c = Some res' -> length res' = length c + n) ->
  run r s caps k = Some res -> length res = length caps + ngroups r + n.
Proof.
  induction r as [ |cls|r1 IH1 r2 IH2|r1 IH1 r2 IH2|cls greedy|r1 IH1| ];
    intros Hwg s caps k n res Hk; cbn [run ngroups].
  - intros H. apply Hk in H. lia.
  - destruct s as [|c s]; [discriminate|].
    destruct (cls c); [|discriminate]. intros H. apply Hk in H. lia.
  - cbn in Hwg. apply andb_prop in Hwg as [Hw1 Hw2]. intros H.
    apply (IH1 Hw1 _ _ _ (ngroups r2 + n)) in H; [lia|].
    intros s' c res' H'. apply (IH2 Hw2 _ _ _ n) in H'; [lia | exact Hk].
  - cbn in Hwg. apply andb_prop in Hwg as [Hwg Hw2].
    apply andb_prop in Hwg as [Heq Hw1]. apply Nat.eqb_eq in Heq.
    destruct (run r1 s caps k) as [x|] eqn:E.
    + intros [= ->]. apply (IH1 Hw1 _ _ _ n) in E; [lia | exact Hk].
    + intros H. apply (IH2 Hw2 _ _ _ n) in H; [lia | exact Hk].
  - intros H. apply star_some in H as [s' H]. apply Hk in H. lia.
  - cbn in Hwg. intros H.
    apply (IH1 Hwg _ _ _ (S n)) in H; [lia|].
    intros s' c res' H'. apply Hk in H'. rewrite length_app in H'. cbn in H'. lia.
  - destruct s as [|c [|c' s]]; [| |discriminate].
    + intros H. apply Hk in H. lia.
    + destruct (Py.ord c =? 10)%N; [|discriminate].
      intros H. apply Hk in H. lia.
Qed.

End RegexFacts.

Section DetectionFacts.
Import PyVal ReportGenerator.

(** The pattern of the parser gives its four groups whenever it matches. *)
Lemma whatsapp_line_match_some (line : string) :
  is_Some (whatsapp_line_match line)
  <-> is_Some (Re.match_groups whatsapp_line_pattern line).
Proof.
  unfold whatsapp_line_match.
  destruct (Re.match_groups whatsapp_line_pattern line) as [res|] eqn:E.
  - unfold Re.match_groups in E.
    apply (run_groups whatsapp_line_pattern eq_refl _ _ _ 0) in E;
      [|intros s' c res' [= ->]; lia].
    change (Re.ngroups whatsapp_line_pattern) with 4 in E. cbn in E.
    destruct res as [|a [|b [|c [|d [|]]]]]; try discriminate.
    split; eauto.
  - split; intros [x H]; discriminate.
Qed.

Lemma matches_check (line : string) :
  matches whatsapp_line_pattern_check line = true
  <-> is_Some (whatsapp_line_match line).
Proof.
  rewrite whatsapp_line_match_some. unfold matches, Re.match_groups.
  change whatsapp_line_pattern_check with (Re.erase whatsapp_line_pattern).
  rewrite (run_erase whatsapp_line_pattern line [] []
             (fun _ caps => Some caps) (fun _ caps => Some caps)).
  - destruct (Re.run _ line [] _); split; eauto; try discriminate.
    intros [x H]; discriminate.
  - intros; split; eauto.
Qed.

End DetectionFacts.

(** ** The chat parser *)

Section ChatFacts.
Import PyVal ReportGenerator.
Variable strptime : string -> string -> option datetime.

Lemma append_to_last_map {B} (f : message -> B) (ms : list message)
    (text : string) :
  (forall m, f (append_message m text) = f m) ->
  map f (append_to_last ms text) = map f ms.
Proof.
  intros Hf. induction ms as [|m ms IH]; [reflexivity|].
  destruct ms as [|m' ms]; [cbn; now rewrite Hf|].
  change (append_to_last (m :: m' :: ms) text)
    with (m :: append_to_last (m' :: ms) text).
  cbn [map]. now rewrite IH.
Qed.

Lemma append_to_last_length (ms : list message) (text : string) :
  length (append_to_last ms text) = length ms.
Proof.
  rewrite <- (length_map (fun _ => tt)), append_to_last_map by reflexivity.
  apply length_map.
Qed.

(** What one turn of the loop does to the list of records. *)
Lemma whatsapp_step_cases (filename conversation_id : string)
    (ms : list message) (n : nat) (line : string) :
  let out := whatsapp_step strptime filename conversation_id ms (n, line) in
  out = ms
  \/ (exists d t s m,
        whatsapp_line_match (Py.strip line) = Some (d, t, s, m)
        /\ out = ms ++ [chat_message strptime filename conversation_id n d t s m])
  \/ out = ms ++ [unformatted_message filename conversation_id n (Py.strip line)]
  \/ (exists text, out = append_to_last ms text).
Proof.
  cbv zeta. unfold whatsapp_step.
  destruct (Py.is_empty (Py.strip line)); [now left|].
  destruct (whatsapp_line_match (Py.strip line)) as [[[[d t] s] m]|].
  - right; left. now exists d, t, s, m.
  - destruct ms as [|m0 ms].
    + destruct (n =? 1)%nat; [now left | right; right; now left].
    + right; right; right. eauto.
Qed.

Lemma whatsapp_step_matching (filename conversation_id : string)
    (ms : list message) (n : nat) (line : string) :
  is_Some (whatsapp_line_match (Py.strip line)) ->
  length (whatsapp_step strptime filename conversation_id ms (n, line))
  = S (length ms).
Proof.
  intros [[[[d t] s] m] H]. unfold whatsapp_step.
  destruct (Py.is_empty (Py.strip line)) eqn:E.
  - destruct (Py.strip line); [|discriminate]. vm_compute in H. discriminate.
  - rewrite H, length_app. cbn. lia.
Qed.

Lemma whatsapp_step_grows (filename conversation_id : string)
    (ms : list message) (nl : nat * string) :
  length ms <= length (whatsapp_step strptime filename conversation_id ms nl).
Proof.
  destruct nl as [n line].
  destruct (whatsapp_step_cases filename conversation_id ms n line)
    as [-> | [(d & t & s & m & _ & ->) | [-> | [text ->]]]];
    rewrite ?length_app, ?append_to_last_length; cbn; lia.
Qed.

Lemma whatsapp_fold_grows (filename conversation_id : string)
    (lines : list (nat * string)) (ms : list message) :
  length ms
  <= length (fold_left (whatsapp_step strptime filename conversation_id)
                       lines ms).
Proof.
  revert ms. induction lines as [|nl lines IH]; intros ms; [cbn; lia|].
  cbn [fold_left]. etransitivity; [|apply IH]. apply whatsapp_step_grows.
Qed.

Lemma whatsapp_fold_matching (filename conversation_id : string)
    (lines : list (nat * string)) (ms : list message) :
  existsb (fun nl => matches whatsapp_line_pattern_check (Py.strip (snd nl)))
          lines = true ->
  1 <= length (fold_left (whatsapp_step strptime filename conversation_id)
                         lines ms).
Proof.
  revert ms. induction lines as [|[n line] lines IH]; intros ms; [discriminate|].
  cbn [existsb fold_left snd]. intros [H|H]%orb_prop.
  - apply matches_check in H.
    etransitivity; [|apply whatsapp_fold_grows].
    rewrite (whatsapp_step_matching _ _ _ _ _ H). lia.
  - now apply IH.
Qed.

Lemma existsb_enumerate {A} (p : A -> bool) (l : list A) (start : nat) :
  existsb (fun nl => p (snd nl)) (enumerate start l) = existsb p l.
Proof.
  revert start. induction l as [|x l IH]; intros start; [reflexivity|].
  cbn [enumerate existsb snd]. now rewrite IH.
Qed.

Lemma existsb_firstn {A} (p : A -> bool) (n : nat) (l : list A) :
  existsb p (firstn n l) = true -> existsb p l = true.
Proof.
  revert l. induction n as [|n IH]; intros [|x l]; cbn; try discriminate.
  intros [H|H]%orb_prop; [now rewrite H|]. rewrite (IH _ H). apply orb_true_r.
Qed.

(** The fields every record of a file shares, and the form of the ids. *)
Lemma whatsapp_fold_fields (filename conversation_id : string)
    (lines : list string) :
  forall (start : nat) (ms : list message),
  Forall (fun m => Source m = filename
                   /\ Conversation_ID m = conversation_id) ms ->
  Forall (fun m => Source m = filename
                   /\ Conversation_ID m = conversation_id)
         (fold_left (whatsapp_step strptime filename conversation_id)
                    (enumerate start lines) ms).
Proof.
  induction lines as [|line lines IH]; intros start ms H; [exact H|].
  cbn [enumerate fold_left]. apply IH.
  destruct (whatsapp_step_cases filename conversation_id ms start line)
    as [-> | [(d & t & s & m & _ & ->) | [-> | [text ->]]]].
  - exact H.
  - apply Forall_app. split; [exact H|]. now repeat constructor.
  - apply Forall_app. split; [exact H|]. now repeat constructor.
  - clear IH. induction H as [|m0 ms0 H0 H IH0]; [constructor|].
    destruct ms0 as [|m1 ms0].
    + cbn. now repeat constructor.
    + change (append_to_last (m0 :: m1 :: ms0) text)
        with (m0 :: append_to_last (m1 :: ms0) text).
      constructor; [exact H0 | exact IH0].
Qed.

End ChatFacts.

Section ChatIds.
Import PyVal ReportGenerator.
Variable strptime : string -> string -> option datetime.

Lemma uint_digits (d : Decimal.uint) :
  Py.all_chars Py.isdigit (NilEmpty.string_of_uint d) = true.
Proof. induction d; cbn; try reflexivity; exact IHd. Qed.

Lemma str_of_nat_digits (n : nat) :
  Py.all_chars Py.isdigit (str_of_nat n) = true.
Proof.
  unfold str_of_nat, NilZero.string_of_uint.
  destruct (Nat.to_uint n) eqn:E; try (rewrite <- E; apply uint_digits).
  reflexivity.
Qed.

Lemma digits_suffix_inj (d1 d2 s1 s2 : string) :
  Py.all_chars Py.isdigit d1 = true -> Py.all_chars Py.isdigit d2 = true ->
  Py.no_digit_first s1 = true -> Py.no_digit_first s2 = true ->
  d1 +:+ s1 = d2 +:+ s2 -> d1 = d2.
Proof.
  revert d2. induction d1 as [|c d1 IH]; intros [|c' d2] H1 H2 N1 N2 E.
  - reflexivity.
  - change (EmptyString +:+ s1) with s1 in E. rewrite append_cons in E.
    subst s1. cbn in N1, H2. apply andb_prop in H2 as [H2 _].
    now rewrite H2 in N1.
  - change (EmptyString +:+ s2) with s2 in E. rewrite append_cons in E.
    subst s2. cbn in N2, H1. apply andb_prop in H1 as [H1 _].
    now rewrite H1 in N2.
  - rewrite !append_cons in E. injection E as -> E.
    cbn in H1, H2. apply andb_prop in H1 as [_ H1].
    apply andb_prop in H2 as [_ H2]. f_equal. now apply IH.
Qed.

End ChatIds.

Section ChatTheorems.
Import PyVal ReportGenerator.
Variable strptime : string -> string -> option datetime.

(** X18.  The format check accepts exactly the lines the chat parser takes
    as the start of a message: a list of lines is detected as a chat when
    one of them, stripped, matches the pattern of the parser. *)
Theorem detection_agrees_with_parser (first_lines : list string) :
  _is_whatsapp_format first_lines
  = existsb (fun line =>
               match whatsapp_line_match (Py.strip line) with
               | Some _ => true
               | None => false
               end)
            first_lines.
Proof.
  unfold _is_whatsapp_format.
  induction first_lines as [|line lines IH]; [reflexivity|].
  cbn [existsb]. rewrite IH. f_equal.
  pose proof (matches_check (Py.strip line)) as H.
  destruct (matches whatsapp_line_pattern_check (Py.strip line)).
  - destruct (proj1 H eq_refl) as [x ->]. reflexivity.
  - destruct (whatsapp_line_match (Py.strip line)) as [x|]; [|reflexivity].
    assert (K : false = true) by (apply H; eauto). discriminate.
Qed.

(** X19.  A file that is detected as a chat (on its first five lines)
    gives at least one record when it is parsed as a chat. *)
Theorem detected_chat_has_records (content filename : string) :
  _is_whatsapp_format (firstn 5 (splitlines content)) = true ->
  _parse_whatsapp_content strptime content filename <> [].
Proof.
  intros H%existsb_firstn. unfold _parse_whatsapp_content.
  rewrite <- (existsb_enumerate _ _ 1) in H.
  pose proof (whatsapp_fold_matching strptime filename
                ("whatsapp_chat_" +:+ replace_dots (basename filename))
                _ [] H) as Hlen.
  intros E. rewrite E in Hlen. cbn in Hlen. lia.
Qed.

Lemma nodup_snoc {A} (l : list A) (x : A) :
  List.NoDup l -> ~ In x l -> List.NoDup (l ++ [x]).
Proof.
  induction 1 as [|y l Hy Hl IH]; intros Hx; cbn [app].
  - constructor; [intros [] | constructor].
  - constructor.
    + rewrite in_app_iff. cbn. intros [H|[H|[]]]; [now apply Hy|].
      apply Hx. left. congruence.
    + apply IH. intros H. apply Hx. now right.
Qed.

Lemma earlier_ids_fresh (filename : string) (start : nat) (ids : list string)
    (sfx : string) :
  earlier_ids filename start ids -> Py.no_digit_first sfx = true ->
  ~ In (filename +:+ "_line_" +:+ str_of_nat start +:+ sfx) ids.
Proof.
  intros H Hs Hin. unfold earlier_ids in H. rewrite Forall_forall in H.
  apply list_elem_of_In, H in Hin as (n & sfx' & Hn & Hs' & E).
  apply append_inj_l, append_inj_l in E.
  apply digits_suffix_inj in E;
    [| apply str_of_nat_digits | apply str_of_nat_digits | exact Hs | exact Hs'].
  apply str_of_nat_inj in E. lia.
Qed.

Lemma earlier_ids_snoc (filename : string) (start : nat) (ids : list string)
    (sfx : string) :
  earlier_ids filename start ids -> Py.no_digit_first sfx = true ->
  earlier_ids filename (S start)
              (ids ++ [filename +:+ "_line_" +:+ str_of_nat start +:+ sfx]).
Proof.
  intros H Hs. apply Forall_app. split.
  - eapply Forall_impl; [exact H|]. cbn.
    intros id (n & sfx' & Hn & Hs' & E). exists n, sfx'. repeat split; auto.
  - constructor; [|constructor]. exists start, sfx. repeat split; auto.
Qed.

Lemma chat_ids_fold (filename conversation_id : string) (lines : list string) :
  forall (start : nat) (ms : list message),
  List.NoDup (map Message_ID ms) ->
  earlier_ids filename start (map Message_ID ms) ->
  List.NoDup
    (map Message_ID
         (fold_left (whatsapp_step strptime filename conversation_id)
                    (enumerate start lines) ms)).
Proof.
  induction lines as [|line lines IH]; intros start ms Hnd He; [exact Hnd|].
  cbn [enumerate fold_left].
  assert (Hweak : earlier_ids filename (S start) (map Message_ID ms)).
  { eapply Forall_impl; [exact He|]. cbn.
    intros id (n & sfx & Hn & Hs & E). exists n, sfx. repeat split; auto. }
  destruct (whatsapp_step_cases strptime filename conversation_id ms start line)
    as [-> | [(d & t & s & m & _ & ->) | [-> | [text ->]]]].
  - now apply IH.
  - assert (Eid : Message_ID
                    (chat_message strptime filename conversation_id start d t s m)
                  = filename +:+ "_line_" +:+ str_of_nat start +:+ "").
    { cbn [chat_message Message_ID]. now rewrite append_empty_r. }
    apply IH; rewrite map_app; cbn [map]; rewrite Eid.
    + apply nodup_snoc; [exact Hnd | now apply earlier_ids_fresh].
    + now apply earlier_ids_snoc.
  - apply IH; rewrite map_app; cbn [map unformatted_message Message_ID].
    + apply nodup_snoc; [exact Hnd | now apply earlier_ids_fresh].
    + now apply earlier_ids_snoc.
  - apply IH; rewrite append_to_last_map by reflexivity; assumption.
Qed.

(** X20.  The records of a chat file all have the file name as their
    source and the same conversation id, made from the base name of the
    file; their message ids are pairwise distinct. *)
Theorem chat_records_identity (content filename : string) :
  let out := _parse_whatsapp_content strptime content filename in
  Forall (fun m => Source m = filename
                   /\ Conversation_ID m
                      = "whatsapp_chat_" +:+ replace_dots (basename filename))
         out
  /\ List.NoDup (map Message_ID out).
Proof.
  cbv zeta. unfold _parse_whatsapp_content. split.
  - apply whatsapp_fold_fields. constructor.
  - apply chat_ids_fold; constructor.
Qed.

End ChatTheorems.

Section ChatWitnesses.
Import PyVal ReportGenerator.

Lemma detected_chat_has_records_witness :
  _parse_whatsapp_content no_strptime
    ("Messages are end-to-end encrypted." +:+ Py.newline
     +:+ "12/25/23, 10:30 AM - John: Hi") "chat.txt"
  <> [].
Proof.
  apply (detected_chat_has_records no_strptime
           ("Messages are end-to-end encrypted." +:+ Py.newline
            +:+ "12/25/23, 10:30 AM - John: Hi") "chat.txt").
  vm_compute. reflexivity.
Defined.

End ChatWitnesses.

(** ** The two aggregators together *)

Section AggregatorFacts.
Import PyVal Metrics.
Variable strptime : string -> string -> option datetime.

Lemma valid_idem (results : list entry) : valid (valid results) = valid results.
Proof.
  unfold valid. induction results as [|e rs IH]; [reflexivity|].
  cbn [List.filter]. destruct (has_error e) eqn:E; cbn [negb List.filter].
  - exact IH.
  - rewrite E. cbn [negb]. now rewrite IH.
Qed.

(** [calculate_content_metrics], loop by loop. *)
Lemma content_metrics_spec (results : list entry) :
  calculate_content_metrics results
  = if existsb bad_formality (valid results) then raise AttributeError
    else
      bind (average_style_score (numeric_scores (valid results)))
        (fun avg_style_score =>
      ret (mkContentMetrics
             (length (valid results))
             (fold_left count_label
                (map (fun e => get e "Spam") (valid results)) spam_counts0)
             (fold_left count_label
                (map (fun e => get e "Sentiment") (valid results))
                sentiment_counts0)
             avg_style_score
             (fold_left count_label
                (map (fun e => formality_key (get e "Formality"))
                     (valid results))
                formality_counts0))).
Proof.
  unfold calculate_content_metrics. rewrite content_loop.
  destruct (existsb bad_formality (valid results)); reflexivity.
Qed.

(** X21.  The two aggregators fail on the same lists of records, with the
    same exception; when they return, they report the same formality
    counts, and the clarity suggestion is given exactly when the average
    style score that [calculate_content_metrics] reports is below 40. *)
Theorem aggregators_agree (results : list entry) :
  match calculate_content_metrics results,
        calculate_engagement_metrics strptime results with
  | inr m, inr b =>
      E_Formality_Counts b = Formality_Counts m
      /\ (In clarity_suggestion (Suggestions b)
          <-> (Average_Style_Score m <? 40)%float = true)
  | inl e1, inl e2 => e1 = e2
  | _, _ => False
  end.
Proof.
  rewrite content_metrics_spec, engagement_metrics_spec.
  destruct (existsb bad_formality (valid results)); cbn [raise]; [reflexivity|].
  destruct (average_style_score (numeric_scores (valid results))) as [err|avg];
    cbn [bind ret]; [reflexivity|].
  cbn [E_Formality_Counts Formality_Counts Suggestions Average_Style_Score].
  split; [reflexivity|].
  rewrite make_suggestions_spec.
  match goal with
  | |- In _ (suggestions_spec ?a ?f ?i ?t) <-> _ =>
      destruct (suggestions_spec_in strptime a f i t) as (Hc & _); exact Hc
  end.
Qed.

(** X22.  Records with an error field have no influence: each aggregator
    gives the same result (or raises the same exception) on a list of
    records and on the list without its error records. *)
Theorem error_records_are_ignored (results : list entry) :
  calculate_content_metrics (valid results)
  = calculate_content_metrics results
  /\ calculate_engagement_metrics strptime (valid results)
     = calculate_engagement_metrics strptime results.
Proof.
  rewrite !content_metrics_spec, !engagement_metrics_spec.
  unfold response_gaps. now rewrite !valid_idem.
Qed.

(** The loop over the senders, on the names that are counted. *)
Lemma fold_sender_step (results : list entry) (d : dict nat) :
  string_senders results ->
  fold_left sender_step (valid results) d
  = fold_left (fun d s => dict_update S 0 (VStr s) d)
              (omap sender_name results) d.
Proof.
  revert d. induction results as [|e rs IH]; intros d Hs; [reflexivity|].
  assert (Hrs : string_senders rs).
  { intros x Hx. apply Hs. now right. }
  unfold valid. cbn [List.filter omap list_omap]. fold (valid rs).
  unfold sender_name at 1.
  destruct (has_error e) eqn:Herr; cbn [negb]; [now apply IH|].
  cbn [fold_left]. unfold sender_step at 2.
  destruct (truthy (get e "Sender")) eqn:Ht.
  - destruct (Hs e (or_introl eq_refl) Herr Ht) as [s Es].
    rewrite Es in Ht |- *. cbn in Ht.
    destruct (Py.is_empty s); [discriminate|]. cbn [fold_left]. now apply IH.
  - destruct (get e "Sender") as [ | b | z | f | s | t]; try now apply IH.
    cbn in Ht. destruct (Py.is_empty s); [now apply IH | discriminate].
Qed.

Lemma occurrences_snoc (w s : string) (names : list string) :
  Py.occurrences w (names ++ [s])
  = Py.occurrences w names + (if String.eqb w s then 1 else 0).
Proof.
  unfold Py.occurrences. rewrite List.filter_app, length_app. cbn [List.filter].
  now destruct (String.eqb w s).
Qed.

Lemma occurrences_absent (w : string) (names : list string) :
  ~ In w names -> Py.occurrences w names = 0.
Proof.
  unfold Py.occurrences. induction names as [|x names IH]; [reflexivity|].
  cbn [In List.filter]. intros H.
  destruct (String.eqb_spec w x) as [->|_]; [tauto|]. apply IH. tauto.
Qed.

(** The dictionary of senders: one entry per name, in the order of the
    first record of each, with the number of its records. *)
Lemma sender_grouping (names : list string) :
  fold_left (fun d s => dict_update S 0 (VStr s) d) names []
  = map (fun s => (VStr s, Py.occurrences s names)) (distinct names).
Proof.
  induction names as [|s names IH] using rev_ind; [reflexivity|].
  rewrite fold_left_app. cbn [fold_left]. rewrite IH, distinct_snoc.
  destruct (existsb (String.eqb s) names) eqn:Hs.
  - apply existsb_eqb_in in Hs. rewrite app_nil_r.
    rewrite dict_update_present;
      [| apply NoDup_ListNoDup, distinct_nodup | now apply distinct_in].
    apply map_ext. intros c. rewrite occurrences_snoc, String.eqb_sym.
    destruct (String.eqb c s); [f_equal; lia | now rewrite Nat.add_0_r].
  - assert (Hnotin : ~ In s names).
    { intros H. apply existsb_eqb_in in H. congruence. }
    rewrite dict_update_absent by (now rewrite distinct_in).
    rewrite map_app. cbn [map]. f_equal.
    + apply map_ext_in. intros c Hc. rewrite occurrences_snoc.
      destruct (String.eqb_spec c s) as [->|_]; [|now rewrite Nat.add_0_r].
      rewrite distinct_in in Hc. tauto.
    + rewrite occurrences_snoc, String.eqb_refl,
        (occurrences_absent s names Hnotin). reflexivity.
Qed.

(** X23.  When the senders are strings, "Top Senders" lists every sender
    of a record without an error field whose sender is not empty, once, in
    the order of first appearance (neither sorted nor cut), with the number
    of such records of that sender. *)
Theorem top_senders_counts (results : list entry) :
  string_senders results ->
  match calculate_engagement_metrics strptime results with
  | inr m =>
      let names := omap sender_name results in
      Top_Senders m
      = map (fun s => (VStr s, Py.occurrences s names)) (distinct names)
  | inl _ => True
  end.
Proof.
  intros Hs. rewrite engagement_metrics_spec.
  destruct (existsb bad_formality (valid results)); [exact I|].
  destruct (average_style_score (numeric_scores (valid results))) as [err|avg];
    cbn [bind ret]; [exact I|].
  cbn [Top_Senders]. cbv zeta.
  now rewrite fold_sender_step, sender_grouping.
Qed.

End AggregatorFacts.

Section AggregatorWitnesses.
Import PyVal Metrics.

Lemma top_senders_counts_witness :
  match calculate_engagement_metrics no_strptime
          [test_entry "bob" 0%Z; test_entry "alice" 1%Z; test_entry "bob" 2%Z]
  with
  | inr m => Top_Senders m = [(VStr "bob", 2); (VStr "alice", 1)]
  | inl _ => True
  end.
Proof.
  apply (top_senders_counts no_strptime
           [test_entry "bob" 0%Z; test_entry "alice" 1%Z; test_entry "bob" 2%Z]).
  intros e [<-|[<-|[<-|[]]]] _ _; eexists; vm_compute; reflexivity.
Defined.

End AggregatorWitnesses.

(** ** The analysis of a file and the aggregators *)

Section ReportFacts.
Import PyVal Metrics ReportGenerator.
Variable strptime : string -> string -> option datetime.
Variable strftime : datetime -> string -> string.

Lemma sentiment_cases (text : string) :
  SentimentAnalyzer.analyze text = "positive"
  \/ SentimentAnalyzer.analyze text = "neutral"
  \/ SentimentAnalyzer.analyze text = "negative".
Proof.
  unfold SentimentAnalyzer.analyze.
  destruct (Py.is_empty (Py.strip text)); [right; now left|].
  destruct (fold_left SentimentAnalyzer.count_word _ _) as [p n].
  destruct (Nat.ltb n p); [now left|].
  destruct (Nat.ltb p n); [right; now right | right; now left].
Qed.

Lemma formality_cases (text : string) :
  StyleAnalyzer.Formality (StyleAnalyzer.analyze text) = "formal"
  \/ StyleAnalyzer.Formality (StyleAnalyzer.analyze text) = "informal"
  \/ StyleAnalyzer.Formality (StyleAnalyzer.analyze text) = "neutral".
Proof.
  rewrite style_tokens.
  destruct (StyleAnalyzer._tokenize text); [right; now right|].
  apply classify_cases.
Qed.

Lemma analysed_get (m : parsed_message) (spam_status sentiment : string)
    (style : StyleAnalyzer.result) :
  let e := analysed m spam_status sentiment style in
  has_error e = false
  /\ get e "Spam" = VStr spam_status
  /\ get e "Sentiment" = VStr sentiment
  /\ get e "Formality" = VStr (StyleAnalyzer.Formality style)
  /\ get e "Style Score" = VFloat (StyleAnalyzer.Style_Score style).
Proof.
  cbv zeta. unfold analysed, has_error, get. repeat split; by simplify_map_eq.
Qed.

Lemma timestamp_to_string_get (e : entry) (key : string) :
  key <> "Timestamp" ->
  timestamp_to_string strftime e !! key = e !! key.
Proof.
  intros H. unfold timestamp_to_string.
  destruct (get e "Timestamp"); try reflexivity.
  now rewrite lookup_insert_ne.
Qed.

Lemma timestamp_to_string_labelled (e : entry) :
  well_labelled e -> well_labelled (timestamp_to_string strftime e).
Proof.
  unfold well_labelled, has_error, get.
  now rewrite !timestamp_to_string_get by discriminate.
Qed.

Lemma analyse_step_labelled (st : SpamDetector.t * list entry)
    (msg_data : parsed_message) :
  Forall well_labelled (snd st) ->
  Forall well_labelled (snd (analyse_step st msg_data)).
Proof.
  destruct st as [d rs]. intros H. unfold analyse_step.
  destruct (Py.is_empty (Py.strip (P_Message msg_data))); [exact H|].
  destruct (SpamDetector.predict d (P_Message msg_data)) as [verdict d'].
  cbn [snd]. apply Forall_app. split; [exact H|].
  constructor; [|constructor].
  destruct (analysed_get msg_data (if verdict then "SPAM" else "HAM")
              (SentimentAnalyzer.analyze (P_Message msg_data))
              (StyleAnalyzer.analyze (P_Message msg_data)))
    as (H1 & H2 & H3 & H4 & H5).
  unfold well_labelled. rewrite H1, H2, H3, H4, H5.
  split; [reflexivity|]. split; [destruct verdict; auto|].
  split.
  { destruct (sentiment_cases (P_Message msg_data)) as [->|[->| ->]]; auto. }
  split.
  { destruct (formality_cases (P_Message msg_data)) as [->|[->| ->]]; auto. }
  eauto.
Qed.

Lemma analysed_results_labelled (spam_detector : SpamDetector.t)
    (full_content file_path : string) :
  Forall well_labelled
         (analysed_results strptime strftime spam_detector full_content
                           file_path).
Proof.
  unfold analysed_results.
  assert (H : forall ms st, Forall well_labelled (snd st) ->
            Forall well_labelled (snd (fold_left analyse_step ms st))).
  { induction ms as [|m ms IH]; intros st Hst; [exact Hst|].
    cbn [fold_left]. now apply IH, analyse_step_labelled. }
  specialize (H (parse_file strptime full_content file_path)
                (spam_detector, []) (List.Forall_nil _)).
  destruct (fold_left analyse_step _ _) as [d rs]. cbn [snd] in H.
  apply Forall_forall. intros e He.
  apply list_elem_of_In, in_map_iff in He as (e0 & <- & He0).
  apply timestamp_to_string_labelled.
  rewrite Forall_forall in H. now apply H, list_elem_of_In.
Qed.

(** On well-labelled records nothing is skipped and nothing raises. *)
Lemma labelled_valid (rs : list entry) :
  Forall well_labelled rs -> valid rs = rs.
Proof.
  unfold valid. induction 1 as [|e rs (He & _) _ IH]; [reflexivity|].
  cbn [List.filter]. rewrite He. cbn [negb]. now rewrite IH.
Qed.

Lemma labelled_formality (rs : list entry) :
  Forall well_labelled rs -> existsb bad_formality rs = false.
Proof.
  induction 1 as [|e rs (_ & _ & _ & Hf & _) _ IH]; [reflexivity|].
  cbn [existsb]. rewrite IH. unfold bad_formality.
  destruct Hf as [->|[->| ->]]; reflexivity.
Qed.

Lemma labelled_scores (rs : list entry) :
  Forall well_labelled rs ->
  exists fs, numeric_scores rs = map NFloat fs /\ length fs = length rs.
Proof.
  induction 1 as [|e rs (_ & _ & _ & _ & f & Hf) _ (fs & IH & Hlen)].
  - now exists [].
  - exists (f :: fs). rewrite numeric_scores_cons, IH. unfold collect_score.
    rewrite Hf. cbn. split; [reflexivity | now rewrite Hlen].
Qed.

Lemma average_of_floats (fs : list float) :
  exists avg, average_style_score (map NFloat fs) = inr avg.
Proof.
  destruct fs as [|g gs]; [now exists 0%float|].
  unfold average_style_score. cbn [map]. unfold rounded_mean.
  change (NFloat g :: map NFloat gs) with (map NFloat (g :: gs)).
  rewrite sum_floats. cbn [bind ret truediv_len]. eauto.
Qed.

(** Tests of which exactly one holds of every element split the list. *)
Lemma filter_partition2 {A} (p q : A -> bool) (l : list A) :
  Forall (fun x => xorb (p x) (q x) = true) l ->
  length (List.filter p l) + length (List.filter q l) = length l.
Proof.
  induction 1 as [|x l Hx _ IH]; [reflexivity|].
  cbn [List.filter]. destruct (p x), (q x); cbn in Hx; try discriminate;
    cbn [length]; lia.
Qed.

Lemma filter_partition3 {A} (p q r : A -> bool) (l : list A) :
  Forall (fun x => (p x && negb (q x) && negb (r x))
                   || (negb (p x) && q x && negb (r x))
                   || (negb (p x) && negb (q x) && r x) = true) l ->
  length (List.filter p l) + length (List.filter q l)
  + length (List.filter r l) = length l.
Proof.
  induction 1 as [|x l Hx _ IH]; [reflexivity|].
  cbn [List.filter]. destruct (p x), (q x), (r x); cbn in Hx;
    try discriminate; cbn [length]; lia.
Qed.

(** X24.  The records that the analysis of a file hands to the aggregators
    are well labelled, so neither aggregator raises on them, no record is
    left out of the total, and every tally is complete: the spam counts,
    the sentiment counts and the formality counts each sum to the number of
    records exactly. *)
Theorem report_tallies_are_complete (spam_detector : SpamDetector.t)
    (full_content file_path : string) :
  let results :=
    analysed_results strptime strftime spam_detector full_content file_path in
  Forall well_labelled results
  /\ match calculate_content_metrics results,
           calculate_engagement_metrics strptime results with
     | inr m, inr b =>
         Total_Messages m = length results
         /\ counter (Spam_Counts m) "SPAM" + counter (Spam_Counts m) "HAM"
            = length results
         /\ counter (Sentiment_Counts m) "positive"
            + counter (Sentiment_Counts m) "neutral"
            + counter (Sentiment_Counts m) "negative" = length results
         /\ counter (Formality_Counts m) "formal"
            + counter (Formality_Counts m) "informal"
            + counter (Formality_Counts m) "neutral" = length results
     | _, _ => False
     end.
Proof.
  cbv zeta.
  pose proof (analysed_results_labelled spam_detector full_content file_path)
    as Hl.
  set (results := analysed_results _ _ _ _ _) in *. clearbody results.
  split; [exact Hl|].
  rewrite content_metrics_spec, engagement_metrics_spec.
  rewrite (labelled_valid _ Hl), (labelled_formality _ Hl).
  destruct (labelled_scores _ Hl) as (fs & -> & _).
  destruct (average_of_floats fs) as [avg ->]. cbn [bind ret].
  cbn [Total_Messages Spam_Counts Sentiment_Counts Formality_Counts].
  rewrite !(tally_counter _ _ _ _ _ spam_counts0_lookup) by reflexivity.
  rewrite !(tally_counter _ _ _ _ _ sentiment_counts0_lookup) by reflexivity.
  rewrite !(tally_counter _ _ (fun e => formality_key (get e "Formality")) _ _
              formality_counts0_lookup) by reflexivity.
  split; [reflexivity|]. split; [|split].
  - apply filter_partition2. eapply Forall_impl; [exact Hl|].
    intros e (_ & [->| ->] & _); reflexivity.
  - apply filter_partition3. eapply Forall_impl; [exact Hl|].
    intros e (_ & _ & [->|[->| ->]] & _); reflexivity.
  - apply filter_partition3. eapply Forall_impl; [exact Hl|].
    intros e (_ & _ & _ & [->|[->| ->]] & _); reflexivity.
Qed.

(** X25.  A file that is neither detected as a chat nor holds the email
    boundary, and has no blank line, gives no result at all: the whole text
    is read as headers, the body is empty, and the message is skipped. *)
Theorem text_without_blank_line_is_skipped (spam_detector : SpamDetector.t)
    (full_content file_path : string) :
  _is_whatsapp_format (firstn 5 (splitlines full_content)) = false ->
  _has_email_boundary full_content = false ->
  Forall (fun line => String.eqb (Py.strip line) "" = false)
         (splitlines full_content) ->
  analysed_results strptime strftime spam_detector full_content file_path = [].
Proof.
  intros Hw Hb Hlines. unfold analysed_results, parse_file.
  rewrite Hw, Hb. unfold _parse_single_email_block.
  rewrite parse_email_lines_no_blank by exact Hlines.
  reflexivity.
Qed.

End ReportFacts.

Section ReportWitnesses.
Import PyVal Metrics ReportGenerator.

Lemma text_without_blank_line_is_skipped_witness :
  analysed_results no_strptime (fun _ _ => "") SpamDetector.test_detector
    ("Hello there" +:+ Py.newline +:+ "See you soon") "note.txt"
  = [].
Proof.
  apply (text_without_blank_line_is_skipped no_strptime (fun _ _ => "")
           SpamDetector.test_detector
           ("Hello there" +:+ Py.newline +:+ "See you soon") "note.txt").
  - vm_compute. reflexivity.
  - vm_compute. reflexivity.
  - vm_compute. repeat constructor.
Defined.

End ReportWitnesses.

(** ** The records of a report, one by one *)

Section ReportRecords.
Import PyVal Metrics ReportGenerator.
Variable strptime : string -> string -> option datetime.
Variable strftime : datetime -> string -> string.

Lemma same_reads_trans (a b c : SpamDetector.t) :
  SpamDetector.same_reads a b -> SpamDetector.same_reads b c ->
  SpamDetector.same_reads a c.
Proof.
  intros (A1 & A2 & A3 & A4 & A5 & A6 & A7) (B1 & B2 & B3 & B4 & B5 & B6 & B7).
  unfold SpamDetector.same_reads.
  repeat split; try congruence; intros w; rewrite ?A4, ?A5; auto.
Qed.

(** The verdict of an instance that reads like [d] is the verdict of [d]. *)
Lemma predict_same_reads_verdict (d d' : SpamDetector.t) (message : string) :
  SpamDetector.same_reads d d' ->
  fst (SpamDetector.predict d' message) = fst (SpamDetector.predict d message)
  /\ SpamDetector.same_reads d (snd (SpamDetector.predict d' message)).
Proof.
  intros H. split.
  - rewrite !(predict_verdict _ _ float64_zero_law). symmetry.
    now apply predict_spec_same_reads.
  - eapply same_reads_trans; [exact H | apply predict_same_reads].
Qed.

Lemma analyse_fold (d : SpamDetector.t) (ms : list parsed_message) :
  forall (d' : SpamDetector.t) (rs : list entry),
  SpamDetector.same_reads d d' ->
  snd (fold_left analyse_step ms (d', rs))
  = rs
    ++ map (fun m =>
              analysed m
                (if fst (SpamDetector.predict d (P_Message m))
                 then "SPAM" else "HAM")
                (SentimentAnalyzer.analyze (P_Message m))
                (StyleAnalyzer.analyze (P_Message m)))
           (List.filter
              (fun m => negb (Py.is_empty (Py.strip (P_Message m)))) ms).
Proof.
  induction ms as [|m ms IH]; intros d' rs H.
  - cbn. now rewrite app_nil_r.
  - cbn [fold_left List.filter]. unfold analyse_step at 2.
    destruct (Py.is_empty (Py.strip (P_Message m))); cbn [negb].
    + now apply IH.
    + destruct (predict_same_reads_verdict d d' (P_Message m) H) as [Hv Hs].
      destruct (SpamDetector.predict d' (P_Message m)) as [verdict d''].
      cbn [fst snd] in Hv, Hs. rewrite (IH d'' _ Hs). cbn [map].
      rewrite <- app_assoc. cbn [app]. now rewrite Hv.
Qed.

(** X9.  Every message of a file is analysed on its own: the results are,
    in order, the parsed messages with a body that is not blank, each with
    the sentiment and the style of its body and with the spam label that
    the detector gives it as it was before the first prediction (no
    prediction depends on the ones made before it); messages with a blank
    body are left out. *)
Theorem report_records_are_analysed_one_by_one (spam_detector : SpamDetector.t)
    (full_content file_path : string) :
  analysed_results strptime strftime spam_detector full_content file_path
  = map (fun m =>
           timestamp_to_string strftime
             (analysed m
                (if fst (SpamDetector.predict spam_detector (P_Message m))
                 then "SPAM" else "HAM")
                (SentimentAnalyzer.analyze (P_Message m))
                (StyleAnalyzer.analyze (P_Message m))))
        (List.filter (fun m => negb (Py.is_empty (Py.strip (P_Message m))))
                     (parse_file strptime full_content file_path)).
Proof.
  unfold analysed_results.
  pose proof (analyse_fold spam_detector
                (parse_file strptime full_content file_path)
                spam_detector [] (same_reads_refl spam_detector)) as H.
  destruct (fold_left analyse_step _ _) as [d rs]. cbn [snd app] in H.
  rewrite H. now rewrite map_map.
Qed.

End ReportRecords.

(** ** The email boundary and the blocks *)

Section BoundaryFacts.
Import Py ReportGenerator.

Lemma string_of_list_snoc (l : list ascii) (c : ascii) (s : string) :
  string_of_list_ascii (l ++ [c]) +:+ s
  = string_of_list_ascii l +:+ String c s.
Proof.
  induction l as [|x l IH]; [reflexivity|].
  cbn [app string_of_list_ascii]. now rewrite !append_cons, IH.
Qed.

Lemma split_from_length (sep : string) (s : string) :
  forall (cur : list ascii) (skip : nat),
  1 <= length (split_from sep cur skip s).
Proof.
  induction s as [|c s IH]; intros cur skip; cbn [split_from]; [cbn; lia|].
  destruct skip; [|apply IH].
  destruct (startswith (String c s) sep); [cbn [length]; lia | apply IH].
Qed.

Lemma split_without_separator (sep : string) (s : string) :
  forall cur : list ascii,
  contains sep s = false ->
  split_from sep cur 0 s = [string_of_list_ascii (rev cur) +:+ s].
Proof.
  induction s as [|c s IH]; intros cur H; cbn [split_from].
  - now rewrite append_empty_r.
  - cbn [contains] in H. apply orb_false_elim in H as [H1 H2].
    rewrite H1, (IH _ H2). cbn [rev]. now rewrite string_of_list_snoc.
Qed.

Lemma split_with_separator (sep : string) (s : string) :
  sep <> EmptyString ->
  forall cur : list ascii,
  contains sep s = true -> 2 <= length (split_from sep cur 0 s).
Proof.
  intros Hsep. induction s as [|c s IH]; intros cur H.
  - cbn in H. destruct sep; [congruence | discriminate].
  - cbn [contains] in H. cbn [split_from].
    destruct (startswith (String c s) sep).
    + cbn [length].
      pose proof (split_from_length sep s [] (String.length sep - 1)). lia.
    + apply IH. exact H.
Qed.

(** X26.  The check for the email boundary agrees with the split of the
    multi-email parser: when the separator is found, the content splits
    into at least two blocks; when it is not, the only block is the whole
    content. *)
Theorem boundary_check_agrees_with_split (file_content : string) :
  if _has_email_boundary file_content
  then 2 <= length (split file_content EMAIL_BOUNDARY_SEPARATOR)
  else split file_content EMAIL_BOUNDARY_SEPARATOR = [file_content].
Proof.
  unfold _has_email_boundary, split.
  destruct (contains EMAIL_BOUNDARY_SEPARATOR file_content) eqn:H.
  - apply split_with_separator; [discriminate | exact H].
  - now rewrite split_without_separator.
Qed.

End BoundaryFacts.

(** ** One more positive word *)

Section SentimentAppend.
Import Py SentimentAnalyzer.

Lemma mem_word (w : string) (S : list string) :
  forallb (fun x => negb (is_empty x) && all_chars is_az x) S = true ->
  mem w S = true -> word_of is_az w.
Proof.
  intros HS Hw. unfold mem in Hw. apply existsb_exists in Hw as (x & Hx & E).
  apply String.eqb_eq in E. subst x.
  rewrite forallb_forall in HS. apply HS in Hx.
  apply andb_prop in Hx as [Hne Haz]. split; [|exact Haz].
  intros ->. discriminate.
Qed.

Lemma sentiment_tokenize_app_word (text w : string) :
  word_of is_az w ->
  _tokenize (text +:+ " " +:+ w) = _tokenize text ++ [w].
Proof.
  intros Hw. unfold _tokenize. rewrite lower_app.
  change (lower (" " +:+ w)) with (String " " (lower w)).
  rewrite (findall_runs_app is_az " "%char) by reflexivity.
  rewrite (lower_word w).
  - now rewrite (findall_runs_one_word _ _ Hw).
  - destruct Hw as [_ Hw]. apply (all_chars_weaken is_az); [|exact Hw].
    apply is_az_is_az_apos.
Qed.

(** X27.  One more positive word never hurts: when the sentiment of a text
    is not ["negative"], the text followed by a space and a word of the
    positive list is ["positive"]. *)
Theorem positive_word_lifts_sentiment (text w : string) :
  mem w positive_words = true ->
  analyze text <> "negative" ->
  analyze (text +:+ " " +:+ w) = "positive".
Proof.
  intros Hw Hneg.
  assert (Hword : word_of is_az w).
  { apply (mem_word w positive_words); [vm_compute; reflexivity | exact Hw]. }
  rewrite sentiment_tokens in Hneg |- *.
  rewrite (sentiment_tokenize_app_word _ _ Hword), fold_left_app.
  destruct (fold_left count_word (_tokenize text) (0, 0)) as [p n].
  cbn [fold_left]. unfold count_word. rewrite Hw.
  destruct (Nat.ltb_spec n p) as [H1|H1].
  - destruct (Nat.ltb_spec n (S p)); [reflexivity | lia].
  - destruct (Nat.ltb_spec p n) as [H2|H2]; [congruence|].
    destruct (Nat.ltb_spec n (S p)); [reflexivity | lia].
Qed.

Lemma positive_word_lifts_sentiment_witness :
  analyze ("not good" +:+ " " +:+ "great") = "positive".
Proof.
  apply (positive_word_lifts_sentiment "not good" "great").
  - vm_compute. reflexivity.
  - vm_compute. discriminate.
Defined.

End SentimentAppend.
